(** * RBDL: the body tree (Model.cc) and the constraint registry (Constraints.h)

    A shallow embedding of [src/src/Model.cc] and of the inline members of
    [struct ConstraintSet] in [src/include/rbdl/Constraints.h], together with
    the properties established about them.

    Conventions.
    - [unsigned int] is a [Z] in [0, 2^32); every arithmetic result that the
      source stores in an [unsigned int] goes through [u32].
    - [double] is the kernel's binary64 [float].
    - [std::vector<T>] is [list T]; [push_back] is [++ [x]]; [.at(i)] throws
      when [i] is out of range.  Sizes ([size_t], Eigen's [Index]) are not
      bounded.
    - [assert] is a checked precondition: a failed assertion ends the call with
      [Abort].  When every assertion holds, builds with and without [NDEBUG]
      behave alike. *)

From Stdlib Require Import ZArith Floats.PrimFloat.
From stdpp Require Import base list strings.

Set Warnings "-inexact-float".
Local Open Scope Z_scope.

(** ** Machine integers *)

(** [std::numeric_limits<unsigned int>::max()] *)
Definition UINT_MAX : Z := 2 ^ 32 - 1.

(** Conversion of an integer value to [unsigned int]. *)
Definition u32 (z : Z) : Z := z mod 2 ^ 32.

(** ** Dense vectors of doubles *)

(** [Vector3d (x, y, z)] *)
Inductive Vector3d : Type := Vec3 (x y z : float).

(** [Vector2d (a, b)] *)
Inductive Vector2d : Type := Vec2 (a b : float).

(** [SpatialVector (a0, a1, a2, a3, a4, a5)] *)
Inductive SpatialVector : Type := SVec (a0 a1 a2 a3 a4 a5 : float).

(** [VectorNd]: a dynamically sized column of doubles. *)
Abbreviation VectorNd := (list float).

(** [MatrixNd]: a dynamically sized matrix, as the list of its rows. *)
Abbreviation MatrixNd := (list (list float)).

(** [VectorNd::Zero (n)] *)
Definition VectorNd_Zero (n : Z) : VectorNd := replicate (Z.to_nat n) 0%float.

(** [v.size()] *)
Definition VectorNd_size (v : VectorNd) : Z := Z.of_nat (length v).

(** ** Joints (the part of Joint.h that Model.cc reads) *)

(** The enumerators of [JointType] that Model.cc names. *)
Inductive JointType : Type :=
| JointTypeUndefined
| JointTypeRevolute
| JointTypePrismatic.

#[global] Instance JointType_eq_dec : EqDecision JointType.
Proof. solve_decision. Defined.

(** [struct Joint]: the two members Model.cc reads. *)
Record Joint : Type := mkJoint {
  mJointType : JointType;
  mJointAxis : SpatialVector;
}.

(** ** Declarations made in other headers

    Model.cc and Constraints.h use types, constants and functions declared in
    rbdl_math.h, mathutils.h, Body.h, Joint.h and Model.h.  They are taken as
    parameters: every definition and theorem below holds for any choice of
    them. *)
Class Externals : Type := {
  (** rbdl_math.h: 6x6 matrices and [SpatialMatrixIdentity] *)
  SpatialMatrix : Type;
  SpatialMatrixIdentity : SpatialMatrix;
  (** rbdl_math.h: [SpatialTransform], its default constructor, and [Xtrans] *)
  SpatialTransform : Type;
  SpatialTransform_default : SpatialTransform;
  Xtrans : Vector3d -> SpatialTransform;
  (** rbdl_math.h: coefficient [i] of a vector after [resize (n)]; which
      coefficients survive is up to the linear algebra backend *)
  resized_coeff : Z -> VectorNd -> nat -> float;
  (** rbdl_math.h: [Math::LinearSolver] and one of its enumerators *)
  LinearSolver : Type;
  LinearSolverColPivHouseholderQR : LinearSolver;
  (** Eigen's decomposition objects kept in the constraint set *)
  HouseholderQR : Type;
  HouseholderQR_default : HouseholderQR;
  FullPivHouseholderQR : Type;
  FullPivHouseholderQR_default : FullPivHouseholderQR;
  (** Body.h: [struct Body], [Body ()], [Body (mass, com, gyration_radii)]
      and the member [mSpatialInertia] *)
  Body : Type;
  Body_default : Body;
  Body_ctor : float -> Vector3d -> Vector3d -> Body;
  mSpatialInertia : Body -> SpatialMatrix;
  (** Joint.h: [Joint ()], and the spatial axis that
      [Joint (joint_type, joint_axis)] derives from its arguments *)
  Joint_default : Joint;
  Joint_axis : JointType -> Vector3d -> SpatialVector;
  (** Model.h: the default value of [AddBody]'s parameter [body_name] *)
  AddBody_default_body_name : string;
  (** Constraints.h: the address of a [CustomConstraint] object *)
  CustomConstraintPtr : Type;
}.

(** [q.resize (n)] *)
Definition VectorNd_resize {ext : Externals} (n : Z) (v : VectorNd) : VectorNd :=
  map (resized_coeff n v) (seq 0 (Z.to_nat n)).

(** [Joint (joint_type, joint_axis)]: stores the type it is given. *)
Definition Joint_ctor {ext : Externals} (joint_type : JointType) (joint_axis : Vector3d) : Joint :=
  {| mJointType := joint_type; mJointAxis := Joint_axis joint_type joint_axis |}.

(** ** Outcome of a member function call *)

(** A call returns a value and leaves a state ([Ok]), throws
    [std::out_of_range] from [.at()] leaving a state ([Throw]), fails an
    assertion ([Abort]), or is still running when the fuel given to its loop
    is used up ([Timeout]). *)
Inductive outcome (St A : Type) : Type :=
| Ok (a : A) (s : St)
| Throw (s : St)
| Abort
| Timeout.
Arguments Ok {St A} a s.
Arguments Throw {St A} s.
Arguments Abort {St A}.
Arguments Timeout {St A}.

Definition M (St A : Type) : Type := St -> outcome St A.

Definition ret {St A} (a : A) : M St A := fun s => Ok a s.

Definition bind {St A B} (c : M St A) (k : A -> M St B) : M St B :=
  fun s =>
    match c s with
    | Ok a s' => k a s'
    | Throw s' => Throw s'
    | Abort => Abort
    | Timeout => Timeout
    end.

Definition gets {St A} (f : St -> A) : M St A := fun s => Ok (f s) s.

Definition modify {St} (f : St -> St) : M St unit := fun s => Ok tt (f s).

Definition throw {St A} : M St A := fun s => Throw s.

(** [assert (b)] *)
Definition assert_ {St} (b : bool) : M St unit :=
  fun s => if b then Ok tt s else Abort.

(** [member = x;] *)
Definition assign {St A} (set : A -> St -> St) (x : A) : M St unit :=
  modify (set x).

(** [member.push_back (x);] *)
Definition push_back {St A} (get : St -> list A) (set : list A -> St -> St)
  (x : A) : M St unit :=
  modify (fun s => set (get s ++ [x]) s).

Notation "x <- c1 ;; c2" := (bind c1 (fun x => c2))
  (at level 100, c1 at next level, right associativity).
Notation "c1 ;; c2" := (bind c1 (fun _ => c2))
  (at level 100, right associativity).

(** [member.at (i) = x;] *)
Definition at_assign {St A} (get : St -> list A) (set : list A -> St -> St)
  (i : Z) (x : A) : M St unit :=
  l <- gets get ;;
  match l !! Z.to_nat i with
  | Some _ => modify (set (<[Z.to_nat i := x]> l))
  | None => throw
  end.

(** [member.at (i).push_back (x);] *)
Definition at_push_back {St A} (get : St -> list (list A))
  (set : list (list A) -> St -> St) (i : Z) (x : A) : M St unit :=
  l <- gets get ;;
  match l !! Z.to_nat i with
  | Some l_i => modify (set (<[Z.to_nat i := l_i ++ [x]]> l))
  | None => throw
  end.

(** * Model.cc *)

Module Model.

(** The loop of [Model::GetBodyId]:
    [for (unsigned int i = 0; i < mBodyNames.size(); i++)
       if (mBodyNames[i] == id) return i;]
    followed by [return std::numeric_limits<unsigned int>::max()].
    The counter is an [unsigned int], so [i++] wraps around; the loop is given
    [fuel] iterations and answers [None] when they are used up. *)
Fixpoint GetBodyId_loop (fuel : nat) (names : list string) (id : string) (i : Z)
  : option Z :=
  match fuel with
  | O => None
  | S fuel' =>
    if bool_decide (i < Z.of_nat (length names)) then
      match names !! Z.to_nat i with
      | Some name_i =>
        if bool_decide (name_i = id) then Some i
        else GetBodyId_loop fuel' names id (u32 (i + 1))
      | None => None
      end
    else Some UINT_MAX
  end.

Section Model.
Context {ext : Externals}.

(** [struct Model]: the members Model.cc touches, in the order [Init] sets
    them. *)
Record Model : Type := mkModel {
  experimental_floating_base : bool;
  lambda : list Z;
  mu : list (list Z);
  dof_count : Z;
  gravity : Vector3d;
  q : VectorNd;
  qdot : VectorNd;
  qddot : VectorNd;
  tau : VectorNd;
  v : list SpatialVector;
  a : list SpatialVector;
  mJoints : list Joint;
  S : list SpatialVector;
  X_T : list SpatialTransform;
  c : list SpatialVector;
  IA : list SpatialMatrix;
  pA : list SpatialVector;
  U : list SpatialVector;
  u : VectorNd;
  d : VectorNd;
  f : list SpatialVector;
  Ic : list SpatialMatrix;
  X_lambda : list SpatialTransform;
  X_base : list SpatialTransform;
  mBodies : list Body;
  mBodyNames : list string;
}.

(** Assignment to one member, the others kept. *)
Definition set_experimental_floating_base (x : bool) (m : Model) : Model :=
  {| experimental_floating_base := x; lambda := lambda m; mu := mu m;
     dof_count := dof_count m; gravity := gravity m; q := q m;
     qdot := qdot m; qddot := qddot m; tau := tau m; v := v m; a := a m;
     mJoints := mJoints m; S := S m; X_T := X_T m; c := c m; IA := IA m;
     pA := pA m; U := U m; u := u m; d := d m; f := f m; Ic := Ic m;
     X_lambda := X_lambda m; X_base := X_base m; mBodies := mBodies m;
     mBodyNames := mBodyNames m |}.

Definition set_lambda (x : list Z) (m : Model) : Model :=
  {| experimental_floating_base := experimental_floating_base m; lambda := x;
     mu := mu m; dof_count := dof_count m; gravity := gravity m; q := q m;
     qdot := qdot m; qddot := qddot m; tau := tau m; v := v m; a := a m;
     mJoints := mJoints m; S := S m; X_T := X_T m; c := c m; IA := IA m;
     pA := pA m; U := U m; u := u m; d := d m; f := f m; Ic := Ic m;
     X_lambda := X_lambda m; X_base := X_base m; mBodies := mBodies m;
     mBodyNames := mBodyNames m |}.

Definition set_mu (x : list (list Z)) (m : Model) : Model :=
  {| experimental_floating_base := experimental_floating_base m;
     lambda := lambda m; mu := x; dof_count := dof_count m;
     gravity := gravity m; q := q m; qdot := qdot m; qddot := qddot m;
     tau := tau m; v := v m; a := a m; mJoints := mJoints m; S := S m;
     X_T := X_T m; c := c m; IA := IA m; pA := pA m; U := U m; u := u m;
     d := d m; f := f m; Ic := Ic m; X_lambda := X_lambda m;
     X_base := X_base m; mBodies := mBodies m; mBodyNames := mBodyNames m |}.

Definition set_dof_count (x : Z) (m : Model) : Model :=
  {| experimental_floating_base := experimental_floating_base m;
     lambda := lambda m; mu := mu m; dof_count := x; gravity := gravity m;
     q := q m; qdot := qdot m; qddot := qddot m; tau := tau m; v := v m;
     a := a m; mJoints := mJoints m; S := S m; X_T := X_T m; c := c m;
     IA := IA m; pA := pA m; U := U m; u := u m; d := d m; f := f m;
     Ic := Ic m; X_lambda := X_lambda m; X_base := X_base m;
     mBodies := mBodies m; mBodyNames := mBodyNames m |}.

Definition set_gravity (x : Vector3d) (m : Model) : Model :=
  {| experimental_floating_base := experimental_floating_base m;
     lambda := lambda m; mu := mu m; dof_count := dof_count m; gravity := x;
     q := q m; qdot := qdot m; qddot := qddot m; tau := tau m; v := v m;
     a := a m; mJoints := mJoints m; S := S m; X_T := X_T m; c := c m;
     IA := IA m; pA := pA m; U := U m; u := u m; d := d m; f := f m;
     Ic := Ic m; X_lambda := X_lambda m; X_base := X_base m;
     mBodies := mBodies m; mBodyNames := mBodyNames m |}.

Definition set_q (x : VectorNd) (m : Model) : Model :=
  {| experimental_floating_base := experimental_floating_base m;
     lambda := lambda m; mu := mu m; dof_count := dof_count m;
     gravity := gravity m; q := x; qdot := qdot m; qddot := qddot m;
     tau := tau m; v := v m; a := a m; mJoints := mJoints m; S := S m;
     X_T := X_T m; c := c m; IA := IA m; pA := pA m; U := U m; u := u m;
     d := d m; f := f m; Ic := Ic m; X_lambda := X_lambda m;
     X_base := X_base m; mBodies := mBodies m; mBodyNames := mBodyNames m |}.

Definition set_qdot (x : VectorNd) (m : Model) : Model :=
  {| experimental_floating_base := experimental_floating_base m;
     lambda := lambda m; mu := mu m; dof_count := dof_count m;
     gravity := gravity m; q := q m; qdot := x; qddot := qddot m;
     tau := tau m; v := v m; a := a m; mJoints := mJoints m; S := S m;
     X_T := X_T m; c := c m; IA := IA m; pA := pA m; U := U m; u := u m;
     d := d m; f := f m; Ic := Ic m; X_lambda := X_lambda m;
     X_base := X_base m; mBodies := mBodies m; mBodyNames := mBodyNames m |}.

Definition set_qddot (x : VectorNd) (m : Model) : Model :=
  {| experimental_floating_base := experimental_floating_base m;
     lambda := lambda m; mu := mu m; dof_count := dof_count m;
     gravity := gravity m; q := q m; qdot := qdot m; qddot := x;
     tau := tau m; v := v m; a := a m; mJoints := mJoints m; S := S m;
     X_T := X_T m; c := c m; IA := IA m; pA := pA m; U := U m; u := u m;
     d := d m; f := f m; Ic := Ic m; X_lambda := X_lambda m;
     X_base := X_base m; mBodies := mBodies m; mBodyNames := mBodyNames m |}.

Definition set_tau (x : VectorNd) (m : Model) : Model :=
  {| experimental_floating_base := experimental_floating_base m;
     lambda := lambda m; mu := mu m; dof_count := dof_count m;
     gravity := gravity m; q := q m; qdot := qdot m; qddot := qddot m;
     tau := x; v := v m; a := a m; mJoints := mJoints m; S := S m;
     X_T := X_T m; c := c m; IA := IA m; pA := pA m; U := U m; u := u m;
     d := d m; f := f m; Ic := Ic m; X_lambda := X_lambda m;
     X_base := X_base m; mBodies := mBodies m; mBodyNames := mBodyNames m |}.

Definition set_v (x : list SpatialVector) (m : Model) : Model :=
  {| experimental_floating_base := experimental_floating_base m;
     lambda := lambda m; mu := mu m; dof_count := dof_count m;
     gravity := gravity m; q := q m; qdot := qdot m; qddot := qddot m;
     tau := tau m; v := x; a := a m; mJoints := mJoints m; S := S m;
     X_T := X_T m; c := c m; IA := IA m; pA := pA m; U := U m; u := u m;
     d := d m; f := f m; Ic := Ic m; X_lambda := X_lambda m;
     X_base := X_base m; mBodies := mBodies m; mBodyNames := mBodyNames m |}.

Definition set_a (x : list SpatialVector) (m : Model) : Model :=
  {| experimental_floating_base := experimental_floating_base m;
     lambda := lambda m; mu := mu m; dof_count := dof_count m;
     gravity := gravity m; q := q m; qdot := qdot m; qddot := qddot m;
     tau := tau m; v := v m; a := x; mJoints := mJoints m; S := S m;
     X_T := X_T m; c := c m; IA := IA m; pA := pA m; U := U m; u := u m;
     d := d m; f := f m; Ic := Ic m; X_lambda := X_lambda m;
     X_base := X_base m; mBodies := mBodies m; mBodyNames := mBodyNames m |}.

Definition set_mJoints (x : list Joint) (m : Model) : Model :=
  {| experimental_floating_base := experimental_floating_base m;
     lambda := lambda m; mu := mu m; dof_count := dof_count m;
     gravity := gravity m; q := q m; qdot := qdot m; qddot := qddot m;
     tau := tau m; v := v m; a := a m; mJoints := x; S := S m; X_T := X_T m;
     c := c m; IA := IA m; pA := pA m; U := U m; u := u m; d := d m;
     f := f m; Ic := Ic m; X_lambda := X_lambda m; X_base := X_base m;
     mBodies := mBodies m; mBodyNames := mBodyNames m |}.

Definition set_S (x : list SpatialVector) (m : Model) : Model :=
  {| experimental_floating_base := experimental_floating_base m;
     lambda := lambda m; mu := mu m; dof_count := dof_count m;
     gravity := gravity m; q := q m; qdot := qdot m; qddot := qddot m;
     tau := tau m; v := v m; a := a m; mJoints := mJoints m; S := x;
     X_T := X_T m; c := c m; IA := IA m; pA := pA m; U := U m; u := u m;
     d := d m; f := f m; Ic := Ic m; X_lambda := X_lambda m;
     X_base := X_base m; mBodies := mBodies m; mBodyNames := mBodyNames m |}.

Definition set_X_T (x : list SpatialTransform) (m : Model) : Model :=
  {| experimental_floating_base := experimental_floating_base m;
     lambda := lambda m; mu := mu m; dof_count := dof_count m;
     gravity := gravity m; q := q m; qdot := qdot m; qddot := qddot m;
     tau := tau m; v := v m; a := a m; mJoints := mJoints m; S := S m;
     X_T := x; c := c m; IA := IA m; pA := pA m; U := U m; u := u m;
     d := d m; f := f m; Ic := Ic m; X_lambda := X_lambda m;
     X_base := X_base m; mBodies := mBodies m; mBodyNames := mBodyNames m |}.

Definition set_c (x : list SpatialVector) (m : Model) : Model :=
  {| experimental_floating_base := experimental_floating_base m;
     lambda := lambda m; mu := mu m; dof_count := dof_count m;
     gravity := gravity m; q := q m; qdot := qdot m; qddot := qddot m;
     tau := tau m; v := v m; a := a m; mJoints := mJoints m; S := S m;
     X_T := X_T m; c := x; IA := IA m; pA := pA m; U := U m; u := u m;
     d := d m; f := f m; Ic := Ic m; X_lambda := X_lambda m;
     X_base := X_base m; mBodies := mBodies m; mBodyNames := mBodyNames m |}.

Definition set_IA (x : list SpatialMatrix) (m : Model) : Model :=
  {| experimental_floating_base := experimental_floating_base m;
     lambda := lambda m; mu := mu m; dof_count := dof_count m;
     gravity := gravity m; q := q m; qdot := qdot m; qddot := qddot m;
     tau := tau m; v := v m; a := a m; mJoints := mJoints m; S := S m;
     X_T := X_T m; c := c m; IA := x; pA := pA m; U := U m; u := u m;
     d := d m; f := f m; Ic := Ic m; X_lambda := X_lambda m;
     X_base := X_base m; mBodies := mBodies m; mBodyNames := mBodyNames m |}.

Definition set_pA (x : list SpatialVector) (m : Model) : Model :=
  {| experimental_floating_base := experimental_floating_base m;
     lambda := lambda m; mu := mu m; dof_count := dof_count m;
     gravity := gravity m; q := q m; qdot := qdot m; qddot := qddot m;
     tau := tau m; v := v m; a := a m; mJoints := mJoints m; S := S m;
     X_T := X_T m; c := c m; IA := IA m; pA := x; U := U m; u := u m;
     d := d m; f := f m; Ic := Ic m; X_lambda := X_lambda m;
     X_base := X_base m; mBodies := mBodies m; mBodyNames := mBodyNames m |}.

Definition set_U (x : list SpatialVector) (m : Model) : Model :=
  {| experimental_floating_base := experimental_floating_base m;
     lambda := lambda m; mu := mu m; dof_count := dof_count m;
     gravity := gravity m; q := q m; qdot := qdot m; qddot := qddot m;
     tau := tau m; v := v m; a := a m; mJoints := mJoints m; S := S m;
     X_T := X_T m; c := c m; IA := IA m; pA := pA m; U := x; u := u m;
     d := d m; f := f m; Ic := Ic m; X_lambda := X_lambda m;
     X_base := X_base m; mBodies := mBodies m; mBodyNames := mBodyNames m |}.

Definition set_u (x : VectorNd) (m : Model) : Model :=
  {| experimental_floating_base := experimental_floating_base m;
     lambda := lambda m; mu := mu m; dof_count := dof_count m;
     gravity := gravity m; q := q m; qdot := qdot m; qddot := qddot m;
     tau := tau m; v := v m; a := a m; mJoints := mJoints m; S := S m;
     X_T := X_T m; c := c m; IA := IA m; pA := pA m; U := U m; u := x;
     d := d m; f := f m; Ic := Ic m; X_lambda := X_lambda m;
     X_base := X_base m; mBodies := mBodies m; mBodyNames := mBodyNames m |}.

Definition set_d (x : VectorNd) (m : Model) : Model :=
  {| experimental_floating_base := experimental_floating_base m;
     lambda := lambda m; mu := mu m; dof_count := dof_count m;
     gravity := gravity m; q := q m; qdot := qdot m; qddot := qddot m;
     tau := tau m; v := v m; a := a m; mJoints := mJoints m; S := S m;
     X_T := X_T m; c := c m; IA := IA m; pA := pA m; U := U m; u := u m;
     d := x; f := f m; Ic := Ic m; X_lambda := X_lambda m;
     X_base := X_base m; mBodies := mBodies m; mBodyNames := mBodyNames m |}.

Definition set_f (x : list SpatialVector) (m : Model) : Model :=
  {| experimental_floating_base := experimental_floating_base m;
     lambda := lambda m; mu := mu m; dof_count := dof_count m;
     gravity := gravity m; q := q m; qdot := qdot m; qddot := qddot m;
     tau := tau m; v := v m; a := a m; mJoints := mJoints m; S := S m;
     X_T := X_T m; c := c m; IA := IA m; pA := pA m; U := U m; u := u m;
     d := d m; f := x; Ic := Ic m; X_lambda := X_lambda m;
     X_base := X_base m; mBodies := mBodies m; mBodyNames := mBodyNames m |}.

Definition set_Ic (x : list SpatialMatrix) (m : Model) : Model :=
  {| experimental_floating_base := experimental_floating_base m;
     lambda := lambda m; mu := mu m; dof_count := dof_count m;
     gravity := gravity m; q := q m; qdot := qdot m; qddot := qddot m;
     tau := tau m; v := v m; a := a m; mJoints := mJoints m; S := S m;
     X_T := X_T m; c := c m; IA := IA m; pA := pA m; U := U m; u := u m;
     d := d m; f := f m; Ic := x; X_lambda := X_lambda m; X_base := X_base m;
     mBodies := mBodies m; mBodyNames := mBodyNames m |}.

Definition set_X_lambda (x : list SpatialTransform) (m : Model) : Model :=
  {| experimental_floating_base := experimental_floating_base m;
     lambda := lambda m; mu := mu m; dof_count := dof_count m;
     gravity := gravity m; q := q m; qdot := qdot m; qddot := qddot m;
     tau := tau m; v := v m; a := a m; mJoints := mJoints m; S := S m;
     X_T := X_T m; c := c m; IA := IA m; pA := pA m; U := U m; u := u m;
     d := d m; f := f m; Ic := Ic m; X_lambda := x; X_base := X_base m;
     mBodies := mBodies m; mBodyNames := mBodyNames m |}.

Definition set_X_base (x : list SpatialTransform) (m : Model) : Model :=
  {| experimental_floating_base := experimental_floating_base m;
     lambda := lambda m; mu := mu m; dof_count := dof_count m;
     gravity := gravity m; q := q m; qdot := qdot m; qddot := qddot m;
     tau := tau m; v := v m; a := a m; mJoints := mJoints m; S := S m;
     X_T := X_T m; c := c m; IA := IA m; pA := pA m; U := U m; u := u m;
     d := d m; f := f m; Ic := Ic m; X_lambda := X_lambda m; X_base := x;
     mBodies := mBodies m; mBodyNames := mBodyNames m |}.

Definition set_mBodies (x : list Body) (m : Model) : Model :=
  {| experimental_floating_base := experimental_floating_base m;
     lambda := lambda m; mu := mu m; dof_count := dof_count m;
     gravity := gravity m; q := q m; qdot := qdot m; qddot := qddot m;
     tau := tau m; v := v m; a := a m; mJoints := mJoints m; S := S m;
     X_T := X_T m; c := c m; IA := IA m; pA := pA m; U := U m; u := u m;
     d := d m; f := f m; Ic := Ic m; X_lambda := X_lambda m;
     X_base := X_base m; mBodies := x; mBodyNames := mBodyNames m |}.

Definition set_mBodyNames (x : list string) (m : Model) : Model :=
  {| experimental_floating_base := experimental_floating_base m;
     lambda := lambda m; mu := mu m; dof_count := dof_count m;
     gravity := gravity m; q := q m; qdot := qdot m; qddot := qddot m;
     tau := tau m; v := v m; a := a m; mJoints := mJoints m; S := S m;
     X_T := X_T m; c := c m; IA := IA m; pA := pA m; U := U m; u := u m;
     d := d m; f := f m; Ic := Ic m; X_lambda := X_lambda m;
     X_base := X_base m; mBodies := mBodies m; mBodyNames := x |}.
(** [member.resize (dof_count + 1);] *)
Definition resize_dof (get : Model -> VectorNd) (set : VectorNd -> Model -> Model)
  : M Model unit :=
  modify (fun m => set (VectorNd_resize (u32 (dof_count m + 1)) (get m)) m).

(** [void Model::Init ()] *)
Definition Init : M Model unit :=
  assign set_experimental_floating_base false ;;
  let root_body := Body_default in
  let root_joint := Joint_default in
  let zero_position := Vec3 0 0 0 in
  let zero_spatial := SVec 0 0 0 0 0 0 in
  (* structural information *)
  push_back lambda set_lambda 0 ;;
  push_back mu set_mu [] ;;
  assign set_dof_count 0 ;;
  assign set_gravity (Vec3 0 (-9.81) 0) ;;
  (* state information *)
  assign set_q (VectorNd_Zero 1) ;;
  assign set_qdot (VectorNd_Zero 1) ;;
  assign set_qddot (VectorNd_Zero 1) ;;
  assign set_tau (VectorNd_Zero 1) ;;
  push_back v set_v zero_spatial ;;
  push_back a set_a zero_spatial ;;
  (* Joints *)
  push_back mJoints set_mJoints root_joint ;;
  push_back S set_S zero_spatial ;;
  push_back X_T set_X_T SpatialTransform_default ;;
  (* Dynamic variables *)
  push_back c set_c zero_spatial ;;
  push_back IA set_IA SpatialMatrixIdentity ;;
  push_back pA set_pA zero_spatial ;;
  push_back U set_U zero_spatial ;;
  assign set_u (VectorNd_Zero 1) ;;
  assign set_d (VectorNd_Zero 1) ;;
  push_back f set_f zero_spatial ;;
  push_back Ic set_Ic SpatialMatrixIdentity ;;
  (* Bodies *)
  push_back X_lambda set_X_lambda SpatialTransform_default ;;
  push_back X_base set_X_base SpatialTransform_default ;;
  push_back mBodies set_mBodies root_body ;;
  push_back mBodyNames set_mBodyNames "ROOT"%string.

(** [unsigned int Model::AddBody (parent_id, joint_frame, joint, body,
    body_name)] *)
Definition AddBody (parent_id : Z) (joint_frame : SpatialTransform)
  (joint : Joint) (body : Body) (body_name : string) : M Model Z :=
  lambda_size <- gets (fun m => length (lambda m)) ;;
  assert_ (bool_decide (0 < lambda_size)%nat) ;;
  assert_ (bool_decide (mJointType joint <> JointTypeUndefined)) ;;
  (* structural information *)
  push_back lambda set_lambda parent_id ;;
  push_back mu set_mu [] ;;
  q_size <- gets (fun m => VectorNd_size (q m)) ;;
  at_push_back mu set_mu parent_id (u32 q_size) ;;
  modify (fun m => set_dof_count (u32 (dof_count m + 1)) m) ;;
  (* state information *)
  resize_dof q set_q ;;
  resize_dof qdot set_qdot ;;
  resize_dof qddot set_qddot ;;
  resize_dof tau set_tau ;;
  push_back v set_v (SVec 0 0 0 0 0 0) ;;
  push_back a set_a (SVec 0 0 0 0 0 0) ;;
  (* Joints *)
  push_back mJoints set_mJoints joint ;;
  push_back S set_S (mJointAxis joint) ;;
  push_back X_T set_X_T joint_frame ;;
  (* Dynamic variables *)
  push_back c set_c (SVec 0 0 0 0 0 0) ;;
  push_back IA set_IA (mSpatialInertia body) ;;
  push_back pA set_pA (SVec 0 0 0 0 0 0) ;;
  push_back U set_U (SVec 0 0 0 0 0 0) ;;
  modify (fun m => set_d (VectorNd_Zero (u32 (dof_count m + 1))) m) ;;
  modify (fun m => set_u (VectorNd_Zero (u32 (dof_count m + 1))) m) ;;
  push_back f set_f (SVec 0 0 0 0 0 0) ;;
  push_back Ic set_Ic SpatialMatrixIdentity ;;
  (* Bodies *)
  push_back X_lambda set_X_lambda SpatialTransform_default ;;
  push_back X_base set_X_base SpatialTransform_default ;;
  push_back mBodies set_mBodies body ;;
  push_back mBodyNames set_mBodyNames body_name ;;
  gets (fun m => u32 (VectorNd_size (q m) - 1)).

(** [unsigned int Model::SetFloatingBaseBody (const Body &body)] *)
Definition SetFloatingBaseBody (body : Body) : M Model Z :=
  lambda_size <- gets (fun m => length (lambda m)) ;;
  assert_ (bool_decide (0 <= lambda_size)%nat) ;;
  experimental <- gets experimental_floating_base ;;
  if experimental : bool then
    (* we also will have 6 more degrees of freedom *)
    modify (fun m => set_dof_count (u32 (dof_count m + 6)) m) ;;
    resize_dof q set_q ;;
    resize_dof qdot set_qdot ;;
    resize_dof qddot set_qddot ;;
    resize_dof tau set_tau ;;
    (* parent is the maximum possible value to mark it as having no parent *)
    at_assign lambda set_lambda 0 UINT_MAX ;;
    (* Bodies *)
    at_assign X_lambda set_X_lambda 0 SpatialTransform_default ;;
    at_assign X_base set_X_base 0 SpatialTransform_default ;;
    at_assign mBodies set_mBodies 0 body ;;
    ret 0
  else
    (* Add five zero weight bodies and append the given body last. Order of
       the degrees of freedom is: tx ty tz rz ry rx *)
    let body_tx := Body_ctor 0 (Vec3 0 0 0) (Vec3 0 0 0) in
    let joint_tx := Joint_ctor JointTypePrismatic (Vec3 1 0 0) in
    body_tx_id <- AddBody 0 (Xtrans (Vec3 0 0 0)) joint_tx body_tx
                    AddBody_default_body_name ;;
    let body_ty := Body_ctor 0 (Vec3 0 0 0) (Vec3 0 0 0) in
    let joint_ty := Joint_ctor JointTypePrismatic (Vec3 0 1 0) in
    body_ty_id <- AddBody body_tx_id (Xtrans (Vec3 0 0 0)) joint_ty body_ty
                    AddBody_default_body_name ;;
    let body_tz := Body_ctor 0 (Vec3 0 0 0) (Vec3 0 0 0) in
    let joint_tz := Joint_ctor JointTypePrismatic (Vec3 0 0 1) in
    body_tz_id <- AddBody body_ty_id (Xtrans (Vec3 0 0 0)) joint_tz body_tz
                    AddBody_default_body_name ;;
    let body_rz := Body_ctor 0 (Vec3 0 0 0) (Vec3 0 0 0) in
    let joint_rz := Joint_ctor JointTypeRevolute (Vec3 0 0 1) in
    body_rz_id <- AddBody body_tz_id (Xtrans (Vec3 0 0 0)) joint_rz body_rz
                    AddBody_default_body_name ;;
    let body_ry := Body_ctor 0 (Vec3 0 0 0) (Vec3 0 0 0) in
    let joint_ry := Joint_ctor JointTypeRevolute (Vec3 0 1 0) in
    body_ry_id <- AddBody body_rz_id (Xtrans (Vec3 0 0 0)) joint_ry body_ry
                    AddBody_default_body_name ;;
    let joint_rx := Joint_ctor JointTypeRevolute (Vec3 1 0 0) in
    body_rx_id <- AddBody body_ry_id (Xtrans (Vec3 0 0 0)) joint_rx body
                    AddBody_default_body_name ;;
    ret body_rx_id.

(** [unsigned int Model::GetBodyId (const char *id)] *)
Definition GetBodyId (fuel : nat) (id : string) : M Model Z :=
  names <- gets mBodyNames ;;
  match GetBodyId_loop fuel names id 0 with
  | Some i => ret i
  | None => fun _ => Timeout
  end.

End Model.
End Model.

(** * Constraints.h *)

(** The members of [struct ConstraintSet] that the header declares from
    "Variables used by the Lagrangian methods" on: the workspace of the
    solvers.  They are gathered in one record, which [ConstraintSet] holds as
    its member [workspace]; no inline member function reads or writes one of
    them on its own. *)
Module Workspace.
Section Workspace.
Context {ext : Externals}.

Record t : Type := mk {
  H : MatrixNd;
  C : VectorNd;
  gamma : VectorNd;
  G : MatrixNd;
  A : MatrixNd;
  b : VectorNd;
  x : VectorNd;
  S : MatrixNd;
  P : MatrixNd;
  W : MatrixNd;
  Winv : MatrixNd;
  u : VectorNd;
  v : VectorNd;
  F : MatrixNd;
  GT : MatrixNd;
  g : VectorNd;
  Ru : MatrixNd;
  py : VectorNd;
  pz : VectorNd;
  Gi : MatrixNd;
  GSpi : MatrixNd;
  GSsi : MatrixNd;
  GSJ : MatrixNd;
  GT_qr : HouseholderQR;
  GPT_full_qr : FullPivHouseholderQR;
  GT_qr_Q : MatrixNd;
  GPT : MatrixNd;
  Y : MatrixNd;
  Z : MatrixNd;
  R : MatrixNd;
  qddot_y : VectorNd;
  qddot_z : VectorNd;
  AIdc : MatrixNd;
  KIdc : MatrixNd;
  bIdc : VectorNd;
  xIdc : VectorNd;
  vIdc : VectorNd;
  wIdc : VectorNd;
  K : MatrixNd;
  a : VectorNd;
  QDDot_t : VectorNd;
  QDDot_0 : VectorNd;
  f_t : list SpatialVector;
  f_ext_constraints : list SpatialVector;
  point_accel_0 : list Vector3d;
  d_pA : list SpatialVector;
  d_a : list SpatialVector;
  d_u : VectorNd;
  d_IA : list SpatialMatrix;
  d_U : list SpatialVector;
  d_d : VectorNd;
  d_multdof3_u : list Vector3d;
}.
Definition empty : t :=
  {| H := []; C := []; gamma := []; G := []; A := []; b := []; x := [];
     S := []; P := []; W := []; Winv := []; u := []; v := []; F := [];
     GT := []; g := []; Ru := []; py := []; pz := []; Gi := []; GSpi := [];
     GSsi := []; GSJ := []; GT_qr := HouseholderQR_default;
     GPT_full_qr := FullPivHouseholderQR_default; GT_qr_Q := []; GPT := [];
     Y := []; Z := []; R := []; qddot_y := []; qddot_z := []; AIdc := [];
     KIdc := []; bIdc := []; xIdc := []; vIdc := []; wIdc := []; K := [];
     a := []; QDDot_t := []; QDDot_0 := []; f_t := [];
     f_ext_constraints := []; point_accel_0 := []; d_pA := []; d_a := [];
     d_u := []; d_IA := []; d_U := []; d_d := []; d_multdof3_u := [] |}.

End Workspace.
End Workspace.

Module ConstraintSet.

(** [enum ConstraintType] *)
Inductive ConstraintType : Type :=
| ContactConstraint
| LoopConstraint
| ConstraintTypeCustom
| ConstraintTypeLast.

#[global] Instance ConstraintType_eq_dec : EqDecision ConstraintType.
Proof. solve_decision. Defined.

Section ConstraintSet.
Context {ext : Externals}.

(** [struct ConstraintSet] *)
Record ConstraintSet : Type := mkConstraintSet {
  linear_solver : LinearSolver;
  bound : bool;
  constraintType : list ConstraintType;
  name : list string;
  mContactConstraintIndices : list Z;
  mLoopConstraintIndices : list Z;
  mCustomConstraintIndices : list Z;
  mCustomConstraints : list CustomConstraintPtr;
  body : list Z;
  point : list Vector3d;
  normal : list Vector3d;
  body_p : list Z;
  body_s : list Z;
  X_p : list SpatialTransform;
  X_s : list SpatialTransform;
  constraintAxis : list SpatialVector;
  baumgarteParameters : list Vector2d;
  err : VectorNd;
  errd : VectorNd;
  acceleration : VectorNd;
  force : VectorNd;
  impulse : VectorNd;
  v_plus : VectorNd;
  workspace : Workspace.t;
}.

(** Assignment to one member, the others kept. *)
Definition set_linear_solver (x : LinearSolver) (cs : ConstraintSet) : ConstraintSet :=
  {| linear_solver := x; bound := bound cs;
     constraintType := constraintType cs; name := name cs;
     mContactConstraintIndices := mContactConstraintIndices cs;
     mLoopConstraintIndices := mLoopConstraintIndices cs;
     mCustomConstraintIndices := mCustomConstraintIndices cs;
     mCustomConstraints := mCustomConstraints cs; body := body cs;
     point := point cs; normal := normal cs; body_p := body_p cs;
     body_s := body_s cs; X_p := X_p cs; X_s := X_s cs;
     constraintAxis := constraintAxis cs;
     baumgarteParameters := baumgarteParameters cs; err := err cs;
     errd := errd cs; acceleration := acceleration cs; force := force cs;
     impulse := impulse cs; v_plus := v_plus cs; workspace := workspace cs |}.

Definition set_bound (x : bool) (cs : ConstraintSet) : ConstraintSet :=
  {| linear_solver := linear_solver cs; bound := x;
     constraintType := constraintType cs; name := name cs;
     mContactConstraintIndices := mContactConstraintIndices cs;
     mLoopConstraintIndices := mLoopConstraintIndices cs;
     mCustomConstraintIndices := mCustomConstraintIndices cs;
     mCustomConstraints := mCustomConstraints cs; body := body cs;
     point := point cs; normal := normal cs; body_p := body_p cs;
     body_s := body_s cs; X_p := X_p cs; X_s := X_s cs;
     constraintAxis := constraintAxis cs;
     baumgarteParameters := baumgarteParameters cs; err := err cs;
     errd := errd cs; acceleration := acceleration cs; force := force cs;
     impulse := impulse cs; v_plus := v_plus cs; workspace := workspace cs |}.

Definition set_constraintType (x : list ConstraintType) (cs : ConstraintSet) : ConstraintSet :=
  {| linear_solver := linear_solver cs; bound := bound cs;
     constraintType := x; name := name cs;
     mContactConstraintIndices := mContactConstraintIndices cs;
     mLoopConstraintIndices := mLoopConstraintIndices cs;
     mCustomConstraintIndices := mCustomConstraintIndices cs;
     mCustomConstraints := mCustomConstraints cs; body := body cs;
     point := point cs; normal := normal cs; body_p := body_p cs;
     body_s := body_s cs; X_p := X_p cs; X_s := X_s cs;
     constraintAxis := constraintAxis cs;
     baumgarteParameters := baumgarteParameters cs; err := err cs;
     errd := errd cs; acceleration := acceleration cs; force := force cs;
     impulse := impulse cs; v_plus := v_plus cs; workspace := workspace cs |}.

Definition set_name (x : list string) (cs : ConstraintSet) : ConstraintSet :=
  {| linear_solver := linear_solver cs; bound := bound cs;
     constraintType := constraintType cs; name := x;
     mContactConstraintIndices := mContactConstraintIndices cs;
     mLoopConstraintIndices := mLoopConstraintIndices cs;
     mCustomConstraintIndices := mCustomConstraintIndices cs;
     mCustomConstraints := mCustomConstraints cs; body := body cs;
     point := point cs; normal := normal cs; body_p := body_p cs;
     body_s := body_s cs; X_p := X_p cs; X_s := X_s cs;
     constraintAxis := constraintAxis cs;
     baumgarteParameters := baumgarteParameters cs; err := err cs;
     errd := errd cs; acceleration := acceleration cs; force := force cs;
     impulse := impulse cs; v_plus := v_plus cs; workspace := workspace cs |}.

Definition set_mContactConstraintIndices (x : list Z) (cs : ConstraintSet) : ConstraintSet :=
  {| linear_solver := linear_solver cs; bound := bound cs;
     constraintType := constraintType cs; name := name cs;
     mContactConstraintIndices := x;
     mLoopConstraintIndices := mLoopConstraintIndices cs;
     mCustomConstraintIndices := mCustomConstraintIndices cs;
     mCustomConstraints := mCustomConstraints cs; body := body cs;
     point := point cs; normal := normal cs; body_p := body_p cs;
     body_s := body_s cs; X_p := X_p cs; X_s := X_s cs;
     constraintAxis := constraintAxis cs;
     baumgarteParameters := baumgarteParameters cs; err := err cs;
     errd := errd cs; acceleration := acceleration cs; force := force cs;
     impulse := impulse cs; v_plus := v_plus cs; workspace := workspace cs |}.

Definition set_mLoopConstraintIndices (x : list Z) (cs : ConstraintSet) : ConstraintSet :=
  {| linear_solver := linear_solver cs; bound := bound cs;
     constraintType := constraintType cs; name := name cs;
     mContactConstraintIndices := mContactConstraintIndices cs;
     mLoopConstraintIndices := x;
     mCustomConstraintIndices := mCustomConstraintIndices cs;
     mCustomConstraints := mCustomConstraints cs; body := body cs;
     point := point cs; normal := normal cs; body_p := body_p cs;
     body_s := body_s cs; X_p := X_p cs; X_s := X_s cs;
     constraintAxis := constraintAxis cs;
     baumgarteParameters := baumgarteParameters cs; err := err cs;
     errd := errd cs; acceleration := acceleration cs; force := force cs;
     impulse := impulse cs; v_plus := v_plus cs; workspace := workspace cs |}.

Definition set_mCustomConstraintIndices (x : list Z) (cs : ConstraintSet) : ConstraintSet :=
  {| linear_solver := linear_solver cs; bound := bound cs;
     constraintType := constraintType cs; name := name cs;
     mContactConstraintIndices := mContactConstraintIndices cs;
     mLoopConstraintIndices := mLoopConstraintIndices cs;
     mCustomConstraintIndices := x;
     mCustomConstraints := mCustomConstraints cs; body := body cs;
     point := point cs; normal := normal cs; body_p := body_p cs;
     body_s := body_s cs; X_p := X_p cs; X_s := X_s cs;
     constraintAxis := constraintAxis cs;
     baumgarteParameters := baumgarteParameters cs; err := err cs;
     errd := errd cs; acceleration := acceleration cs; force := force cs;
     impulse := impulse cs; v_plus := v_plus cs; workspace := workspace cs |}.

Definition set_mCustomConstraints (x : list CustomConstraintPtr) (cs : ConstraintSet) : ConstraintSet :=
  {| linear_solver := linear_solver cs; bound := bound cs;
     constraintType := constraintType cs; name := name cs;
     mContactConstraintIndices := mContactConstraintIndices cs;
     mLoopConstraintIndices := mLoopConstraintIndices cs;
     mCustomConstraintIndices := mCustomConstraintIndices cs;
     mCustomConstraints := x; body := body cs; point := point cs;
     normal := normal cs; body_p := body_p cs; body_s := body_s cs;
     X_p := X_p cs; X_s := X_s cs; constraintAxis := constraintAxis cs;
     baumgarteParameters := baumgarteParameters cs; err := err cs;
     errd := errd cs; acceleration := acceleration cs; force := force cs;
     impulse := impulse cs; v_plus := v_plus cs; workspace := workspace cs |}.

Definition set_body (x : list Z) (cs : ConstraintSet) : ConstraintSet :=
  {| linear_solver := linear_solver cs; bound := bound cs;
     constraintType := constraintType cs; name := name cs;
     mContactConstraintIndices := mContactConstraintIndices cs;
     mLoopConstraintIndices := mLoopConstraintIndices cs;
     mCustomConstraintIndices := mCustomConstraintIndices cs;
     mCustomConstraints := mCustomConstraints cs; body := x;
     point := point cs; normal := normal cs; body_p := body_p cs;
     body_s := body_s cs; X_p := X_p cs; X_s := X_s cs;
     constraintAxis := constraintAxis cs;
     baumgarteParameters := baumgarteParameters cs; err := err cs;
     errd := errd cs; acceleration := acceleration cs; force := force cs;
     impulse := impulse cs; v_plus := v_plus cs; workspace := workspace cs |}.

Definition set_point (x : list Vector3d) (cs : ConstraintSet) : ConstraintSet :=
  {| linear_solver := linear_solver cs; bound := bound cs;
     constraintType := constraintType cs; name := name cs;
     mContactConstraintIndices := mContactConstraintIndices cs;
     mLoopConstraintIndices := mLoopConstraintIndices cs;
     mCustomConstraintIndices := mCustomConstraintIndices cs;
     mCustomConstraints := mCustomConstraints cs; body := body cs;
     point := x; normal := normal cs; body_p := body_p cs;
     body_s := body_s cs; X_p := X_p cs; X_s := X_s cs;
     constraintAxis := constraintAxis cs;
     baumgarteParameters := baumgarteParameters cs; err := err cs;
     errd := errd cs; acceleration := acceleration cs; force := force cs;
     impulse := impulse cs; v_plus := v_plus cs; workspace := workspace cs |}.

Definition set_normal (x : list Vector3d) (cs : ConstraintSet) : ConstraintSet :=
  {| linear_solver := linear_solver cs; bound := bound cs;
     constraintType := constraintType cs; name := name cs;
     mContactConstraintIndices := mContactConstraintIndices cs;
     mLoopConstraintIndices := mLoopConstraintIndices cs;
     mCustomConstraintIndices := mCustomConstraintIndices cs;
     mCustomConstraints := mCustomConstraints cs; body := body cs;
     point := point cs; normal := x; body_p := body_p cs;
     body_s := body_s cs; X_p := X_p cs; X_s := X_s cs;
     constraintAxis := constraintAxis cs;
     baumgarteParameters := baumgarteParameters cs; err := err cs;
     errd := errd cs; acceleration := acceleration cs; force := force cs;
     impulse := impulse cs; v_plus := v_plus cs; workspace := workspace cs |}.

Definition set_body_p (x : list Z) (cs : ConstraintSet) : ConstraintSet :=
  {| linear_solver := linear_solver cs; bound := bound cs;
     constraintType := constraintType cs; name := name cs;
     mContactConstraintIndices := mContactConstraintIndices cs;
     mLoopConstraintIndices := mLoopConstraintIndices cs;
     mCustomConstraintIndices := mCustomConstraintIndices cs;
     mCustomConstraints := mCustomConstraints cs; body := body cs;
     point := point cs; normal := normal cs; body_p := x;
     body_s := body_s cs; X_p := X_p cs; X_s := X_s cs;
     constraintAxis := constraintAxis cs;
     baumgarteParameters := baumgarteParameters cs; err := err cs;
     errd := errd cs; acceleration := acceleration cs; force := force cs;
     impulse := impulse cs; v_plus := v_plus cs; workspace := workspace cs |}.

Definition set_body_s (x : list Z) (cs : ConstraintSet) : ConstraintSet :=
  {| linear_solver := linear_solver cs; bound := bound cs;
     constraintType := constraintType cs; name := name cs;
     mContactConstraintIndices := mContactConstraintIndices cs;
     mLoopConstraintIndices := mLoopConstraintIndices cs;
     mCustomConstraintIndices := mCustomConstraintIndices cs;
     mCustomConstraints := mCustomConstraints cs; body := body cs;
     point := point cs; normal := normal cs; body_p := body_p cs;
     body_s := x; X_p := X_p cs; X_s := X_s cs;
     constraintAxis := constraintAxis cs;
     baumgarteParameters := baumgarteParameters cs; err := err cs;
     errd := errd cs; acceleration := acceleration cs; force := force cs;
     impulse := impulse cs; v_plus := v_plus cs; workspace := workspace cs |}.

Definition set_X_p (x : list SpatialTransform) (cs : ConstraintSet) : ConstraintSet :=
  {| linear_solver := linear_solver cs; bound := bound cs;
     constraintType := constraintType cs; name := name cs;
     mContactConstraintIndices := mContactConstraintIndices cs;
     mLoopConstraintIndices := mLoopConstraintIndices cs;
     mCustomConstraintIndices := mCustomConstraintIndices cs;
     mCustomConstraints := mCustomConstraints cs; body := body cs;
     point := point cs; normal := normal cs; body_p := body_p cs;
     body_s := body_s cs; X_p := x; X_s := X_s cs;
     constraintAxis := constraintAxis cs;
     baumgarteParameters := baumgarteParameters cs; err := err cs;
     errd := errd cs; acceleration := acceleration cs; force := force cs;
     impulse := impulse cs; v_plus := v_plus cs; workspace := workspace cs |}.

Definition set_X_s (x : list SpatialTransform) (cs : ConstraintSet) : ConstraintSet :=
  {| linear_solver := linear_solver cs; bound := bound cs;
     constraintType := constraintType cs; name := name cs;
     mContactConstraintIndices := mContactConstraintIndices cs;
     mLoopConstraintIndices := mLoopConstraintIndices cs;
     mCustomConstraintIndices := mCustomConstraintIndices cs;
     mCustomConstraints := mCustomConstraints cs; body := body cs;
     point := point cs; normal := normal cs; body_p := body_p cs;
     body_s := body_s cs; X_p := X_p cs; X_s := x;
     constraintAxis := constraintAxis cs;
     baumgarteParameters := baumgarteParameters cs; err := err cs;
     errd := errd cs; acceleration := acceleration cs; force := force cs;
     impulse := impulse cs; v_plus := v_plus cs; workspace := workspace cs |}.

Definition set_constraintAxis (x : list SpatialVector) (cs : ConstraintSet) : ConstraintSet :=
  {| linear_solver := linear_solver cs; bound := bound cs;
     constraintType := constraintType cs; name := name cs;
     mContactConstraintIndices := mContactConstraintIndices cs;
     mLoopConstraintIndices := mLoopConstraintIndices cs;
     mCustomConstraintIndices := mCustomConstraintIndices cs;
     mCustomConstraints := mCustomConstraints cs; body := body cs;
     point := point cs; normal := normal cs; body_p := body_p cs;
     body_s := body_s cs; X_p := X_p cs; X_s := X_s cs; constraintAxis := x;
     baumgarteParameters := baumgarteParameters cs; err := err cs;
     errd := errd cs; acceleration := acceleration cs; force := force cs;
     impulse := impulse cs; v_plus := v_plus cs; workspace := workspace cs |}.

Definition set_baumgarteParameters (x : list Vector2d) (cs : ConstraintSet) : ConstraintSet :=
  {| linear_solver := linear_solver cs; bound := bound cs;
     constraintType := constraintType cs; name := name cs;
     mContactConstraintIndices := mContactConstraintIndices cs;
     mLoopConstraintIndices := mLoopConstraintIndices cs;
     mCustomConstraintIndices := mCustomConstraintIndices cs;
     mCustomConstraints := mCustomConstraints cs; body := body cs;
     point := point cs; normal := normal cs; body_p := body_p cs;
     body_s := body_s cs; X_p := X_p cs; X_s := X_s cs;
     constraintAxis := constraintAxis cs; baumgarteParameters := x;
     err := err cs; errd := errd cs; acceleration := acceleration cs;
     force := force cs; impulse := impulse cs; v_plus := v_plus cs;
     workspace := workspace cs |}.

Definition set_err (x : VectorNd) (cs : ConstraintSet) : ConstraintSet :=
  {| linear_solver := linear_solver cs; bound := bound cs;
     constraintType := constraintType cs; name := name cs;
     mContactConstraintIndices := mContactConstraintIndices cs;
     mLoopConstraintIndices := mLoopConstraintIndices cs;
     mCustomConstraintIndices := mCustomConstraintIndices cs;
     mCustomConstraints := mCustomConstraints cs; body := body cs;
     point := point cs; normal := normal cs; body_p := body_p cs;
     body_s := body_s cs; X_p := X_p cs; X_s := X_s cs;
     constraintAxis := constraintAxis cs;
     baumgarteParameters := baumgarteParameters cs; err := x;
     errd := errd cs; acceleration := acceleration cs; force := force cs;
     impulse := impulse cs; v_plus := v_plus cs; workspace := workspace cs |}.

Definition set_errd (x : VectorNd) (cs : ConstraintSet) : ConstraintSet :=
  {| linear_solver := linear_solver cs; bound := bound cs;
     constraintType := constraintType cs; name := name cs;
     mContactConstraintIndices := mContactConstraintIndices cs;
     mLoopConstraintIndices := mLoopConstraintIndices cs;
     mCustomConstraintIndices := mCustomConstraintIndices cs;
     mCustomConstraints := mCustomConstraints cs; body := body cs;
     point := point cs; normal := normal cs; body_p := body_p cs;
     body_s := body_s cs; X_p := X_p cs; X_s := X_s cs;
     constraintAxis := constraintAxis cs;
     baumgarteParameters := baumgarteParameters cs; err := err cs; errd := x;
     acceleration := acceleration cs; force := force cs;
     impulse := impulse cs; v_plus := v_plus cs; workspace := workspace cs |}.

Definition set_acceleration (x : VectorNd) (cs : ConstraintSet) : ConstraintSet :=
  {| linear_solver := linear_solver cs; bound := bound cs;
     constraintType := constraintType cs; name := name cs;
     mContactConstraintIndices := mContactConstraintIndices cs;
     mLoopConstraintIndices := mLoopConstraintIndices cs;
     mCustomConstraintIndices := mCustomConstraintIndices cs;
     mCustomConstraints := mCustomConstraints cs; body := body cs;
     point := point cs; normal := normal cs; body_p := body_p cs;
     body_s := body_s cs; X_p := X_p cs; X_s := X_s cs;
     constraintAxis := constraintAxis cs;
     baumgarteParameters := baumgarteParameters cs; err := err cs;
     errd := errd cs; acceleration := x; force := force cs;
     impulse := impulse cs; v_plus := v_plus cs; workspace := workspace cs |}.

Definition set_force (x : VectorNd) (cs : ConstraintSet) : ConstraintSet :=
  {| linear_solver := linear_solver cs; bound := bound cs;
     constraintType := constraintType cs; name := name cs;
     mContactConstraintIndices := mContactConstraintIndices cs;
     mLoopConstraintIndices := mLoopConstraintIndices cs;
     mCustomConstraintIndices := mCustomConstraintIndices cs;
     mCustomConstraints := mCustomConstraints cs; body := body cs;
     point := point cs; normal := normal cs; body_p := body_p cs;
     body_s := body_s cs; X_p := X_p cs; X_s := X_s cs;
     constraintAxis := constraintAxis cs;
     baumgarteParameters := baumgarteParameters cs; err := err cs;
     errd := errd cs; acceleration := acceleration cs; force := x;
     impulse := impulse cs; v_plus := v_plus cs; workspace := workspace cs |}.

Definition set_impulse (x : VectorNd) (cs : ConstraintSet) : ConstraintSet :=
  {| linear_solver := linear_solver cs; bound := bound cs;
     constraintType := constraintType cs; name := name cs;
     mContactConstraintIndices := mContactConstraintIndices cs;
     mLoopConstraintIndices := mLoopConstraintIndices cs;
     mCustomConstraintIndices := mCustomConstraintIndices cs;
     mCustomConstraints := mCustomConstraints cs; body := body cs;
     point := point cs; normal := normal cs; body_p := body_p cs;
     body_s := body_s cs; X_p := X_p cs; X_s := X_s cs;
     constraintAxis := constraintAxis cs;
     baumgarteParameters := baumgarteParameters cs; err := err cs;
     errd := errd cs; acceleration := acceleration cs; force := force cs;
     impulse := x; v_plus := v_plus cs; workspace := workspace cs |}.

Definition set_v_plus (x : VectorNd) (cs : ConstraintSet) : ConstraintSet :=
  {| linear_solver := linear_solver cs; bound := bound cs;
     constraintType := constraintType cs; name := name cs;
     mContactConstraintIndices := mContactConstraintIndices cs;
     mLoopConstraintIndices := mLoopConstraintIndices cs;
     mCustomConstraintIndices := mCustomConstraintIndices cs;
     mCustomConstraints := mCustomConstraints cs; body := body cs;
     point := point cs; normal := normal cs; body_p := body_p cs;
     body_s := body_s cs; X_p := X_p cs; X_s := X_s cs;
     constraintAxis := constraintAxis cs;
     baumgarteParameters := baumgarteParameters cs; err := err cs;
     errd := errd cs; acceleration := acceleration cs; force := force cs;
     impulse := impulse cs; v_plus := x; workspace := workspace cs |}.

Definition set_workspace (x : Workspace.t) (cs : ConstraintSet) : ConstraintSet :=
  {| linear_solver := linear_solver cs; bound := bound cs;
     constraintType := constraintType cs; name := name cs;
     mContactConstraintIndices := mContactConstraintIndices cs;
     mLoopConstraintIndices := mLoopConstraintIndices cs;
     mCustomConstraintIndices := mCustomConstraintIndices cs;
     mCustomConstraints := mCustomConstraints cs; body := body cs;
     point := point cs; normal := normal cs; body_p := body_p cs;
     body_s := body_s cs; X_p := X_p cs; X_s := X_s cs;
     constraintAxis := constraintAxis cs;
     baumgarteParameters := baumgarteParameters cs; err := err cs;
     errd := errd cs; acceleration := acceleration cs; force := force cs;
     impulse := impulse cs; v_plus := v_plus cs; workspace := x |}.
(** ** Inline members *)

(** [ConstraintSet () : linear_solver (Math::LinearSolverColPivHouseholderQR),
    bound (false) {}]; the other members are default-constructed, that is,
    empty. *)
Definition new : ConstraintSet :=
  {| linear_solver := LinearSolverColPivHouseholderQR; bound := false;
     constraintType := []; name := []; mContactConstraintIndices := [];
     mLoopConstraintIndices := []; mCustomConstraintIndices := [];
     mCustomConstraints := []; body := []; point := []; normal := [];
     body_p := []; body_s := []; X_p := []; X_s := []; constraintAxis := [];
     baumgarteParameters := []; err := []; errd := []; acceleration := [];
     force := []; impulse := []; v_plus := []; workspace := Workspace.empty |}.

(** [ConstraintSet Copy ()]:
    [ConstraintSet result ( *this); result.bound = false; return result;] *)
Definition Copy (this : ConstraintSet) : ConstraintSet :=
  let result := this in
  let result := set_bound false result in
  result.

(** [void SetSolver (Math::LinearSolver solver)]: [linear_solver = solver;] *)
Definition SetSolver (solver : LinearSolver) : M ConstraintSet unit :=
  assign set_linear_solver solver.

(** [size_t size () const]: [return acceleration.size ();] *)
Definition size (cs : ConstraintSet) : Z := VectorNd_size (acceleration cs).

(** ** [struct CustomConstraint] *)

(** The member [mConstraintCount] and the virtual member function
    [CalcPositionError (model, custom_constraint_id, Q, CS, err, errStartIdx)].
    The object receives [err] by non-const reference, and may write any entry
    of it: the function gives the whole vector as the call leaves it. *)
Record CustomConstraint : Type := mkCustomConstraint {
  mConstraintCount : Z;
  CalcPositionError :
    Model.Model -> Z -> VectorNd -> ConstraintSet -> VectorNd -> Z -> VectorNd;
}.

(** The objects that [CustomConstraint*] values point to; [None] at an
    address that holds no object. *)
Definition heap : Type := CustomConstraintPtr -> option CustomConstraint.

(** ** Numerical kernels

    What Constraints.cc computes with the linear algebra backend and the
    kinematics of the model.  The spec names these computations without
    defining them; they are parameters of the definitions below. *)
Class Kernels : Type := {
  (** the workspace, resized for [dof] degrees of freedom and [rows] rows *)
  allocated_workspace : Z -> Z -> Workspace.t -> Workspace.t;
  (** the workspace with its numeric contents set to zero *)
  cleared_workspace : Workspace.t -> Workspace.t;
  (** the workspace with the selection matrices S and P of the actuation
      flags *)
  actuation_workspace : Model.Model -> list bool -> Workspace.t -> Workspace.t;
  (** the pose discrepancy of loop row [c], projected on its axis *)
  loop_position_error : Model.Model -> VectorNd -> ConstraintSet -> Z -> float;
  (** [e.norm ()] *)
  VectorNd_norm : VectorNd -> float;
  (** one iterate of the assembly solver: the weighted least squares problem
      linearised at [QInit], solved with Lagrange multipliers *)
  assembly_step :
    Model.Model -> ConstraintSet -> VectorNd -> VectorNd -> VectorNd -> VectorNd;
  (** H, C, G and gamma of [CalcConstrainedSystemVariables], stored in the
      workspace *)
  system_variables :
    Model.Model -> VectorNd -> VectorNd -> VectorNd -> ConstraintSet ->
    Workspace.t;
  (** the solution of [A x = b] by the chosen dense solver *)
  SolveLinearSystem : MatrixNd -> VectorNd -> LinearSolver -> VectorNd;
}.

Context {kernels : Kernels}.

(** Modelled from the spec: [member.push_back (x)], [n] times, for the rows
    of a custom constraint (section 4.1: as many consecutive rows as the
    object declares). *)
Definition push_back_n {A} (get : ConstraintSet -> list A)
  (set : list A -> ConstraintSet -> ConstraintSet) (n : Z) (x : A)
  : M ConstraintSet unit :=
  modify (fun cs => set (get cs ++ replicate (Z.to_nat n) x) cs).

(** ** Members defined in Constraints.cc *)

(** Modelled from the spec: the body of [ConstraintSet::AddContactConstraint]
    (Constraints.cc), declared in the header with the defaults
    [constraint_name = NULL] and [normal_acceleration = 0.]; an omitted
    argument is [None].  Section 4.1: the call returns the row index; section
    3: rows are added before binding only, every per-row array gets an entry
    for the new row, the row owns body id, point and axis; the members of
    another kind of row are filled with zeros. *)
Definition AddContactConstraint (body_id : Z) (body_point world_normal : Vector3d)
  (constraint_name : option string) (normal_acceleration : option float)
  : M ConstraintSet Z :=
  let constraint_name := default ""%string constraint_name in
  let normal_acceleration := default 0%float normal_acceleration in
  is_bound <- gets bound ;;
  assert_ (negb is_bound) ;;
  row <- gets size ;;
  push_back constraintType set_constraintType ContactConstraint ;;
  push_back name set_name constraint_name ;;
  push_back mContactConstraintIndices set_mContactConstraintIndices (u32 row) ;;
  push_back body set_body body_id ;;
  push_back point set_point body_point ;;
  push_back normal set_normal world_normal ;;
  push_back body_p set_body_p 0 ;;
  push_back body_s set_body_s 0 ;;
  push_back X_p set_X_p SpatialTransform_default ;;
  push_back X_s set_X_s SpatialTransform_default ;;
  push_back constraintAxis set_constraintAxis (SVec 0 0 0 0 0 0) ;;
  push_back baumgarteParameters set_baumgarteParameters (Vec2 0 0) ;;
  push_back err set_err 0%float ;;
  push_back errd set_errd 0%float ;;
  push_back acceleration set_acceleration normal_acceleration ;;
  push_back force set_force 0%float ;;
  push_back impulse set_impulse 0%float ;;
  push_back v_plus set_v_plus 0%float ;;
  ret (u32 row).

(** Modelled from the spec: how a row stores its stabilization flag and time
    constant (Constraints.cc).  Section 4.2: with stabilization enabled the
    Baumgarte term is [-2 alpha errd - beta^2 err] with
    [alpha = beta = 1 / Tstab]; [struct ConstraintSet] keeps one [Vector2d]
    per row and no flag, so a row without stabilization holds
    [alpha = beta = 0], for which the term vanishes. *)
Definition baumgarte_coefficients (enable_stabilization : bool)
  (stabilization_param : float) : Vector2d :=
  if enable_stabilization
  then Vec2 (1 / stabilization_param) (1 / stabilization_param)
  else Vec2 0 0.

(** Modelled from the spec: the body of [ConstraintSet::AddLoopConstraint]
    (Constraints.cc), declared in the header with the defaults
    [enable_stabilization = false], [stabilization_param = 0.1] and
    [constraint_name = NULL]; an omitted argument is [None].  Section 4.1:
    the call returns the row index; section 3: the row owns predecessor and
    successor ids, two transforms, an axis and the stabilization pair. *)
Definition AddLoopConstraint (id_predecessor id_successor : Z)
  (X_predecessor X_successor : SpatialTransform) (axis : SpatialVector)
  (enable_stabilization : option bool) (stabilization_param : option float)
  (constraint_name : option string) : M ConstraintSet Z :=
  let enable_stabilization := default false enable_stabilization in
  let stabilization_param := default 0.1%float stabilization_param in
  let constraint_name := default ""%string constraint_name in
  is_bound <- gets bound ;;
  assert_ (negb is_bound) ;;
  row <- gets size ;;
  push_back constraintType set_constraintType LoopConstraint ;;
  push_back name set_name constraint_name ;;
  push_back mLoopConstraintIndices set_mLoopConstraintIndices (u32 row) ;;
  push_back body_p set_body_p id_predecessor ;;
  push_back body_s set_body_s id_successor ;;
  push_back X_p set_X_p X_predecessor ;;
  push_back X_s set_X_s X_successor ;;
  push_back constraintAxis set_constraintAxis axis ;;
  push_back baumgarteParameters set_baumgarteParameters
    (baumgarte_coefficients enable_stabilization stabilization_param) ;;
  push_back err set_err 0%float ;;
  push_back errd set_errd 0%float ;;
  push_back body set_body 0 ;;
  push_back point set_point (Vec3 0 0 0) ;;
  push_back normal set_normal (Vec3 0 0 0) ;;
  push_back acceleration set_acceleration 0%float ;;
  push_back force set_force 0%float ;;
  push_back impulse set_impulse 0%float ;;
  push_back v_plus set_v_plus 0%float ;;
  ret (u32 row).

(** Modelled from the spec: the body of [ConstraintSet::AddCustomConstraint]
    (Constraints.cc), declared in the header with the defaults
    [enable_stabilization = false], [stabilization_param = 0.1] and
    [constraint_name = NULL].  Section 4.1: the call returns the index of the
    first row, and the object's declared row count is the number of
    consecutive rows it occupies; section 3: the set keeps a reference to the
    object and the same members as for a loop row. *)
Definition AddCustomConstraint (objects : heap)
  (custom_constraint : CustomConstraintPtr) (id_predecessor id_successor : Z)
  (X_predecessor X_successor : SpatialTransform)
  (enable_stabilization : option bool) (stabilization_param : option float)
  (constraint_name : option string) : M ConstraintSet Z :=
  let enable_stabilization := default false enable_stabilization in
  let stabilization_param := default 0.1%float stabilization_param in
  let constraint_name := default ""%string constraint_name in
  is_bound <- gets bound ;;
  assert_ (negb is_bound) ;;
  match objects custom_constraint with
  | None => fun _ => Abort
  | Some object =>
    let count := mConstraintCount object in
    first_row <- gets size ;;
    push_back mCustomConstraintIndices set_mCustomConstraintIndices
      (u32 first_row) ;;
    push_back mCustomConstraints set_mCustomConstraints custom_constraint ;;
    push_back_n constraintType set_constraintType count ConstraintTypeCustom ;;
    push_back_n name set_name count constraint_name ;;
    push_back_n body_p set_body_p count id_predecessor ;;
    push_back_n body_s set_body_s count id_successor ;;
    push_back_n X_p set_X_p count X_predecessor ;;
    push_back_n X_s set_X_s count X_successor ;;
    push_back_n constraintAxis set_constraintAxis count (SVec 0 0 0 0 0 0) ;;
    push_back_n baumgarteParameters set_baumgarteParameters count
      (baumgarte_coefficients enable_stabilization stabilization_param) ;;
    push_back_n err set_err count 0%float ;;
    push_back_n errd set_errd count 0%float ;;
    push_back_n body set_body count 0 ;;
    push_back_n point set_point count (Vec3 0 0 0) ;;
    push_back_n normal set_normal count (Vec3 0 0 0) ;;
    push_back_n acceleration set_acceleration count 0%float ;;
    push_back_n force set_force count 0%float ;;
    push_back_n impulse set_impulse count 0%float ;;
    push_back_n v_plus set_v_plus count 0%float ;;
    ret (u32 first_row)
  end.

(** Modelled from the spec: the test of [Bind] on the body ids of the rows
    (Constraints.cc).  Section 4.1: binding fails when a row refers to a body
    id that is out of range for the model. *)
Definition body_ids_in_range (model : Model.Model) (cs : ConstraintSet) : bool :=
  forallb (fun id => bool_decide (id < Z.of_nat (length (Model.mBodies model))))
    (body cs ++ body_p cs ++ body_s cs).

(** Modelled from the spec: the body of [ConstraintSet::Bind] (Constraints.cc).
    Section 4.1: it returns false when the set is bound already or a body id
    is out of range; otherwise it allocates the workspace from the degrees of
    freedom and the row count, sets [bound] and returns true. *)
Definition Bind (model : Model.Model) : M ConstraintSet bool :=
  is_bound <- gets bound ;;
  if is_bound : bool then ret false
  else
    in_range <- gets (body_ids_in_range model) ;;
    if in_range : bool then
      rows <- gets size ;;
      modify (fun cs =>
                set_workspace
                  (allocated_workspace (Model.dof_count model) rows (workspace cs))
                  cs) ;;
      assign set_bound true ;;
      ret true
    else ret false.

(** Modelled from the spec: the body of [ConstraintSet::SetActuationMap]
    (Constraints.cc).  Section 4.1: it builds the selection matrices, and is
    independent of [Bind]. *)
Definition SetActuationMap (model : Model.Model) (actuatedDof : list bool)
  : M ConstraintSet unit :=
  modify (fun cs =>
            set_workspace (actuation_workspace model actuatedDof (workspace cs))
              cs).

(** Modelled from the spec: the body of [ConstraintSet::clear]
    (Constraints.cc).  Section 4.1: it zeroes the per-row and workspace
    numeric fields, and neither removes rows nor un-binds. *)
Definition clear : M ConstraintSet unit :=
  modify (fun cs => set_err (VectorNd_Zero (VectorNd_size (err cs))) cs) ;;
  modify (fun cs => set_errd (VectorNd_Zero (VectorNd_size (errd cs))) cs) ;;
  modify (fun cs =>
            set_acceleration (VectorNd_Zero (VectorNd_size (acceleration cs))) cs) ;;
  modify (fun cs => set_force (VectorNd_Zero (VectorNd_size (force cs))) cs) ;;
  modify (fun cs => set_impulse (VectorNd_Zero (VectorNd_size (impulse cs))) cs) ;;
  modify (fun cs => set_v_plus (VectorNd_Zero (VectorNd_size (v_plus cs))) cs) ;;
  modify (fun cs => set_workspace (cleared_workspace (workspace cs)) cs).

(** ** Constraint kinematics *)

(** Modelled from the spec: the assignment [err[i] = x;] in
    [CalcConstraintsPositionError], with the bounds assertion of the vector
    type (section 7: misuse is guarded by assertions). *)
Definition set_coeff (i : Z) (x : float) : M VectorNd unit :=
  fun e =>
    if bool_decide (0 <= i < VectorNd_size e)
    then Ok tt (<[Z.to_nat i := x]> e)
    else Abort.

(** Modelled from the spec: the loop over the rows of one kind in
    [CalcConstraintsPositionError], [for (c : indices) err[c] = value (c);]
    (section 3: the rows are partitioned by kind). *)
Fixpoint set_coeffs (indices : list Z) (value : Z -> float) : M VectorNd unit :=
  match indices with
  | [] => ret tt
  | c :: rest => set_coeff c (value c) ;; set_coeffs rest value
  end.

(** Modelled from the spec: the loop over the custom constraints in
    [CalcConstraintsPositionError], that is, the calls
    [CS.mCustomConstraints[i]->CalcPositionError (model, i, Q, CS, err,
    CS.mCustomConstraintIndices[i])] for [i] from [k] on (sections 4.2 and
    4.8).  Each object is handed [err] itself, and [err] is afterwards what
    the object left. *)
Fixpoint custom_position_errors (objects : heap) (model : Model.Model)
  (Q : VectorNd) (cs : ConstraintSet) (k : Z)
  (pointers : list CustomConstraintPtr) (starts : list Z) : M VectorNd unit :=
  match pointers, starts with
  | pointer :: pointers', start :: starts' =>
    match objects pointer with
    | None => fun _ => Abort
    | Some object =>
      modify (fun e => CalcPositionError object model k Q cs e start) ;;
      custom_position_errors objects model Q cs (k + 1) pointers' starts'
    end
  | _, _ => ret tt
  end.

(** Modelled from the spec: the body of [CalcConstraintsPositionError]
    (Constraints.cc); the state is the output vector [err], which the header
    asks to have the size of [CS].  Section 4.2: contact rows report zero,
    loop rows the projected pose discrepancy, custom rows what their object
    computes; the rows are visited kind by kind through the index vectors of
    the set. *)
Definition CalcConstraintsPositionError (objects : heap) (model : Model.Model)
  (Q : VectorNd) (cs : ConstraintSet) : M VectorNd unit :=
  err_size <- gets VectorNd_size ;;
  assert_ (bool_decide (err_size = size cs)) ;;
  set_coeffs (mContactConstraintIndices cs) (fun _ => 0%float) ;;
  set_coeffs (mLoopConstraintIndices cs) (loop_position_error model Q cs) ;;
  custom_position_errors objects model Q cs 0 (mCustomConstraints cs)
    (mCustomConstraintIndices cs).

(** ** Assembly *)

(** Modelled from the spec: the step of [CalcAssemblyQ] that evaluates the
    position error of the set at [Q], into a fresh vector (section 4.6). *)
Definition position_error (objects : heap) (model : Model.Model)
  (cs : ConstraintSet) (Q : VectorNd) : outcome VectorNd unit :=
  CalcConstraintsPositionError objects model Q cs (VectorNd_Zero (size cs)).

(** Modelled from the spec: the iteration of [CalcAssemblyQ] (section 4.6):
    test the error norm at the current iterate, stop with [true] when it is
    below the tolerance, stop with [false] when no iteration is left, and
    otherwise take one step. *)
Fixpoint CalcAssemblyQ_loop (objects : heap) (model : Model.Model)
  (cs : ConstraintSet) (weights : VectorNd) (tolerance : float)
  (iterations : nat) (QInit : VectorNd) : outcome VectorNd bool :=
  match position_error objects model cs QInit with
  | Ok _ e =>
    if (VectorNd_norm e <? tolerance)%float then Ok true QInit
    else
      match iterations with
      | O => Ok false QInit
      | S iterations' =>
        CalcAssemblyQ_loop objects model cs weights tolerance iterations'
          (assembly_step model cs weights e QInit)
      end
  | _ => Abort
  end.

(** Modelled from the spec: the body of [CalcAssemblyQ] (Constraints.cc),
    declared in the header with the defaults [tolerance = 1e-12] and
    [max_iter = 100]; the state is the output vector [Q].  Section 4.6: the
    iteration stops and returns true when the constraint error norm falls
    below the tolerance and returns false after [max_iter] iterations;
    section 7: the last iterate is returned in both cases. *)
Definition CalcAssemblyQ (objects : heap) (model : Model.Model)
  (QInit : VectorNd) (cs : ConstraintSet) (weights : VectorNd)
  (tolerance : option float) (max_iter : option Z) : M VectorNd bool :=
  let tolerance := default 1e-12%float tolerance in
  let max_iter := default 100 max_iter in
  fun _ =>
    CalcAssemblyQ_loop objects model cs weights tolerance (Z.to_nat max_iter)
      QInit.

(** ** The direct solver *)

(** Modelled from the spec: the block [G^T] of the direct solver's matrix
    (section 4.3), the transpose of a matrix with [n] columns. *)
Definition transpose (n : nat) (G : MatrixNd) : MatrixNd :=
  map (fun j => map (fun row => nth j row 0%float) G) (seq 0 n).

(** Modelled from the spec: the body of [SolveConstrainedSystemDirect]
    (Constraints.cc).  Section 4.3: it assembles the full matrix
    [[H G^T; G 0]] and the right-hand side [[c; gamma]] and solves with the
    configurable dense solver.  The result is the workspace triple
    [(A, b, x)]. *)
Definition SolveConstrainedSystemDirect (H G : MatrixNd) (c gamma : VectorNd)
  (linear_solver : LinearSolver) : MatrixNd * VectorNd * VectorNd :=
  let n := length c in
  let m := length gamma in
  let A := zip_with app H (transpose n G)
           ++ map (fun row => row ++ replicate m 0%float) G in
  let b := c ++ gamma in
  (A, b, SolveLinearSystem A b linear_solver).

(** Modelled from the spec: the body of [ForwardDynamicsConstraintsDirect]
    (Constraints.cc); the state is the constraint set, the value is [QDDot].
    Section 4.4: it computes the system variables, calls the direct strategy
    with [c = Tau - C] and the solver selected in the set, and writes lambda,
    the negated tail of the solution, into [force]. *)
Definition ForwardDynamicsConstraintsDirect (model : Model.Model)
  (Q QDot Tau : VectorNd) : M ConstraintSet VectorNd :=
  modify (fun cs => set_workspace (system_variables model Q QDot Tau cs) cs) ;;
  w <- gets workspace ;;
  solver <- gets linear_solver ;;
  let c := zip_with PrimFloat.sub Tau (Workspace.C w) in
  let '(A, b, x) :=
    SolveConstrainedSystemDirect (Workspace.H w) (Workspace.G w) c
      (Workspace.gamma w) solver in
  assign set_force (map PrimFloat.opp (drop (length c) x)) ;;
  ret (take (length c) x).

End ConstraintSet.
End ConstraintSet.

(** * Well-formed models *)

Section ModelInvariants.
Context {ext : Externals}.

(** A default-constructed [Model]: every container is empty. *)
Definition unset (m : Model.Model) : Prop :=
  Model.lambda m = [] /\ Model.mu m = [] /\
  Model.v m = [] /\ Model.a m = [] /\
  Model.mJoints m = [] /\ Model.S m = [] /\ Model.X_T m = [] /\
  Model.c m = [] /\ Model.IA m = [] /\ Model.pA m = [] /\ Model.U m = [] /\
  Model.f m = [] /\ Model.Ic m = [] /\
  Model.X_lambda m = [] /\ Model.X_base m = [] /\
  Model.mBodies m = [] /\ Model.mBodyNames m = [].

(** Every per-body container has one entry for each of the body indices
    [0 .. dof_count]. *)
Definition consistent (m : Model.Model) : Prop :=
  0 <= Model.dof_count m /\
  let n := Z.to_nat (Model.dof_count m + 1) in
  length (Model.lambda m) = n /\ length (Model.mu m) = n /\
  length (Model.q m) = n /\ length (Model.qdot m) = n /\
  length (Model.qddot m) = n /\ length (Model.tau m) = n /\
  length (Model.v m) = n /\ length (Model.a m) = n /\
  length (Model.mJoints m) = n /\ length (Model.S m) = n /\
  length (Model.X_T m) = n /\
  length (Model.c m) = n /\ length (Model.IA m) = n /\
  length (Model.pA m) = n /\ length (Model.U m) = n /\
  length (Model.u m) = n /\ length (Model.d m) = n /\
  length (Model.f m) = n /\ length (Model.Ic m) = n /\
  length (Model.X_lambda m) = n /\ length (Model.X_base m) = n /\
  length (Model.mBodies m) = n /\ length (Model.mBodyNames m) = n.

(** The parent of every body but the root has a smaller index. *)
Definition parents_precede (m : Model.Model) : Prop :=
  forall (i : nat) (p : Z),
    (0 < i)%nat -> Model.lambda m !! i = Some p -> 0 <= p < Z.of_nat i.

(** [mu] lists, for every body, exactly the bodies whose parent it is. *)
Definition children_match (m : Model.Model) : Prop :=
  forall (p : nat) (children : list Z) (i : Z),
    Model.mu m !! p = Some children ->
    (i ∈ children <->
     0 < i /\ Model.lambda m !! Z.to_nat i = Some (Z.of_nat p)).

(** The models made by [Init ()] followed by calls [AddBody (p, ...)] whose
    parent [p] is the index of a body added before, while the number of
    bodies stays below [UINT_MAX]. *)
Inductive built : Model.Model -> Prop :=
| built_Init m0 m :
    unset m0 -> Model.Init m0 = Ok tt m -> built m
| built_AddBody m p joint_frame joint body body_name id m' :
    built m ->
    0 <= p <= Model.dof_count m ->
    Model.dof_count m + 1 < UINT_MAX ->
    Model.AddBody p joint_frame joint body body_name m = Ok id m' ->
    built m'.

(** A name that a [const char *] can hold: none of its characters is NUL.
    [GetBodyId] takes its argument as a [const char *], while [AddBody]
    stores any [std::string]. *)
Fixpoint c_string (s : string) : bool :=
  match s with
  | EmptyString => true
  | String ch s' => negb (Ascii.eqb ch Ascii.zero) && c_string s'
  end.

(** The body reached from body [i] by going to the parent [n] times; [None]
    when an index on the way has no entry in [lambda]. *)
Fixpoint ancestor (lam : list Z) (n : nat) (i : Z) : option Z :=
  match n with
  | O => Some i
  | S n' =>
    match lam !! Z.to_nat i with
    | Some p => ancestor lam n' p
    | None => None
    end
  end.

End ModelInvariants.

(** * Registered constraint sets *)

Section Registrations.
Context {ext : Externals} {kernels : ConstraintSet.Kernels}.

(** One call of [AddContactConstraint], [AddLoopConstraint] or
    [AddCustomConstraint], with its arguments; an omitted argument is
    [None]. *)
Inductive registration : Type :=
| Contact (body_id : Z) (body_point world_normal : Vector3d)
    (constraint_name : option string) (normal_acceleration : option float)
| Loop (id_predecessor id_successor : Z)
    (X_predecessor X_successor : SpatialTransform) (axis : SpatialVector)
    (enable_stabilization : option bool) (stabilization_param : option float)
    (constraint_name : option string)
| Custom (custom_constraint : CustomConstraintPtr)
    (id_predecessor id_successor : Z)
    (X_predecessor X_successor : SpatialTransform)
    (enable_stabilization : option bool) (stabilization_param : option float)
    (constraint_name : option string).

(** The call that a registration stands for. *)
Definition register (objects : ConstraintSet.heap) (r : registration)
  : M ConstraintSet.ConstraintSet Z :=
  match r with
  | Contact body_id body_point world_normal constraint_name normal_acceleration =>
    ConstraintSet.AddContactConstraint body_id body_point world_normal
      constraint_name normal_acceleration
  | Loop id_p id_s X_p X_s axis enable_stabilization stabilization_param
      constraint_name =>
    ConstraintSet.AddLoopConstraint id_p id_s X_p X_s axis enable_stabilization
      stabilization_param constraint_name
  | Custom custom_constraint id_p id_s X_p X_s enable_stabilization
      stabilization_param constraint_name =>
    ConstraintSet.AddCustomConstraint objects custom_constraint id_p id_s X_p
      X_s enable_stabilization stabilization_param constraint_name
  end.

(** A sequence of calls, with the row indices they return. *)
Fixpoint register_all (objects : ConstraintSet.heap) (rs : list registration)
  : M ConstraintSet.ConstraintSet (list Z) :=
  match rs with
  | [] => ret []
  | r :: rs' =>
    i <- register objects r ;;
    rest <- register_all objects rs' ;;
    ret (i :: rest)
  end.

(** What one constraint row holds in the per-row members of the set. *)
Record Row : Type := mkRow {
  row_type : ConstraintSet.ConstraintType;
  row_name : string;
  row_body : Z;
  row_point : Vector3d;
  row_normal : Vector3d;
  row_body_p : Z;
  row_body_s : Z;
  row_X_p : SpatialTransform;
  row_X_s : SpatialTransform;
  row_axis : SpatialVector;
  row_baumgarte : Vector2d;
  row_acceleration : float;
}.

(** The rows that a registration asks for. *)
Definition rows_of (objects : ConstraintSet.heap) (r : registration) : list Row :=
  match r with
  | Contact body_id body_point world_normal constraint_name normal_acceleration =>
    [ mkRow ConstraintSet.ContactConstraint (default ""%string constraint_name)
        body_id body_point world_normal 0 0 SpatialTransform_default
        SpatialTransform_default (SVec 0 0 0 0 0 0) (Vec2 0 0)
        (default 0%float normal_acceleration) ]
  | Loop id_p id_s X_p X_s axis enable_stabilization stabilization_param
      constraint_name =>
    [ mkRow ConstraintSet.LoopConstraint (default ""%string constraint_name)
        0 (Vec3 0 0 0) (Vec3 0 0 0) id_p id_s X_p X_s axis
        (ConstraintSet.baumgarte_coefficients
           (default false enable_stabilization)
           (default 0.1%float stabilization_param))
        0%float ]
  | Custom custom_constraint id_p id_s X_p X_s enable_stabilization
      stabilization_param constraint_name =>
    match objects custom_constraint with
    | None => []
    | Some object =>
      replicate (Z.to_nat (ConstraintSet.mConstraintCount object))
        (mkRow ConstraintSet.ConstraintTypeCustom
           (default ""%string constraint_name)
           0 (Vec3 0 0 0) (Vec3 0 0 0) id_p id_s X_p X_s (SVec 0 0 0 0 0 0)
           (ConstraintSet.baumgarte_coefficients
              (default false enable_stabilization)
              (default 0.1%float stabilization_param))
           0%float)
    end
  end.

(** The per-row members of [cs] hold exactly [rows], row [i] of every member
    coming from [rows !! i]; the result members are zero. *)
Definition holds_rows (rows : list Row) (cs : ConstraintSet.ConstraintSet) : Prop :=
  ConstraintSet.constraintType cs = map row_type rows /\
  ConstraintSet.name cs = map row_name rows /\
  ConstraintSet.body cs = map row_body rows /\
  ConstraintSet.point cs = map row_point rows /\
  ConstraintSet.normal cs = map row_normal rows /\
  ConstraintSet.body_p cs = map row_body_p rows /\
  ConstraintSet.body_s cs = map row_body_s rows /\
  ConstraintSet.X_p cs = map row_X_p rows /\
  ConstraintSet.X_s cs = map row_X_s rows /\
  ConstraintSet.constraintAxis cs = map row_axis rows /\
  ConstraintSet.baumgarteParameters cs = map row_baumgarte rows /\
  ConstraintSet.acceleration cs = map row_acceleration rows /\
  ConstraintSet.err cs = map (fun _ => 0%float) rows /\
  ConstraintSet.errd cs = map (fun _ => 0%float) rows /\
  ConstraintSet.force cs = map (fun _ => 0%float) rows /\
  ConstraintSet.impulse cs = map (fun _ => 0%float) rows /\
  ConstraintSet.v_plus cs = map (fun _ => 0%float) rows.

(** The index vectors of [cs] agree with the constraint types of its rows:
    every contact row is listed, every listed loop row is a loop row, and
    every custom object owns a range of custom rows. *)
Definition indexed (objects : ConstraintSet.heap)
  (cs : ConstraintSet.ConstraintSet) : Prop :=
  let n := length (ConstraintSet.constraintType cs) in
  (forall i : nat,
     ConstraintSet.constraintType cs !! i = Some ConstraintSet.ContactConstraint ->
     Z.of_nat i ∈ ConstraintSet.mContactConstraintIndices cs) /\
  (forall c : Z,
     c ∈ ConstraintSet.mContactConstraintIndices cs -> 0 <= c < Z.of_nat n) /\
  (forall c : Z,
     c ∈ ConstraintSet.mLoopConstraintIndices cs ->
     0 <= c < Z.of_nat n /\
     ConstraintSet.constraintType cs !! Z.to_nat c
       = Some ConstraintSet.LoopConstraint) /\
  Forall2
    (fun pointer start =>
       exists object,
         objects pointer = Some object /\
         forall i : nat,
           start <= Z.of_nat i < start + ConstraintSet.mConstraintCount object ->
           ConstraintSet.constraintType cs !! i
             = Some ConstraintSet.ConstraintTypeCustom)
    (ConstraintSet.mCustomConstraints cs)
    (ConstraintSet.mCustomConstraintIndices cs).


(** Entry [(i, j)] of a matrix given by its rows. *)
Definition entry (M : MatrixNd) (i j : nat) : option float :=
  match M !! i with
  | Some row => row !! j
  | None => None
  end.

(** [A] is the matrix [[H G^T; G 0]] of section 4.3, for [H] with [n] rows
    and columns and [G] with [m] rows and [n] columns. *)
Definition saddle_point_matrix (n m : nat) (H G A : MatrixNd) : Prop :=
  length A = (n + m)%nat /\
  Forall (fun row => length row = (n + m)%nat) A /\
  (forall i j : nat, (i < n)%nat -> (j < n)%nat ->
     entry A i j = entry H i j) /\
  (forall i j : nat, (i < n)%nat -> (j < m)%nat ->
     entry A i (n + j) = entry G j i) /\
  (forall i j : nat, (i < m)%nat -> (j < n)%nat ->
     entry A (n + i) j = entry G i j) /\
  (forall i j : nat, (i < m)%nat -> (j < m)%nat ->
     entry A (n + i) (n + j) = Some 0%float).

(** [cs'] is [cs] with [rows] appended to its per-row members, the solver,
    the [bound] flag and the workspace kept. *)
Definition appended (rows : list Row) (cs cs' : ConstraintSet.ConstraintSet)
  : Prop :=
  ConstraintSet.linear_solver cs' = ConstraintSet.linear_solver cs /\
  ConstraintSet.bound cs' = ConstraintSet.bound cs /\
  ConstraintSet.workspace cs' = ConstraintSet.workspace cs /\
  ConstraintSet.constraintType cs'
    = ConstraintSet.constraintType cs ++ map row_type rows /\
  ConstraintSet.name cs' = ConstraintSet.name cs ++ map row_name rows /\
  ConstraintSet.body cs' = ConstraintSet.body cs ++ map row_body rows /\
  ConstraintSet.point cs' = ConstraintSet.point cs ++ map row_point rows /\
  ConstraintSet.normal cs' = ConstraintSet.normal cs ++ map row_normal rows /\
  ConstraintSet.body_p cs' = ConstraintSet.body_p cs ++ map row_body_p rows /\
  ConstraintSet.body_s cs' = ConstraintSet.body_s cs ++ map row_body_s rows /\
  ConstraintSet.X_p cs' = ConstraintSet.X_p cs ++ map row_X_p rows /\
  ConstraintSet.X_s cs' = ConstraintSet.X_s cs ++ map row_X_s rows /\
  ConstraintSet.constraintAxis cs'
    = ConstraintSet.constraintAxis cs ++ map row_axis rows /\
  ConstraintSet.baumgarteParameters cs'
    = ConstraintSet.baumgarteParameters cs ++ map row_baumgarte rows /\
  ConstraintSet.acceleration cs'
    = ConstraintSet.acceleration cs ++ map row_acceleration rows /\
  ConstraintSet.err cs' = ConstraintSet.err cs ++ map (fun _ => 0%float) rows /\
  ConstraintSet.errd cs' = ConstraintSet.errd cs ++ map (fun _ => 0%float) rows /\
  ConstraintSet.force cs'
    = ConstraintSet.force cs ++ map (fun _ => 0%float) rows /\
  ConstraintSet.impulse cs'
    = ConstraintSet.impulse cs ++ map (fun _ => 0%float) rows /\
  ConstraintSet.v_plus cs'
    = ConstraintSet.v_plus cs ++ map (fun _ => 0%float) rows.

(** What a registration adds to the index vectors of the set, [row] being the
    index it returns. *)
Definition indices_appended (r : registration) (row : Z)
  (cs cs' : ConstraintSet.ConstraintSet) : Prop :=
  let contact := match r with Contact _ _ _ _ _ => [row] | _ => [] end in
  let loop := match r with Loop _ _ _ _ _ _ _ _ => [row] | _ => [] end in
  let custom := match r with Custom _ _ _ _ _ _ _ _ => [row] | _ => [] end in
  let pointer := match r with Custom p _ _ _ _ _ _ _ => [p] | _ => [] end in
  ConstraintSet.mContactConstraintIndices cs'
    = ConstraintSet.mContactConstraintIndices cs ++ contact /\
  ConstraintSet.mLoopConstraintIndices cs'
    = ConstraintSet.mLoopConstraintIndices cs ++ loop /\
  ConstraintSet.mCustomConstraintIndices cs'
    = ConstraintSet.mCustomConstraintIndices cs ++ custom /\
  ConstraintSet.mCustomConstraints cs'
    = ConstraintSet.mCustomConstraints cs ++ pointer.

(** A registration whose custom constraint pointer, if it has one, points to
    an object. *)
Definition registrable (objects : ConstraintSet.heap) (r : registration) : Prop :=
  match r with
  | Custom pointer _ _ _ _ _ _ _ => is_Some (objects pointer)
  | _ => True
  end.

(** Every per-row member of [cs] has [size ()] entries. *)
Definition aligned (cs : ConstraintSet.ConstraintSet) : Prop :=
  let n := length (ConstraintSet.acceleration cs) in
  length (ConstraintSet.constraintType cs) = n /\
  length (ConstraintSet.name cs) = n /\
  length (ConstraintSet.body cs) = n /\
  length (ConstraintSet.point cs) = n /\
  length (ConstraintSet.normal cs) = n /\
  length (ConstraintSet.body_p cs) = n /\
  length (ConstraintSet.body_s cs) = n /\
  length (ConstraintSet.X_p cs) = n /\
  length (ConstraintSet.X_s cs) = n /\
  length (ConstraintSet.constraintAxis cs) = n /\
  length (ConstraintSet.baumgarteParameters cs) = n /\
  length (ConstraintSet.err cs) = n /\
  length (ConstraintSet.errd cs) = n /\
  length (ConstraintSet.force cs) = n /\
  length (ConstraintSet.impulse cs) = n /\
  length (ConstraintSet.v_plus cs) = n.

(** One call of a member function of the constraint set. *)
Inductive call : Type :=
| CallAdd (r : registration)
| CallBind (model : Model.Model)
| CallSetActuationMap (model : Model.Model) (actuatedDof : list bool)
| CallSetSolver (solver : LinearSolver)
| CallClear
| CallCopy.

(** The call performed on the set; the value is [Some b] when the call is
    [Bind] and returns [b].  After [Copy] the run goes on with the copy. *)
Definition perform (objects : ConstraintSet.heap) (c : call)
  : M ConstraintSet.ConstraintSet (option bool) :=
  match c with
  | CallAdd r => register objects r ;; ret None
  | CallBind model => b <- ConstraintSet.Bind model ;; ret (Some b)
  | CallSetActuationMap model actuatedDof =>
    ConstraintSet.SetActuationMap model actuatedDof ;; ret None
  | CallSetSolver solver => ConstraintSet.SetSolver solver ;; ret None
  | CallClear => ConstraintSet.clear ;; ret None
  | CallCopy => modify ConstraintSet.Copy ;; ret None
  end.

(** The sets reached from a default-constructed one by calls none of which
    is a [Bind] that returns true. *)
Inductive never_bound (objects : ConstraintSet.heap)
  : ConstraintSet.ConstraintSet -> Prop :=
| never_bound_new : never_bound objects ConstraintSet.new
| never_bound_call cs c result cs' :
    never_bound objects cs ->
    perform objects c cs = Ok result cs' ->
    result <> Some true ->
    never_bound objects cs'.

(** The position error vector of the set at [Q]; empty if the computation
    fails. *)
Definition error_at (objects : ConstraintSet.heap) (model : Model.Model)
  (cs : ConstraintSet.ConstraintSet) (Q : VectorNd) : VectorNd :=
  match ConstraintSet.position_error objects model cs Q with
  | Ok _ e => e
  | _ => []
  end.

(** The iterate that follows [Q] in [CalcAssemblyQ]. *)
Definition next_iterate (objects : ConstraintSet.heap) (model : Model.Model)
  (cs : ConstraintSet.ConstraintSet) (weights Q : VectorNd) : VectorNd :=
  ConstraintSet.assembly_step model cs weights (error_at objects model cs Q) Q.

(** The [k]-th iterate from [QInit]. *)
Definition iterate (objects : ConstraintSet.heap) (model : Model.Model)
  (cs : ConstraintSet.ConstraintSet) (weights QInit : VectorNd) (k : nat)
  : VectorNd :=
  Nat.iter k (next_iterate objects model cs weights) QInit.

(** The norm of the position error at [Q] is below [tolerance]. *)
Definition converged (objects : ConstraintSet.heap) (model : Model.Model)
  (cs : ConstraintSet.ConstraintSet) (tolerance : float) (Q : VectorNd) : Prop :=
  (ConstraintSet.VectorNd_norm (error_at objects model cs Q) <? tolerance)%float
  = true.

End Registrations.

(** * A small instance of the external declarations

    Used to run the definitions on concrete inputs; the theorems do not depend
    on it. *)

Module Sample.

Inductive solver : Type := PartialPivLU | ColPivHouseholderQR | HouseholderQR_ | LLT.

(** A rotation (rows of a 3x3 matrix) and a translation. *)
Definition transform : Type := (list Vector3d * Vector3d)%type.

Definition identity3 : list Vector3d := [Vec3 1 0 0; Vec3 0 1 0; Vec3 0 0 1].

Definition identity6 : MatrixNd :=
  [ [1; 0; 0; 0; 0; 0]; [0; 1; 0; 0; 0; 0]; [0; 0; 1; 0; 0; 0];
    [0; 0; 0; 1; 0; 0]; [0; 0; 0; 0; 1; 0]; [0; 0; 0; 0; 0; 1] ]%float.

(** Mass, centre of mass and the third constructor argument. *)
Definition body : Type := (float * Vector3d * Vector3d)%type.

(** Inertia of a body whose centre of mass is at its origin. *)
Definition inertia (b : body) : MatrixNd :=
  match b with
  | (mass, _, Vec3 gx gy gz) =>
    [ [gx; 0; 0; 0; 0; 0]; [0; gy; 0; 0; 0; 0]; [0; 0; gz; 0; 0; 0];
      [0; 0; 0; mass; 0; 0]; [0; 0; 0; 0; mass; 0]; [0; 0; 0; 0; 0; mass] ]%float
  end.

(** Revolute joints turn about their axis, prismatic joints slide along it. *)
Definition axis (t : JointType) (ax : Vector3d) : SpatialVector :=
  match t, ax with
  | JointTypeRevolute, Vec3 x y z => SVec x y z 0 0 0
  | JointTypePrismatic, Vec3 x y z => SVec 0 0 0 x y z
  | JointTypeUndefined, _ => SVec 0 0 0 0 0 0
  end.

#[export] Instance externals : Externals := {|
  SpatialMatrix := MatrixNd;
  SpatialMatrixIdentity := identity6;
  SpatialTransform := transform;
  SpatialTransform_default := (identity3, Vec3 0 0 0);
  Xtrans := fun r => (identity3, r);
  resized_coeff := fun _ v i => nth i v 0%float;
  LinearSolver := solver;
  LinearSolverColPivHouseholderQR := ColPivHouseholderQR;
  HouseholderQR := MatrixNd;
  HouseholderQR_default := [];
  FullPivHouseholderQR := MatrixNd;
  FullPivHouseholderQR_default := [];
  Body := body;
  Body_default := (1%float, Vec3 0 0 0, Vec3 0 0 0);
  Body_ctor := fun mass com radii => (mass, com, radii);
  mSpatialInertia := inertia;
  Joint_default := mkJoint JointTypeUndefined (SVec 0 0 0 0 0 0);
  Joint_axis := axis;
  AddBody_default_body_name := ""%string;
  CustomConstraintPtr := nat;
|}.

(** A default-constructed model: empty containers (the scalar members are
    overwritten by [Init]). *)
Definition empty_model : Model.Model :=
  Model.mkModel false [] [] 0 (Vec3 0 0 0) [] [] [] [] [] [] [] [] [] [] [] [] []
    [] [] [] [] [] [] [] [].

(** The state after [Init ()]. *)
Definition init_model : Model.Model :=
  Eval vm_compute in
    match Model.Init empty_model with
    | Ok _ m => m
    | _ => empty_model
    end.

(** The state after [Init ()] and one [AddBody (0, ...)] named "b1". *)
Definition one_body_model : Model.Model :=
  Eval vm_compute in
    match Model.AddBody 0 (identity3, Vec3 0 0 0)
            (Joint_ctor JointTypeRevolute (Vec3 0 0 1))
            (1%float, Vec3 0 0 0, Vec3 1 1 1) "b1"%string init_model with
    | Ok _ m => m
    | _ => init_model
    end.

(** Kernels that are simple enough to run: the workspace is left as it is,
    a loop row reports the first coordinate of [Q], the norm is Euclidean,
    an assembly step halves [Q], and the "solver" returns the right-hand
    side. *)
#[export] Instance kernels : ConstraintSet.Kernels := {|
  ConstraintSet.allocated_workspace := fun _ _ w => w;
  ConstraintSet.cleared_workspace := fun w => w;
  ConstraintSet.actuation_workspace := fun _ _ w => w;
  ConstraintSet.loop_position_error := fun _ Q _ _ => nth 0 Q 0%float;
  ConstraintSet.VectorNd_norm :=
    fun e => PrimFloat.sqrt (fold_left (fun acc x => acc + x * x) e 0)%float;
  ConstraintSet.assembly_step := fun _ _ _ _ Q => map (fun x => x / 2)%float Q;
  ConstraintSet.system_variables := fun _ _ _ _ cs => ConstraintSet.workspace cs;
  ConstraintSet.SolveLinearSystem := fun _ b _ => b;
|}.

(** A custom constraint with two rows; it writes the first coordinate of [Q]
    into every entry of the vector it is given. *)
Definition two_rows : ConstraintSet.CustomConstraint :=
  ConstraintSet.mkCustomConstraint 2
    (fun _ _ Q _ e _ => map (fun _ => nth 0 Q 0%float) e).

(** One object, at address 0. *)
Definition objects : ConstraintSet.heap :=
  fun pointer => match pointer with O => Some two_rows | _ => None end.



(** A contact row, a loop row with the default arguments, and the custom
    constraint. *)
Definition registrations : list registration :=
  [ Contact 0 (Vec3 0 0 0) (Vec3 0 1 0) None None;
    Loop 0 0 (identity3, Vec3 0 0 0) (identity3, Vec3 0 0 0)
      (SVec 0 0 0 1 0 0) None None None;
    Custom 0%nat 0 0 (identity3, Vec3 0 0 0) (identity3, Vec3 0 0 0)
      None None None ].

(** The set after these registrations. *)
Definition registered_set : ConstraintSet.ConstraintSet :=
  Eval vm_compute in
    match register_all objects registrations ConstraintSet.new with
    | Ok _ cs => cs
    | _ => ConstraintSet.new
    end.

(** The set after [Bind (init_model)]. *)
Definition bound_set : ConstraintSet.ConstraintSet :=
  Eval vm_compute in
    match ConstraintSet.Bind init_model registered_set with
    | Ok _ cs => cs
    | _ => registered_set
    end.

End Sample.

(** * Properties *)

(** ** Arithmetic and lists *)

Lemma u32_small z : 0 <= z < 2 ^ 32 -> u32 z = z.
Proof. intros Hz. unfold u32. apply Z.mod_small. exact Hz. Qed.

Lemma length_VectorNd_Zero n : length (VectorNd_Zero n) = Z.to_nat n.
Proof. unfold VectorNd_Zero. apply length_replicate. Qed.

Lemma map_replicate_const {A B} (g : A -> B) (n : nat) (x : A) :
  map g (replicate n x) = replicate n (g x).
Proof. induction n as [|n IH]; [reflexivity|]. cbn. rewrite IH. reflexivity. Qed.

Lemma lookup_map_Some {A B} (g : A -> B) (l : list A) (i : nat) (x : A) :
  l !! i = Some x -> map g l !! i = Some (g x).
Proof.
  intros Hi. change (map g l) with (g <$> l).
  rewrite list_lookup_fmap, Hi. reflexivity.
Qed.
(** ** Model.cc *)

Section ModelFacts.
Context {ext : Externals}.

Lemma length_VectorNd_resize n v : length (VectorNd_resize n v) = Z.to_nat n.
Proof. unfold VectorNd_resize. rewrite length_map, length_seq. reflexivity. Qed.

(** Symbolic execution of a member function on a state given by its members. *)
Ltac run_model :=
  cbv [Model.Init Model.AddBody Model.SetFloatingBaseBody Model.GetBodyId
       bind ret gets modify throw assert_ assign push_back
       Model.resize_dof at_assign at_push_back
       Model.set_experimental_floating_base Model.set_lambda Model.set_mu
       Model.set_dof_count Model.set_gravity Model.set_q Model.set_qdot
       Model.set_qddot Model.set_tau Model.set_v Model.set_a
       Model.set_mJoints Model.set_S Model.set_X_T Model.set_c Model.set_IA
       Model.set_pA Model.set_U Model.set_u Model.set_d Model.set_f
       Model.set_Ic Model.set_X_lambda Model.set_X_base Model.set_mBodies
       Model.set_mBodyNames Model.experimental_floating_base Model.lambda
       Model.mu Model.dof_count Model.gravity Model.q Model.qdot Model.qddot
       Model.tau Model.v Model.a Model.mJoints Model.S Model.X_T Model.c
       Model.IA Model.pA Model.U Model.u Model.d Model.f Model.Ic
       Model.X_lambda Model.X_base Model.mBodies Model.mBodyNames].

Lemma Init_unset m0 :
  unset m0 -> exists m, Model.Init m0 = Ok tt m /\ consistent m /\
    Model.dof_count m = 0 /\ Model.lambda m = [0] /\ Model.mu m = [[]] /\
    Model.experimental_floating_base m = false.
Proof.
  intros U. destruct m0. unfold unset in U. cbn in U.
  destruct U as (U1 & U2 & U3 & U4 & U5 & U6 & U7 & U8 & U9 & U10 & U11 & U12
                 & U13 & U14 & U15 & U16 & U17).
  subst. eexists. split; [run_model; reflexivity|].
  unfold consistent. cbn. repeat split; done.
Qed.

Lemma AddBody_consistent m p joint_frame joint body body_name :
  consistent m ->
  0 <= p <= Model.dof_count m ->
  Model.dof_count m + 1 < UINT_MAX ->
  mJointType joint <> JointTypeUndefined ->
  exists children m',
    Model.mu m !! Z.to_nat p = Some children /\
    Model.AddBody p joint_frame joint body body_name m
      = Ok (Model.dof_count m + 1) m' /\
    consistent m' /\
    Model.experimental_floating_base m' = Model.experimental_floating_base m /\
    Model.dof_count m' = Model.dof_count m + 1 /\
    Model.lambda m' = Model.lambda m ++ [p] /\
    Model.mu m'
      = <[Z.to_nat p := children ++ [Model.dof_count m + 1]]> (Model.mu m) ++ [[]] /\
    Model.mJoints m' = Model.mJoints m ++ [joint] /\
    Model.mBodies m' = Model.mBodies m ++ [body] /\
    Model.mBodyNames m' = Model.mBodyNames m ++ [body_name].
Proof.
  intros C Hp Hd Hj. unfold UINT_MAX in Hd.
  destruct m as [efb lam mu0 dof grav q0 qd qdd tau0 v0 a0 js S0 XT c0 IA0 pA0
                 U0 u0 d0 f0 Ic0 Xl Xb bodies names].
  unfold consistent in C. cbn in *.
  destruct C as (C0 & C).
  destruct (lookup_lt_is_Some_2 mu0 (Z.to_nat p)) as [children Hch].
  { lia. }
  exists children. eexists. split; [exact Hch|]. split.
  { run_model.
    rewrite (bool_decide_eq_true_2 (0 < length lam)%nat) by lia. cbv beta iota.
    rewrite (bool_decide_eq_true_2 _ Hj). cbv beta iota.
    rewrite (lookup_app_l mu0) by lia. rewrite Hch. cbv beta iota.
    unfold VectorNd_size. rewrite length_VectorNd_resize.
    rewrite !(u32_small (dof + 1)) by lia.
    rewrite (u32_small (dof + 1 + 1)) by lia.
    rewrite Z2Nat.id by lia.
    replace (dof + 1 + 1 - 1) with (dof + 1) by lia.
    rewrite (u32_small (dof + 1)) by lia.
    reflexivity. }
  unfold consistent. cbn.
  rewrite !length_app, !length_VectorNd_resize, !length_VectorNd_Zero, length_insert, !length_app.
  cbn.
  replace (Z.of_nat (length q0)) with (dof + 1) by lia.
  rewrite (u32_small (dof + 1)) by lia.
  rewrite insert_app_l by lia.
  repeat split; try reflexivity; lia.
Qed.

Lemma AddBody_undefined_joint m p joint_frame joint body body_name :
  mJointType joint = JointTypeUndefined ->
  Model.AddBody p joint_frame joint body body_name m = Abort.
Proof.
  intros Hj. destruct m. run_model.
  destruct (bool_decide _); cbv beta iota; [|reflexivity].
  rewrite bool_decide_eq_false_2 by (intros E; apply E, Hj). reflexivity.
Qed.

Lemma built_invariants m :
  built m ->
  consistent m /\ parents_precede m /\ children_match m /\
  Model.lambda m !! 0%nat = Some 0 /\
  Model.experimental_floating_base m = false.
Proof.
  induction 1 as [m0 m U E|m p jf j b nm id m' Hb IH Hp Hd E].
  - destruct (Init_unset m0 U) as (m1 & E1 & C & Hdof & Hlam & Hmu & Hf).
    rewrite E in E1. injection E1 as <-.
    split; [exact C|]. split; [|split; [|split; [|exact Hf]]].
    + intros i p Hi Hl. rewrite Hlam in Hl.
      destruct i as [|i]; [lia|]. discriminate.
    + intros p ch i Hp. rewrite Hmu in Hp.
      destruct p as [|p]; [|discriminate]. injection Hp as <-.
      rewrite Hlam. split.
      * intros Hin. inversion Hin.
      * intros [Hi Hl]. destruct (Z.to_nat i) as [|k] eqn:Ek; [lia|]. discriminate.
    + rewrite Hlam. reflexivity.
  - destruct IH as (C & PP & CM & H0 & Hf).
    destruct (decide (mJointType j = JointTypeUndefined)) as [Hu|Hj].
    { rewrite (AddBody_undefined_joint m p jf j b nm Hu) in E. discriminate. }
    destruct (AddBody_consistent m p jf j b nm C Hp Hd Hj)
      as (ch & m1 & Hch & E1 & C1 & Hf1 & Hdof & Hlam & Hmu & _).
    rewrite E in E1. injection E1 as -> <-.
    assert (Hlen : length (Model.lambda m) = Z.to_nat (Model.dof_count m + 1))
      by apply C.
    assert (Hlenmu : length (Model.mu m) = Z.to_nat (Model.dof_count m + 1))
      by apply C.
    assert (C0 : 0 <= Model.dof_count m) by apply C.
    assert (Hbound : forall (i : nat) q, Model.lambda m !! i = Some q ->
                       0 <= q <= Model.dof_count m).
    { intros i q Hq. pose proof (lookup_lt_Some _ _ _ Hq) as Hlt.
      destruct i as [|i].
      - rewrite H0 in Hq. injection Hq as <-. lia.
      - specialize (PP (S i) q ltac:(lia) Hq). lia. }
    split; [exact C1|]. split; [|split; [|split]].
    + intros i q Hi Hq. rewrite Hlam in Hq.
      apply lookup_app_Some in Hq as [Hq|[Hge Hq]].
      * apply PP; assumption.
      * apply list_lookup_singleton_Some in Hq as [Hi0 <-]. lia.
    + intros k L i Hk. rewrite Hmu in Hk. rewrite Hlam.
      apply lookup_app_Some in Hk as [Hk|[Hge Hk]].
      * destruct (decide (k = Z.to_nat p)) as [-> | Hne].
        -- rewrite list_lookup_insert_eq in Hk by lia. injection Hk as <-.
           rewrite elem_of_app, (CM _ _ i Hch), list_elem_of_singleton.
           rewrite Z2Nat.id by lia. split.
           ++ intros [[Hi Hl] | ->].
              ** split; [exact Hi|]. apply lookup_app_l_Some, Hl.
              ** split; [lia|]. rewrite lookup_app_r by lia.
                 replace (_ - _)%nat with 0%nat by lia. reflexivity.
           ++ intros [Hi Hl]. apply lookup_app_Some in Hl as [Hl|[Hge Hl]].
              ** left. split; assumption.
              ** right. apply list_lookup_singleton_Some in Hl as [Hl _]. lia.
        -- rewrite list_lookup_insert_ne in Hk by congruence.
           rewrite (CM _ _ i Hk). split.
           ++ intros [Hi Hl]. split; [exact Hi|]. apply lookup_app_l_Some, Hl.
           ++ intros [Hi Hl]. apply lookup_app_Some in Hl as [Hl|[Hge Hl]].
              ** split; assumption.
              ** apply list_lookup_singleton_Some in Hl as [_ Hl].
                 exfalso. apply Hne.
                 lia.
      * apply list_lookup_singleton_Some in Hk as [Hk <-].
        rewrite length_insert in Hk, Hge. split.
        -- intros Hin. inversion Hin.
        -- intros [Hi Hl]. exfalso.
           apply lookup_app_Some in Hl as [Hl|[Hge' Hl]].
           ++ apply Hbound in Hl. lia.
           ++ apply list_lookup_singleton_Some in Hl as [_ Hl]. lia.
    + rewrite Hlam. apply lookup_app_l_Some, H0.
    + rewrite Hf1. exact Hf.
Qed.

Lemma GetBodyId_loop_scan fuel names id (k : nat) :
  Z.of_nat (length names) <= UINT_MAX ->
  (k <= length names)%nat ->
  (length names - k < fuel)%nat ->
  (forall j : nat, (j < k)%nat -> names !! j <> Some id) ->
  exists i, Model.GetBodyId_loop fuel names id (Z.of_nat k) = Some i /\
    ((exists j : nat, i = Z.of_nat j /\ names !! j = Some id /\
        forall j' : nat, (j' < j)%nat -> names !! j' <> Some id)
     \/ (i = UINT_MAX /\ forall j : nat, names !! j <> Some id)).
Proof.
  intros Hmax. revert k.
  induction fuel as [|fuel IH]; intros k Hk Hfuel Hnone; [lia|].
  cbn [Model.GetBodyId_loop]. case_bool_decide as Hlt.
  - rewrite Nat2Z.id.
    destruct (lookup_lt_is_Some_2 names k ltac:(lia)) as [name_k Hname].
    rewrite Hname. case_bool_decide as Heq.
    + subst name_k. exists (Z.of_nat k). split; [reflexivity|].
      left. exists k. auto.
    + unfold UINT_MAX in Hmax. rewrite u32_small by lia.
      replace (Z.of_nat k + 1) with (Z.of_nat (S k)) by lia.
      apply IH; [lia|lia|].
      intros j Hj. destruct (decide (j = k)) as [-> | Hne].
      * rewrite Hname. congruence.
      * apply Hnone. lia.
  - exists UINT_MAX. split; [reflexivity|]. right. split; [reflexivity|].
    intros j. destruct (decide (j < k)%nat) as [Hj|Hj].
    + apply Hnone, Hj.
    + rewrite (lookup_ge_None_2 names j) by lia. discriminate.
Qed.

(** C9. [GetBodyId (id)] returns the smallest index whose stored name is
    [id], or [UINT_MAX] when no body has that name, and leaves the model as
    it was.  (The model holds at most [UINT_MAX] names, and the loop is given
    enough fuel to visit all of them.) *)
Theorem GetBodyId_first_match (m : Model.Model) (id : string) (fuel : nat) :
  Z.of_nat (length (Model.mBodyNames m)) <= UINT_MAX ->
  (length (Model.mBodyNames m) < fuel)%nat ->
  exists i, Model.GetBodyId fuel id m = Ok i m /\
    ((exists j : nat, i = Z.of_nat j /\ Model.mBodyNames m !! j = Some id /\
        forall j' : nat, (j' < j)%nat -> Model.mBodyNames m !! j' <> Some id)
     \/ (i = UINT_MAX /\ forall j : nat, Model.mBodyNames m !! j <> Some id)).
Proof.
  intros Hmax Hfuel.
  destruct (GetBodyId_loop_scan fuel (Model.mBodyNames m) id 0 Hmax)
    as (i & Hi & Hspec); [lia|lia|intros j Hj; lia|].
  exists i. split; [|exact Hspec].
  change (Z.of_nat 0) with 0 in Hi.
  unfold Model.GetBodyId, bind, gets, ret. rewrite Hi. reflexivity.
Qed.

(** C8. For a model made by [Init] and [AddBody] calls and the index [p] of a
    body added before, [AddBody (p, ...)] succeeds, increases [dof_count] by
    one, appends [p] to [lambda] and the new index to [mu[p]], keeps the
    entries stored before, and returns the new body's index, which is the new
    [dof_count]; afterwards every body index but the root has one degree of
    freedom and a parent of smaller index. *)
Theorem AddBody_adds_one_body (m : Model.Model) (p : Z)
  (joint_frame : SpatialTransform) (joint : Joint) (body : Body)
  (body_name : string) :
  built m ->
  0 <= p <= Model.dof_count m ->
  Model.dof_count m + 1 < UINT_MAX ->
  mJointType joint <> JointTypeUndefined ->
  exists (children : list Z) (m' : Model.Model),
    Model.mu m !! Z.to_nat p = Some children /\
    Model.AddBody p joint_frame joint body body_name m
      = Ok (Model.dof_count m + 1) m' /\
    Model.dof_count m' = Model.dof_count m + 1 /\
    Model.lambda m' = Model.lambda m ++ [p] /\
    Model.lambda m' !! Z.to_nat (Model.dof_count m') = Some p /\
    Model.mu m'
      = <[Z.to_nat p := children ++ [Model.dof_count m + 1]]> (Model.mu m)
        ++ [[]] /\
    (forall i : nat, (i < length (Model.lambda m))%nat ->
       Model.lambda m' !! i = Model.lambda m !! i) /\
    (forall k : nat, k <> Z.to_nat p -> (k < length (Model.mu m))%nat ->
       Model.mu m' !! k = Model.mu m !! k) /\
    built m' /\
    Z.of_nat (length (Model.lambda m')) = Model.dof_count m' + 1 /\
    Z.of_nat (length (Model.q m')) = Model.dof_count m' + 1 /\
    parents_precede m' /\
    children_match m'.
Proof.
  intros Hb Hp Hd Hj.
  destruct (built_invariants m Hb) as (C & _).
  destruct (AddBody_consistent m p joint_frame joint body body_name C Hp Hd Hj)
    as (ch & m' & Hch & E & C' & _ & Hdof & Hlam & Hmu & _).
  assert (Hb' : built m') by (eapply built_AddBody; eassumption).
  destruct (built_invariants m' Hb') as (_ & PP & CM & _).
  assert (Hlen : length (Model.lambda m) = Z.to_nat (Model.dof_count m + 1))
    by apply C.
  assert (Hlenmu : length (Model.mu m) = Z.to_nat (Model.dof_count m + 1))
    by apply C.
  assert (C0 : 0 <= Model.dof_count m) by apply C.
  exists ch, m'.
  split; [exact Hch|]. split; [exact E|]. split; [exact Hdof|].
  split; [exact Hlam|]. split.
  { rewrite Hlam, Hdof. rewrite lookup_app_r by lia.
    replace (_ - _)%nat with 0%nat by lia. reflexivity. }
  split; [exact Hmu|]. split.
  { intros i Hi. rewrite Hlam. apply lookup_app_l, Hi. }
  split.
  { intros k Hk Hlt. rewrite Hmu, lookup_app_l by (rewrite length_insert; lia).
    apply list_lookup_insert_ne. congruence. }
  split; [exact Hb'|]. split.
  { destruct C' as (C0' & Hl & _). lia. }
  split.
  { destruct C' as (C0' & _ & _ & Hq & _). lia. }
  split; [exact PP|exact CM].
Qed.

(** C10. Without the experimental floating base, [SetFloatingBaseBody (body)]
    adds six bodies in a chain below the root: three prismatic joints along x,
    y, z, then three revolute joints about z, y, x; the first five bodies are
    built with zero mass and zero inertia arguments, the sixth is [body], and
    the call returns the index of that last body. *)
Theorem SetFloatingBaseBody_six_joints (m : Model.Model) (body : Body) :
  consistent m ->
  Model.experimental_floating_base m = false ->
  Model.dof_count m + 6 < UINT_MAX ->
  exists m' : Model.Model,
    let n := Model.dof_count m in
    let massless := Body_ctor 0 (Vec3 0 0 0) (Vec3 0 0 0) in
    Model.SetFloatingBaseBody body m = Ok (n + 6) m' /\
    Model.dof_count m' = n + 6 /\
    Model.mJoints m' = Model.mJoints m ++
      [ Joint_ctor JointTypePrismatic (Vec3 1 0 0);
        Joint_ctor JointTypePrismatic (Vec3 0 1 0);
        Joint_ctor JointTypePrismatic (Vec3 0 0 1);
        Joint_ctor JointTypeRevolute (Vec3 0 0 1);
        Joint_ctor JointTypeRevolute (Vec3 0 1 0);
        Joint_ctor JointTypeRevolute (Vec3 1 0 0) ] /\
    Model.mBodies m' = Model.mBodies m ++
      [ massless; massless; massless; massless; massless; body ] /\
    Model.lambda m' = Model.lambda m ++ [0; n + 1; n + 2; n + 3; n + 4; n + 5] /\
    length (Model.mBodies m') = (length (Model.mBodies m) + 6)%nat /\
    Model.mBodies m' !! Z.to_nat (n + 6) = Some body /\
    Model.mJoints m' !! Z.to_nat (n + 6)
      = Some (Joint_ctor JointTypeRevolute (Vec3 1 0 0)) /\
    consistent m'.
Proof.
  intros C Hf Hd. unfold UINT_MAX in Hd.
  assert (C0 : 0 <= Model.dof_count m) by apply C.
  assert (Hbodies : length (Model.mBodies m) = Z.to_nat (Model.dof_count m + 1))
    by apply C.
  assert (Hjoints : length (Model.mJoints m) = Z.to_nat (Model.dof_count m + 1))
    by apply C.
  set (X0 := Xtrans (Vec3 0 0 0)).
  set (B0 := Body_ctor 0 (Vec3 0 0 0) (Vec3 0 0 0)).
  destruct (AddBody_consistent m 0 X0 (Joint_ctor JointTypePrismatic (Vec3 1 0 0))
              B0 AddBody_default_body_name C)
    as (ch1 & m1 & _ & E1 & C1 & F1 & D1 & L1 & _ & J1 & B1 & _);
    [lia|unfold UINT_MAX; lia|discriminate|].
  destruct (AddBody_consistent m1 (Model.dof_count m + 1) X0
              (Joint_ctor JointTypePrismatic (Vec3 0 1 0))
              B0 AddBody_default_body_name C1)
    as (ch2 & m2 & _ & E2 & C2 & F2 & D2 & L2 & _ & J2 & B2 & _);
    [lia|unfold UINT_MAX; lia|discriminate|].
  destruct (AddBody_consistent m2 (Model.dof_count m1 + 1) X0
              (Joint_ctor JointTypePrismatic (Vec3 0 0 1))
              B0 AddBody_default_body_name C2)
    as (ch3 & m3 & _ & E3 & C3 & F3 & D3 & L3 & _ & J3 & B3 & _);
    [lia|unfold UINT_MAX; lia|discriminate|].
  destruct (AddBody_consistent m3 (Model.dof_count m2 + 1) X0
              (Joint_ctor JointTypeRevolute (Vec3 0 0 1))
              B0 AddBody_default_body_name C3)
    as (ch4 & m4 & _ & E4 & C4 & F4 & D4 & L4 & _ & J4 & B4 & _);
    [lia|unfold UINT_MAX; lia|discriminate|].
  destruct (AddBody_consistent m4 (Model.dof_count m3 + 1) X0
              (Joint_ctor JointTypeRevolute (Vec3 0 1 0))
              B0 AddBody_default_body_name C4)
    as (ch5 & m5 & _ & E5 & C5 & F5 & D5 & L5 & _ & J5 & B5 & _);
    [lia|unfold UINT_MAX; lia|discriminate|].
  destruct (AddBody_consistent m5 (Model.dof_count m4 + 1) X0
              (Joint_ctor JointTypeRevolute (Vec3 1 0 0))
              body AddBody_default_body_name C5)
    as (ch6 & m6 & _ & E6 & C6 & F6 & D6 & L6 & _ & J6 & B6 & _);
    [lia|unfold UINT_MAX; lia|discriminate|].
  exists m6. cbv zeta.
  assert (HJ : Model.mJoints m6 = Model.mJoints m ++
      [ Joint_ctor JointTypePrismatic (Vec3 1 0 0);
        Joint_ctor JointTypePrismatic (Vec3 0 1 0);
        Joint_ctor JointTypePrismatic (Vec3 0 0 1);
        Joint_ctor JointTypeRevolute (Vec3 0 0 1);
        Joint_ctor JointTypeRevolute (Vec3 0 1 0);
        Joint_ctor JointTypeRevolute (Vec3 1 0 0) ]).
  { rewrite J6, J5, J4, J3, J2, J1, <- !app_assoc. reflexivity. }
  assert (HB : Model.mBodies m6 = Model.mBodies m ++ [B0; B0; B0; B0; B0; body]).
  { rewrite B6, B5, B4, B3, B2, B1, <- !app_assoc. reflexivity. }
  split; [|split; [|split; [|split; [|split; [|split; [|split; [|split]]]]]]].
  - unfold Model.SetFloatingBaseBody, bind, gets, assert_, ret.
    rewrite bool_decide_eq_true_2 by lia. rewrite Hf.
    fold X0. fold B0. rewrite E1, E2, E3, E4, E5, E6.
    f_equal. lia.
  - lia.
  - exact HJ.
  - exact HB.
  - rewrite L6, L5, L4, L3, L2, L1, <- !app_assoc. cbn.
    apply (f_equal (app (Model.lambda m))).
    repeat match goal with
           | |- _ :: _ = _ :: _ => apply (f_equal2 cons); [lia|]
           end.
    reflexivity.
  - rewrite HB, length_app. reflexivity.
  - rewrite HB, lookup_app_r by lia.
    replace (_ - _)%nat with 5%nat by lia. reflexivity.
  - rewrite HJ, lookup_app_r by lia.
    replace (_ - _)%nat with 5%nat by lia. reflexivity.
  - exact C6.
Qed.

(** X1. [Init ()] on a default-constructed model creates the root body:
    index 0, no degree of freedom, its own parent, no child, named "ROOT",
    gravity along -y, and one slot in every per-body container. *)
Theorem Init_creates_root (m0 : Model.Model) :
  unset m0 ->
  exists m : Model.Model,
    Model.Init m0 = Ok tt m /\
    Model.dof_count m = 0 /\
    Model.lambda m = [0] /\
    Model.mu m = [[]] /\
    Model.mBodyNames m = ["ROOT"%string] /\
    Model.mBodies m = [Body_default] /\
    Model.gravity m = Vec3 0 (-9.81) 0 /\
    Model.experimental_floating_base m = false /\
    consistent m.
Proof.
  intros U. destruct m0. unfold unset in U. cbn in U.
  destruct U as (U1 & U2 & U3 & U4 & U5 & U6 & U7 & U8 & U9 & U10 & U11 & U12
                 & U13 & U14 & U15 & U16 & U17).
  subst. eexists. split; [run_model; reflexivity|].
  unfold consistent. cbn. repeat split; done.
Qed.

(** X2. [AddBody] with a joint of type [JointTypeUndefined] fails its
    assertion, whatever the model. *)
Theorem AddBody_rejects_undefined_joint (m : Model.Model) (p : Z)
  (joint_frame : SpatialTransform) (joint : Joint) (body : Body)
  (body_name : string) :
  mJointType joint = JointTypeUndefined ->
  Model.AddBody p joint_frame joint body body_name m = Abort.
Proof.
  intros Hj. destruct m. run_model.
  destruct (bool_decide _); cbv beta iota; [|reflexivity].
  rewrite bool_decide_eq_false_2 by (intros E; apply E, Hj). reflexivity.
Qed.

(** X3. [AddBody (parent_id, ...)] with a parent index beyond the index of
    the body being added throws from [mu.at (parent_id)], after [lambda] and
    [mu] have grown and before [dof_count] changes. *)
Theorem AddBody_throws_beyond_new_index (m : Model.Model) (p : Z)
  (joint_frame : SpatialTransform) (joint : Joint) (body : Body)
  (body_name : string) :
  Model.lambda m <> [] ->
  mJointType joint <> JointTypeUndefined ->
  Z.of_nat (length (Model.mu m)) < p ->
  exists m' : Model.Model,
    Model.AddBody p joint_frame joint body body_name m = Throw m' /\
    Model.lambda m' = Model.lambda m ++ [p] /\
    Model.mu m' = Model.mu m ++ [[]] /\
    Model.dof_count m' = Model.dof_count m /\
    Model.mBodies m' = Model.mBodies m.
Proof.
  intros Hl Hj Hp.
  destruct m as [efb lam mu0 dof grav q0 qd qdd tau0 v0 a0 js S0 XT c0 IA0 pA0
                 U0 u0 d0 f0 Ic0 Xl Xb bodies names].
  cbn in *. eexists. split.
  { run_model.
    rewrite (bool_decide_eq_true_2 (0 < length lam)%nat)
      by (destruct lam; [contradiction|cbn; lia]).
    cbv beta iota. rewrite (bool_decide_eq_true_2 _ Hj). cbv beta iota.
    rewrite (lookup_ge_None_2 (mu0 ++ [[]]))
      by (rewrite length_app; cbn; lia).
    cbv beta iota. reflexivity. }
  cbn. repeat split; reflexivity.
Qed.

(** X4. [AddBody] accepts the index of the body being added as its parent:
    the call succeeds and the new body is its own parent and child. *)
Theorem AddBody_accepts_own_index (m : Model.Model)
  (joint_frame : SpatialTransform) (joint : Joint) (body : Body)
  (body_name : string) :
  consistent m ->
  Model.dof_count m + 1 < UINT_MAX ->
  mJointType joint <> JointTypeUndefined ->
  exists m' : Model.Model,
    Model.AddBody (Model.dof_count m + 1) joint_frame joint body body_name m
      = Ok (Model.dof_count m + 1) m' /\
    Model.lambda m' = Model.lambda m ++ [Model.dof_count m + 1] /\
    Model.lambda m' !! Z.to_nat (Model.dof_count m + 1)
      = Some (Model.dof_count m + 1) /\
    Model.mu m' = Model.mu m ++ [[Model.dof_count m + 1]].
Proof.
  intros C Hd Hj. unfold UINT_MAX in Hd.
  destruct m as [efb lam mu0 dof grav q0 qd qdd tau0 v0 a0 js S0 XT c0 IA0 pA0
                 U0 u0 d0 f0 Ic0 Xl Xb bodies names].
  unfold consistent in C. cbn in *.
  destruct C as (C0 & Clam & Cmu & Cq & _).
  assert (Hidx : Z.to_nat (dof + 1) = (length mu0 + 0)%nat) by lia.
  eexists. split.
  { run_model.
    rewrite (bool_decide_eq_true_2 (0 < length lam)%nat) by lia.
    cbv beta iota. rewrite (bool_decide_eq_true_2 _ Hj). cbv beta iota.
    rewrite Hidx, (lookup_app_r mu0) by lia.
    replace (length mu0 + 0 - length mu0)%nat with 0%nat by lia.
    cbn [lookup list_lookup]. cbv beta iota.
    unfold VectorNd_size. rewrite length_VectorNd_resize.
    rewrite !(u32_small (dof + 1)) by lia.
    rewrite (u32_small (dof + 1 + 1)) by lia.
    rewrite Z2Nat.id by lia.
    replace (dof + 1 + 1 - 1) with (dof + 1) by lia.
    replace (Z.of_nat (length q0)) with (dof + 1) by lia.
    rewrite (u32_small (dof + 1)) by lia.
    reflexivity. }
  cbn. split; [reflexivity|]. split.
  { rewrite lookup_app_r by lia.
    replace (_ - _)%nat with 0%nat by lia. reflexivity. }
  rewrite insert_app_r. reflexivity.
Qed.

(** X5. With the experimental floating base, [SetFloatingBaseBody (body)]
    adds no body: it returns 0, adds six degrees of freedom to the root,
    marks the root as having no parent and stores [body] at index 0. *)
Theorem SetFloatingBaseBody_experimental (m : Model.Model) (body : Body) :
  Model.experimental_floating_base m = true ->
  Model.lambda m <> [] -> Model.X_lambda m <> [] ->
  Model.X_base m <> [] -> Model.mBodies m <> [] ->
  exists m' : Model.Model,
    Model.SetFloatingBaseBody body m = Ok 0 m' /\
    Model.dof_count m' = u32 (Model.dof_count m + 6) /\
    Model.lambda m' = <[0%nat := UINT_MAX]> (Model.lambda m) /\
    Model.mBodies m' = <[0%nat := body]> (Model.mBodies m) /\
    Model.mu m' = Model.mu m /\
    length (Model.q m') = Z.to_nat (u32 (u32 (Model.dof_count m + 6) + 1)).
Proof.
  intros Hf Hl HXl HXb Hb.
  destruct m as [efb lam mu0 dof grav q0 qd qdd tau0 v0 a0 js S0 XT c0 IA0 pA0
                 U0 u0 d0 f0 Ic0 Xl Xb bodies names].
  cbn in *. subst efb.
  destruct lam as [|l0 lam]; [contradiction|].
  destruct Xl as [|xl0 Xl]; [contradiction|].
  destruct Xb as [|xb0 Xb]; [contradiction|].
  destruct bodies as [|b0 bodies]; [contradiction|].
  eexists. split.
  { unfold Model.SetFloatingBaseBody.
    unfold bind at 1, gets at 1. unfold bind at 1.
    rewrite (bool_decide_eq_true_2 (0 <= _)%nat) by lia.
    unfold assert_ at 1.
    cbv [bind ret gets modify throw Model.resize_dof at_assign
         lookup list_lookup Z.to_nat
         Model.set_lambda Model.set_dof_count Model.set_q Model.set_qdot
         Model.set_qddot Model.set_tau Model.set_X_lambda Model.set_X_base
         Model.set_mBodies Model.experimental_floating_base Model.lambda
         Model.mu Model.dof_count Model.gravity Model.q Model.qdot Model.qddot
         Model.tau Model.v Model.a Model.mJoints Model.S Model.X_T Model.c
         Model.IA Model.pA Model.U Model.u Model.d Model.f Model.Ic
         Model.X_lambda Model.X_base Model.mBodies Model.mBodyNames].
    reflexivity. }
  cbv [Model.dof_count Model.lambda Model.mBodies Model.mu Model.q].
  rewrite length_VectorNd_resize. repeat split; reflexivity.
Qed.

(** ** Model.cc: edge cases and compositions *)

(** [AddBody] on a model that has a root, whatever the sizes of its other
    containers: [children] is the entry of [mu] that [mu.at (parent_id)]
    reads after the new, empty entry has been appended. *)
Lemma AddBody_run m p joint_frame joint body body_name children :
  Model.lambda m <> [] ->
  mJointType joint <> JointTypeUndefined ->
  (Model.mu m ++ [[]]) !! Z.to_nat p = Some children ->
  0 <= Model.dof_count m ->
  Model.dof_count m + 1 < UINT_MAX ->
  exists m',
    Model.AddBody p joint_frame joint body body_name m
      = Ok (Model.dof_count m + 1) m' /\
    Model.experimental_floating_base m' = Model.experimental_floating_base m /\
    Model.dof_count m' = Model.dof_count m + 1 /\
    Model.lambda m' = Model.lambda m ++ [p] /\
    Model.mu m'
      = <[Z.to_nat p := children ++ [u32 (Z.of_nat (length (Model.q m)))]]>
          (Model.mu m ++ [[]]) /\
    length (Model.q m') = Z.to_nat (Model.dof_count m + 2) /\
    Model.mJoints m' = Model.mJoints m ++ [joint] /\
    Model.S m' = Model.S m ++ [mJointAxis joint] /\
    Model.X_T m' = Model.X_T m ++ [joint_frame] /\
    Model.IA m' = Model.IA m ++ [mSpatialInertia body] /\
    Model.mBodies m' = Model.mBodies m ++ [body] /\
    Model.mBodyNames m' = Model.mBodyNames m ++ [body_name].
Proof.
  intros Hl Hj Hch C0 Hd. unfold UINT_MAX in Hd.
  destruct m as [efb lam mu0 dof grav q0 qd qdd tau0 v0 a0 js S0 XT c0 IA0 pA0
                 U0 u0 d0 f0 Ic0 Xl Xb bodies names].
  cbn in *. eexists. split.
  { run_model.
    rewrite (bool_decide_eq_true_2 (0 < length lam)%nat)
      by (destruct lam; [contradiction|cbn; lia]).
    cbv beta iota. rewrite (bool_decide_eq_true_2 _ Hj). cbv beta iota.
    rewrite Hch. cbv beta iota.
    unfold VectorNd_size. rewrite length_VectorNd_resize.
    rewrite !(u32_small (dof + 1)) by lia.
    rewrite (u32_small (dof + 1 + 1)) by lia.
    rewrite Z2Nat.id by lia.
    replace (dof + 1 + 1 - 1) with (dof + 1) by lia.
    rewrite (u32_small (dof + 1)) by lia.
    reflexivity. }
  cbn. rewrite length_VectorNd_resize.
  repeat split; try reflexivity. f_equal. lia.
Qed.

(** The first index that holds [id] is what [GetBodyId (id)] returns. *)
Lemma GetBodyId_found fuel m id (j : nat) :
  Z.of_nat (length (Model.mBodyNames m)) <= UINT_MAX ->
  (length (Model.mBodyNames m) < fuel)%nat ->
  Model.mBodyNames m !! j = Some id ->
  (forall j' : nat, (j' < j)%nat -> Model.mBodyNames m !! j' <> Some id) ->
  Model.GetBodyId fuel id m = Ok (Z.of_nat j) m.
Proof.
  intros Hmax Hfuel Hj Hfirst.
  destruct (GetBodyId_loop_scan fuel (Model.mBodyNames m) id 0 Hmax)
    as (i & Hi & Hspec); [lia|lia|intros j' Hj'; lia|].
  change (Z.of_nat 0) with 0 in Hi.
  unfold Model.GetBodyId, bind, gets, ret. rewrite Hi.
  destruct Hspec as [(j0 & -> & Hj0 & Hfirst0)|[_ Hnone]].
  - destruct (Nat.lt_trichotomy j0 j) as [Hlt|[->|Hgt]].
    + exfalso. exact (Hfirst j0 Hlt Hj0).
    + reflexivity.
    + exfalso. exact (Hfirst0 j Hgt Hj).
  - exfalso. exact (Hnone j Hj).
Qed.

(** What [GetBodyId] returned, if it is not the not-found value, is the first
    index that holds the name. *)
Lemma GetBodyId_Ok_first fuel m id i m1 :
  Z.of_nat (length (Model.mBodyNames m)) <= UINT_MAX ->
  (length (Model.mBodyNames m) < fuel)%nat ->
  Model.GetBodyId fuel id m = Ok i m1 ->
  i <> UINT_MAX ->
  exists j : nat, i = Z.of_nat j /\ Model.mBodyNames m !! j = Some id /\
    forall j' : nat, (j' < j)%nat -> Model.mBodyNames m !! j' <> Some id.
Proof.
  intros Hmax Hfuel E Hi.
  destruct (GetBodyId_loop_scan fuel (Model.mBodyNames m) id 0 Hmax)
    as (i0 & Hi0 & Hspec); [lia|lia|intros j' Hj'; lia|].
  change (Z.of_nat 0) with 0 in Hi0.
  unfold Model.GetBodyId, bind, gets, ret in E. rewrite Hi0 in E.
  injection E as <- _.
  destruct Hspec as [Hfound|[Hmaxi _]]; [exact Hfound|contradiction].
Qed.

Lemma Init_unset_fields m0 :
  unset m0 -> exists m, Model.Init m0 = Ok tt m /\
    Model.mBodyNames m = ["ROOT"%string] /\
    Model.mJoints m = [Joint_default].
Proof.
  intros U. destruct m0. unfold unset in U. cbn in U.
  destruct U as (U1 & U2 & U3 & U4 & U5 & U6 & U7 & U8 & U9 & U10 & U11 & U12
                 & U13 & U14 & U15 & U16 & U17).
  subst. eexists. split; [run_model; reflexivity|].
  cbn. split; reflexivity.
Qed.

(** What the names and the joints of a built model always satisfy. *)
Lemma built_names_joints m :
  built m ->
  Model.mBodyNames m !! 0%nat = Some "ROOT"%string /\
  Model.dof_count m < UINT_MAX /\
  (forall (i : nat) (joint : Joint),
     (0 < i)%nat -> Model.mJoints m !! i = Some joint ->
     mJointType joint <> JointTypeUndefined).
Proof.
  induction 1 as [m0 m U E|m p jf j b nm id m' Hb IH Hp Hd E].
  - destruct (Init_unset m0 U) as (m1 & E1 & _ & Hdof & _).
    destruct (Init_unset_fields m0 U) as (m2 & E2 & Hnames & Hjoints).
    rewrite E in E1, E2. injection E1 as <-. injection E2 as <-.
    split; [rewrite Hnames; reflexivity|]. split.
    + rewrite Hdof. reflexivity.
    + intros i joint Hi Hl. rewrite Hjoints in Hl.
      destruct i as [|i]; [lia|]. discriminate.
  - destruct IH as (Hroot & Hdof & Hdef).
    destruct (built_invariants m Hb) as (C & _).
    destruct (decide (mJointType j = JointTypeUndefined)) as [Hu|Hj].
    { rewrite (AddBody_undefined_joint m p jf j b nm Hu) in E. discriminate. }
    destruct (AddBody_consistent m p jf j b nm C Hp Hd Hj)
      as (ch & m1 & _ & E1 & _ & _ & Hdof1 & _ & _ & Hjoints & _ & Hnames).
    rewrite E in E1. injection E1 as -> <-.
    split; [rewrite Hnames; apply lookup_app_l_Some, Hroot|]. split; [lia|].
    intros i joint Hi Hl. rewrite Hjoints in Hl.
    apply lookup_app_Some in Hl as [Hl|[_ Hl]].
    + exact (Hdef i joint Hi Hl).
    + apply list_lookup_singleton_Some in Hl as [_ <-]. exact Hj.
Qed.

Lemma AddBody_no_root m p joint_frame joint body body_name :
  Model.lambda m = [] ->
  Model.AddBody p joint_frame joint body body_name m = Abort.
Proof.
  intros Hl. unfold Model.AddBody.
  unfold bind at 1, gets at 1. unfold bind at 1. rewrite Hl.
  rewrite bool_decide_eq_false_2 by (cbn; lia). reflexivity.
Qed.

(** X7. [AddBody] on a model without a root (before [Init ()]) fails its
    first assertion. *)
Theorem AddBody_aborts_without_root (m : Model.Model) (p : Z)
  (joint_frame : SpatialTransform) (joint : Joint) (body : Body)
  (body_name : string) :
  Model.lambda m = [] ->
  Model.AddBody p joint_frame joint body body_name m = Abort.
Proof.
  intros Hl. unfold Model.AddBody.
  unfold bind at 1, gets at 1. unfold bind at 1. rewrite Hl.
  rewrite bool_decide_eq_false_2 by (cbn; lia). reflexivity.
Qed.

(** X8. In a built model, [GetBodyId ("ROOT")] is 0, also when bodies added
    later are named "ROOT". *)
Theorem GetBodyId_ROOT_is_zero (m : Model.Model) (fuel : nat) :
  built m ->
  (length (Model.mBodyNames m) < fuel)%nat ->
  Model.GetBodyId fuel "ROOT" m = Ok 0 m.
Proof.
  intros Hb Hfuel.
  destruct (built_names_joints m Hb) as (Hroot & Hdof & _).
  destruct (built_invariants m Hb) as (C & _).
  assert (C0 : 0 <= Model.dof_count m) by apply C.
  assert (Hlen : length (Model.mBodyNames m) = Z.to_nat (Model.dof_count m + 1))
    by apply C.
  apply (GetBodyId_found fuel m "ROOT" 0); [lia|exact Hfuel|exact Hroot|].
  intros j' Hj'. lia.
Qed.

(** X9. A body added under a name without a NUL character that no body has
    yet is found under that name: [GetBodyId] returns the index [AddBody]
    returned.  ([GetBodyId] takes the name as a [const char *], which ends at
    the first NUL; a stored name with a NUL in it equals no such argument.) *)
Theorem GetBodyId_finds_added_body (m : Model.Model) (p : Z)
  (joint_frame : SpatialTransform) (joint : Joint) (body : Body)
  (body_name : string) (fuel : nat) :
  built m ->
  0 <= p <= Model.dof_count m ->
  Model.dof_count m + 1 < UINT_MAX ->
  mJointType joint <> JointTypeUndefined ->
  c_string body_name = true ->
  body_name ∉ Model.mBodyNames m ->
  (length (Model.mBodyNames m) + 1 < fuel)%nat ->
  exists (id : Z) (m' : Model.Model),
    Model.AddBody p joint_frame joint body body_name m = Ok id m' /\
    Model.GetBodyId fuel body_name m' = Ok id m' /\
    Model.mBodies m' !! Z.to_nat id = Some body.
Proof.
  intros Hb Hp Hd Hj _ Hfresh Hfuel.
  destruct (built_invariants m Hb) as (C & _).
  assert (C0 : 0 <= Model.dof_count m) by apply C.
  assert (Hlen : length (Model.mBodyNames m) = Z.to_nat (Model.dof_count m + 1))
    by apply C.
  assert (Hlenb : length (Model.mBodies m) = Z.to_nat (Model.dof_count m + 1))
    by apply C.
  destruct (AddBody_consistent m p joint_frame joint body body_name C Hp Hd Hj)
    as (ch & m' & _ & E & _ & _ & _ & _ & _ & _ & Hbodies & Hnames).
  exists (Model.dof_count m + 1), m'. split; [exact E|]. split.
  - replace (Model.dof_count m + 1)
      with (Z.of_nat (length (Model.mBodyNames m))) by lia.
    unfold UINT_MAX in Hd.
    apply GetBodyId_found.
    + rewrite Hnames, length_app. cbn. unfold UINT_MAX. lia.
    + rewrite Hnames, length_app. cbn. lia.
    + rewrite Hnames, lookup_app_r by lia.
      replace (_ - _)%nat with 0%nat by lia. reflexivity.
    + intros j' Hj' Hl. rewrite Hnames, lookup_app_l in Hl by lia.
      apply Hfresh. eapply list_elem_of_lookup_2, Hl.
  - rewrite Hbodies, lookup_app_r by lia.
    replace (_ - _)%nat with 0%nat by lia. reflexivity.
Qed.

(** X10. [AddBody] does not change what [GetBodyId] answers for a name that
    was found before; a second body with the same name is therefore not
    found by name. *)
Theorem AddBody_keeps_found_names (m : Model.Model) (p : Z)
  (joint_frame : SpatialTransform) (joint : Joint) (body : Body)
  (body_name id : string) (fuel : nat) (i : Z) :
  built m ->
  0 <= p <= Model.dof_count m ->
  Model.dof_count m + 1 < UINT_MAX ->
  mJointType joint <> JointTypeUndefined ->
  (length (Model.mBodyNames m) + 1 < fuel)%nat ->
  Model.GetBodyId fuel id m = Ok i m ->
  i <> UINT_MAX ->
  exists (k : Z) (m' : Model.Model),
    Model.AddBody p joint_frame joint body body_name m = Ok k m' /\
    Model.GetBodyId fuel id m' = Ok i m' /\
    i < k.
Proof.
  intros Hb Hp Hd Hj Hfuel Hget Hi.
  destruct (built_invariants m Hb) as (C & _).
  assert (C0 : 0 <= Model.dof_count m) by apply C.
  assert (Hlen : length (Model.mBodyNames m) = Z.to_nat (Model.dof_count m + 1))
    by apply C.
  destruct (AddBody_consistent m p joint_frame joint body body_name C Hp Hd Hj)
    as (ch & m' & _ & E & _ & _ & _ & _ & _ & _ & _ & Hnames).
  unfold UINT_MAX in Hd.
  destruct (GetBodyId_Ok_first fuel m id i m) as (j & -> & Hj0 & Hfirst);
    [unfold UINT_MAX; lia|lia|exact Hget|exact Hi|].
  pose proof (lookup_lt_Some _ _ _ Hj0) as Hlt.
  exists (Model.dof_count m + 1), m'. split; [exact E|]. split; [|lia].
  apply GetBodyId_found.
  - rewrite Hnames, length_app. cbn. unfold UINT_MAX. lia.
  - rewrite Hnames, length_app. cbn. lia.
  - rewrite Hnames. apply lookup_app_l_Some, Hj0.
  - intros j' Hj' Hl. rewrite Hnames, lookup_app_l in Hl by lia.
    exact (Hfirst j' Hj' Hl).
Qed.

Lemma lookup_app_end {A} (l : list A) (x : A) (n : nat) :
  length l = n -> (l ++ [x]) !! n = Some x.
Proof.
  intros <-. rewrite lookup_app_r by lia.
  rewrite Nat.sub_diag. reflexivity.
Qed.

(** X11. [AddBody] stores its arguments at the index it returns: the parent
    in [lambda], the joint in [mJoints], its axis in [S], the joint frame in
    [X_T], the body's inertia in [IA], the body in [mBodies], the name in
    [mBodyNames]; the new body has no child. *)
Theorem AddBody_stores_arguments (m : Model.Model) (p : Z)
  (joint_frame : SpatialTransform) (joint : Joint) (body : Body)
  (body_name : string) :
  consistent m ->
  0 <= p <= Model.dof_count m ->
  Model.dof_count m + 1 < UINT_MAX ->
  mJointType joint <> JointTypeUndefined ->
  exists (id : Z) (m' : Model.Model),
    Model.AddBody p joint_frame joint body body_name m = Ok id m' /\
    Model.lambda m' !! Z.to_nat id = Some p /\
    Model.mu m' !! Z.to_nat id = Some [] /\
    Model.mJoints m' !! Z.to_nat id = Some joint /\
    Model.S m' !! Z.to_nat id = Some (mJointAxis joint) /\
    Model.X_T m' !! Z.to_nat id = Some joint_frame /\
    Model.IA m' !! Z.to_nat id = Some (mSpatialInertia body) /\
    Model.mBodies m' !! Z.to_nat id = Some body /\
    Model.mBodyNames m' !! Z.to_nat id = Some body_name.
Proof.
  intros C Hp Hd Hj.
  destruct C as (C0 & Clam & Cmu & _ & _ & _ & _ & _ & _ & Cj & CS & CXT & _
                 & CIA & _ & _ & _ & _ & _ & _ & _ & _ & Cb & Cn).
  cbv zeta in *.
  destruct (lookup_lt_is_Some_2 (Model.mu m ++ [[]]) (Z.to_nat p))
    as [children Hch].
  { rewrite length_app. cbn. lia. }
  destruct (AddBody_run m p joint_frame joint body body_name children)
    as (m' & E & _ & _ & Hlam & Hmu & _ & HJ & HS & HXT & HIA & HB & HN);
    [intros El; rewrite El in Clam; cbn in Clam; lia|exact Hj|exact Hch
    |exact C0|exact Hd|].
  exists (Model.dof_count m + 1), m'. split; [exact E|].
  rewrite Hlam, Hmu, HJ, HS, HXT, HIA, HB, HN.
  rewrite list_lookup_insert_ne by lia.
  repeat split; apply lookup_app_end; assumption.
Qed.

Lemma ancestor_root (lam : list Z) :
  lam !! 0%nat = Some 0 ->
  (forall (i : nat) (p : Z),
     (0 < i)%nat -> lam !! i = Some p -> 0 <= p < Z.of_nat i) ->
  forall n i : nat, (i <= n)%nat -> (i < length lam)%nat ->
    ancestor lam n (Z.of_nat i) = Some 0.
Proof.
  intros H0 PP. induction n as [|n IH]; intros i Hi Hlen.
  - replace i with 0%nat by lia. reflexivity.
  - cbn [ancestor]. rewrite Nat2Z.id. destruct i as [|i].
    + rewrite H0. apply (IH 0%nat); lia.
    + destruct (lookup_lt_is_Some_2 lam (S i) Hlen) as [p Hp].
      rewrite Hp. destruct (PP (S i) p ltac:(lia) Hp) as [Hp0 Hp1].
      rewrite <- (Z2Nat.id p Hp0). apply IH; [lia|].
      apply Nat.lt_trans with (S i); lia.
Qed.

(** X12. The bodies of a built model form a tree below the root: going from
    body [i] to the parent [i] times ends at body 0. *)
Theorem built_bodies_descend_from_root (m : Model.Model) (i : Z) :
  built m ->
  0 <= i <= Model.dof_count m ->
  ancestor (Model.lambda m) (Z.to_nat i) i = Some 0.
Proof.
  intros Hb Hi.
  destruct (built_invariants m Hb) as (C & PP & _ & H0 & _).
  assert (Hlen : length (Model.lambda m) = Z.to_nat (Model.dof_count m + 1))
    by apply C.
  rewrite <- (Z2Nat.id i) at 2 by lia.
  apply ancestor_root; [exact H0|exact PP|lia|lia].
Qed.

(** X13. Every body of a built model but the root has a joint, and its type
    is not [JointTypeUndefined]. *)
Theorem built_joints_defined (m : Model.Model) (id : Z) :
  built m ->
  0 < id <= Model.dof_count m ->
  exists joint : Joint,
    Model.mJoints m !! Z.to_nat id = Some joint /\
    mJointType joint <> JointTypeUndefined.
Proof.
  intros Hb Hid.
  destruct (built_invariants m Hb) as (C & _).
  destruct (built_names_joints m Hb) as (_ & _ & Hdef).
  assert (Hlen : length (Model.mJoints m) = Z.to_nat (Model.dof_count m + 1))
    by apply C.
  destruct (lookup_lt_is_Some_2 (Model.mJoints m) (Z.to_nat id)) as [joint Hl];
    [lia|].
  exists joint. split; [exact Hl|]. apply (Hdef (Z.to_nat id)); [lia|exact Hl].
Qed.

(** X14. [Init ()] does not clear: on a model that holds bodies it appends a
    second root entry to every per-body container while it resets [dof_count]
    to 0 and the state vectors to one entry, so the sizes no longer agree. *)
Theorem Init_appends_to_existing_model (m : Model.Model) :
  exists m' : Model.Model,
    Model.Init m = Ok tt m' /\
    Model.dof_count m' = 0 /\
    Model.q m' = VectorNd_Zero 1 /\
    Model.lambda m' = Model.lambda m ++ [0] /\
    Model.mu m' = Model.mu m ++ [[]] /\
    Model.mBodies m' = Model.mBodies m ++ [Body_default] /\
    Model.mBodyNames m' = Model.mBodyNames m ++ ["ROOT"%string] /\
    (Model.lambda m <> [] -> ~ consistent m').
Proof.
  destruct m as [efb lam mu0 dof grav q0 qd qdd tau0 v0 a0 js S0 XT c0 IA0 pA0
                 U0 u0 d0 f0 Ic0 Xl Xb bodies names].
  eexists. split; [run_model; reflexivity|].
  cbn. repeat split; try reflexivity.
  intros Hl (_ & Clam & _). cbn in Clam. rewrite length_app in Clam.
  destruct lam; [contradiction|]. cbn in Clam. lia.
Qed.

(** X15. [SetFloatingBaseBody] on a model without a root: its own assertion
    ([lambda.size () >= 0]) holds, and the call fails later.  With the
    experimental floating base, [lambda.at (0)] throws after [dof_count] has
    grown by six; otherwise the first [AddBody] fails its assertion. *)
Theorem SetFloatingBaseBody_without_root (m : Model.Model) (body : Body) :
  Model.lambda m = [] ->
  (Model.experimental_floating_base m = true ->
   exists m' : Model.Model,
     Model.SetFloatingBaseBody body m = Throw m' /\
     Model.dof_count m' = u32 (Model.dof_count m + 6) /\
     length (Model.q m') = Z.to_nat (u32 (u32 (Model.dof_count m + 6) + 1)) /\
     Model.lambda m' = [] /\
     Model.mBodies m' = Model.mBodies m) /\
  (Model.experimental_floating_base m = false ->
   Model.SetFloatingBaseBody body m = Abort).
Proof.
  intros Hl. split; intros Hf.
  - destruct m as [efb lam mu0 dof grav q0 qd qdd tau0 v0 a0 js S0 XT c0 IA0
                   pA0 U0 u0 d0 f0 Ic0 Xl Xb bodies names].
    cbn in *. subst efb lam.
    eexists. split.
    { unfold Model.SetFloatingBaseBody.
      unfold bind at 1, gets at 1. unfold bind at 1.
      rewrite (bool_decide_eq_true_2 (0 <= _)%nat) by lia.
      unfold assert_ at 1.
      cbv [bind ret gets modify throw Model.resize_dof at_assign
           lookup list_lookup Z.to_nat
           Model.set_lambda Model.set_dof_count Model.set_q Model.set_qdot
           Model.set_qddot Model.set_tau Model.set_X_lambda Model.set_X_base
           Model.set_mBodies Model.experimental_floating_base Model.lambda
           Model.mu Model.dof_count Model.gravity Model.q Model.qdot
           Model.qddot Model.tau Model.v Model.a Model.mJoints Model.S
           Model.X_T Model.c Model.IA Model.pA Model.U Model.u Model.d Model.f
           Model.Ic Model.X_lambda Model.X_base Model.mBodies
           Model.mBodyNames].
      reflexivity. }
    cbv [Model.dof_count Model.lambda Model.mBodies Model.q].
    rewrite length_VectorNd_resize. repeat split; reflexivity.
  - unfold Model.SetFloatingBaseBody, bind, gets, assert_.
    rewrite bool_decide_eq_true_2 by lia. rewrite Hf.
    rewrite AddBody_no_root by exact Hl. reflexivity.
Qed.

Lemma SetFloatingBaseBody_experimental_run m body :
  Model.experimental_floating_base m = true ->
  Model.lambda m <> [] -> Model.X_lambda m <> [] ->
  Model.X_base m <> [] -> Model.mBodies m <> [] ->
  exists m',
    Model.SetFloatingBaseBody body m = Ok 0 m' /\
    Model.dof_count m' = u32 (Model.dof_count m + 6) /\
    Model.lambda m' = <[0%nat := UINT_MAX]> (Model.lambda m) /\
    Model.mu m' = Model.mu m /\
    length (Model.q m') = Z.to_nat (u32 (u32 (Model.dof_count m + 6) + 1)) /\
    Model.mBodies m' = <[0%nat := body]> (Model.mBodies m).
Proof.
  intros Hf Hl HXl HXb Hb.
  destruct m as [efb lam mu0 dof grav q0 qd qdd tau0 v0 a0 js S0 XT c0 IA0 pA0
                 U0 u0 d0 f0 Ic0 Xl Xb bodies names].
  cbn in *. subst efb.
  destruct lam as [|l0 lam]; [contradiction|].
  destruct Xl as [|xl0 Xl]; [contradiction|].
  destruct Xb as [|xb0 Xb]; [contradiction|].
  destruct bodies as [|b0 bodies]; [contradiction|].
  eexists. split.
  { unfold Model.SetFloatingBaseBody.
    unfold bind at 1, gets at 1. unfold bind at 1.
    rewrite (bool_decide_eq_true_2 (0 <= _)%nat) by lia.
    unfold assert_ at 1.
    cbv [bind ret gets modify throw Model.resize_dof at_assign
         lookup list_lookup Z.to_nat
         Model.set_lambda Model.set_dof_count Model.set_q Model.set_qdot
         Model.set_qddot Model.set_tau Model.set_X_lambda Model.set_X_base
         Model.set_mBodies Model.experimental_floating_base Model.lambda
         Model.mu Model.dof_count Model.gravity Model.q Model.qdot Model.qddot
         Model.tau Model.v Model.a Model.mJoints Model.S Model.X_T Model.c
         Model.IA Model.pA Model.U Model.u Model.d Model.f Model.Ic
         Model.X_lambda Model.X_base Model.mBodies Model.mBodyNames].
    reflexivity. }
  cbv [Model.dof_count Model.lambda Model.mBodies Model.mu Model.q].
  rewrite length_VectorNd_resize. repeat split; reflexivity.
Qed.

(** X16. After [SetFloatingBaseBody] with the experimental floating base, the
    index [AddBody] returns is six more than the position at which the new
    body is stored: the per-body containers have no entry at the returned
    index. *)
Theorem AddBody_after_experimental_floating_base (m : Model.Model)
  (base : Body) (p : Z) (joint_frame : SpatialTransform) (joint : Joint)
  (body : Body) (body_name : string) :
  consistent m ->
  Model.experimental_floating_base m = true ->
  Model.dof_count m + 7 < UINT_MAX ->
  0 <= p <= Model.dof_count m ->
  mJointType joint <> JointTypeUndefined ->
  exists m1 m2 : Model.Model,
    Model.SetFloatingBaseBody base m = Ok 0 m1 /\
    Model.AddBody p joint_frame joint body body_name m1
      = Ok (Model.dof_count m + 7) m2 /\
    Model.mBodies m2 !! Z.to_nat (Model.dof_count m + 1) = Some body /\
    Model.mBodies m2 !! Z.to_nat (Model.dof_count m + 7) = None /\
    Model.lambda m2 !! Z.to_nat (Model.dof_count m + 1) = Some p /\
    Model.lambda m2 !! Z.to_nat (Model.dof_count m + 7) = None /\
    length (Model.q m2) = Z.to_nat (Model.dof_count m + 8).
Proof.
  intros C Hf Hd Hp Hj. unfold UINT_MAX in Hd.
  destruct C as (C0 & Clam & Cmu & _ & _ & _ & _ & _ & _ & _ & _ & _ & _
                 & _ & _ & _ & _ & _ & _ & _ & CXl & CXb & Cb & _).
  cbv zeta in *.
  destruct (SetFloatingBaseBody_experimental_run m base Hf)
    as (m1 & E1 & Hdof1 & Hlam1 & Hmu1 & _ & Hb1).
  { intros El. rewrite El in Clam. cbn in Clam. lia. }
  { intros El. rewrite El in CXl. cbn in CXl. lia. }
  { intros El. rewrite El in CXb. cbn in CXb. lia. }
  { intros El. rewrite El in Cb. cbn in Cb. lia. }
  rewrite u32_small in Hdof1 by lia.
  destruct (lookup_lt_is_Some_2 (Model.mu m1 ++ [[]]) (Z.to_nat p))
    as [children Hch].
  { rewrite Hmu1, length_app. cbn. lia. }
  destruct (AddBody_run m1 p joint_frame joint body body_name children)
    as (m2 & E2 & _ & _ & Hlam2 & _ & Hq2 & _ & _ & _ & _ & Hb2 & _).
  { intros El. apply (f_equal length) in El.
    rewrite Hlam1, length_insert in El. cbn in El. lia. }
  { exact Hj. }
  { exact Hch. }
  { lia. }
  { unfold UINT_MAX. lia. }
  exists m1, m2. split; [exact E1|]. split.
  { rewrite E2. f_equal. lia. }
  rewrite Hlam2, Hb2, Hlam1, Hb1, Hq2, Hdof1.
  split; [apply lookup_app_end; rewrite length_insert; lia|].
  split; [apply lookup_ge_None_2; rewrite length_app, length_insert; cbn; lia|].
  split; [apply lookup_app_end; rewrite length_insert; lia|].
  split; [apply lookup_ge_None_2; rewrite length_app, length_insert; cbn; lia|].
  f_equal. lia.
Qed.

(** The six [AddBody] calls of [SetFloatingBaseBody] on a built model. *)
Lemma SetFloatingBaseBody_built_run m body :
  built m ->
  Model.dof_count m + 6 < UINT_MAX ->
  exists m',
    Model.SetFloatingBaseBody body m = Ok (Model.dof_count m + 6) m' /\
    built m' /\
    Model.dof_count m' = Model.dof_count m + 6 /\
    Model.mBodyNames m'
      = Model.mBodyNames m ++ replicate 6 AddBody_default_body_name.
Proof.
  intros Hb Hd. unfold UINT_MAX in Hd.
  destruct (built_invariants m Hb) as (C & _ & _ & _ & Hf).
  assert (C0 : 0 <= Model.dof_count m) by apply C.
  set (X0 := Xtrans (Vec3 0 0 0)).
  set (B0 := Body_ctor 0 (Vec3 0 0 0) (Vec3 0 0 0)).
  destruct (AddBody_consistent m 0 X0 (Joint_ctor JointTypePrismatic (Vec3 1 0 0))
              B0 AddBody_default_body_name C)
    as (ch1 & m1 & _ & E1 & C1 & _ & D1 & _ & _ & _ & _ & N1);
    [lia|unfold UINT_MAX; lia|discriminate|].
  assert (Hb1 : built m1)
    by (eapply built_AddBody; [exact Hb| | |exact E1]; unfold UINT_MAX; lia).
  destruct (AddBody_consistent m1 (Model.dof_count m + 1) X0
              (Joint_ctor JointTypePrismatic (Vec3 0 1 0))
              B0 AddBody_default_body_name C1)
    as (ch2 & m2 & _ & E2 & C2 & _ & D2 & _ & _ & _ & _ & N2);
    [lia|unfold UINT_MAX; lia|discriminate|].
  assert (Hb2 : built m2)
    by (eapply built_AddBody; [exact Hb1| | |exact E2]; unfold UINT_MAX; lia).
  destruct (AddBody_consistent m2 (Model.dof_count m1 + 1) X0
              (Joint_ctor JointTypePrismatic (Vec3 0 0 1))
              B0 AddBody_default_body_name C2)
    as (ch3 & m3 & _ & E3 & C3 & _ & D3 & _ & _ & _ & _ & N3);
    [lia|unfold UINT_MAX; lia|discriminate|].
  assert (Hb3 : built m3)
    by (eapply built_AddBody; [exact Hb2| | |exact E3]; unfold UINT_MAX; lia).
  destruct (AddBody_consistent m3 (Model.dof_count m2 + 1) X0
              (Joint_ctor JointTypeRevolute (Vec3 0 0 1))
              B0 AddBody_default_body_name C3)
    as (ch4 & m4 & _ & E4 & C4 & _ & D4 & _ & _ & _ & _ & N4);
    [lia|unfold UINT_MAX; lia|discriminate|].
  assert (Hb4 : built m4)
    by (eapply built_AddBody; [exact Hb3| | |exact E4]; unfold UINT_MAX; lia).
  destruct (AddBody_consistent m4 (Model.dof_count m3 + 1) X0
              (Joint_ctor JointTypeRevolute (Vec3 0 1 0))
              B0 AddBody_default_body_name C4)
    as (ch5 & m5 & _ & E5 & C5 & _ & D5 & _ & _ & _ & _ & N5);
    [lia|unfold UINT_MAX; lia|discriminate|].
  assert (Hb5 : built m5)
    by (eapply built_AddBody; [exact Hb4| | |exact E5]; unfold UINT_MAX; lia).
  destruct (AddBody_consistent m5 (Model.dof_count m4 + 1) X0
              (Joint_ctor JointTypeRevolute (Vec3 1 0 0))
              body AddBody_default_body_name C5)
    as (ch6 & m6 & _ & E6 & C6 & _ & D6 & _ & _ & _ & _ & N6);
    [lia|unfold UINT_MAX; lia|discriminate|].
  assert (Hb6 : built m6)
    by (eapply built_AddBody; [exact Hb5| | |exact E6]; unfold UINT_MAX; lia).
  exists m6. split; [|split; [exact Hb6|split; [lia|]]].
  - unfold Model.SetFloatingBaseBody, bind, gets, assert_, ret.
    rewrite bool_decide_eq_true_2 by lia. rewrite Hf.
    fold X0. fold B0. rewrite E1, E2, E3, E4, E5, E6.
    f_equal. lia.
  - rewrite N6, N5, N4, N3, N2, N1, <- !app_assoc. reflexivity.
Qed.

(** X17. [SetFloatingBaseBody] keeps a built model built, and gives all six
    bodies it adds the default name of [AddBody]: [GetBodyId] with that name
    never returns the floating-base body, whose index is [dof_count + 6]. *)
Theorem SetFloatingBaseBody_body_not_found_by_name (m : Model.Model)
  (body : Body) (fuel : nat) :
  built m ->
  Model.dof_count m + 6 < UINT_MAX ->
  (length (Model.mBodyNames m) + 6 < fuel)%nat ->
  exists (m' : Model.Model) (i : Z),
    Model.SetFloatingBaseBody body m = Ok (Model.dof_count m + 6) m' /\
    built m' /\
    Model.GetBodyId fuel AddBody_default_body_name m' = Ok i m' /\
    i <= Model.dof_count m + 1.
Proof.
  intros Hb Hd Hfuel.
  destruct (SetFloatingBaseBody_built_run m body Hb Hd)
    as (m' & E & Hb' & Hdof & Hnames).
  destruct (built_invariants m Hb) as (C & _).
  assert (C0 : 0 <= Model.dof_count m) by apply C.
  assert (Hlen : length (Model.mBodyNames m) = Z.to_nat (Model.dof_count m + 1))
    by apply C.
  unfold UINT_MAX in Hd.
  assert (Hlen' : length (Model.mBodyNames m')
                  = (length (Model.mBodyNames m) + 6)%nat).
  { rewrite Hnames, length_app. reflexivity. }
  assert (Hat : Model.mBodyNames m' !! length (Model.mBodyNames m)
                = Some AddBody_default_body_name).
  { rewrite Hnames, lookup_app_r by lia. rewrite Nat.sub_diag. reflexivity. }
  destruct (GetBodyId_loop_scan fuel (Model.mBodyNames m')
              AddBody_default_body_name 0)
    as (i & Hi & Hspec);
    [unfold UINT_MAX; lia|lia|lia|intros j Hj; lia|].
  change (Z.of_nat 0) with 0 in Hi.
  exists m', i. split; [exact E|]. split; [exact Hb'|]. split.
  { unfold Model.GetBodyId, bind, gets, ret. rewrite Hi. reflexivity. }
  destruct Hspec as [(j & -> & _ & Hfirst)|[_ Hnone]].
  - destruct (decide (j <= length (Model.mBodyNames m))%nat) as [Hle|Hgt];
      [lia|].
    exfalso. apply (Hfirst (length (Model.mBodyNames m))); [lia|exact Hat].
  - exfalso. exact (Hnone _ Hat).
Qed.

Lemma built_children_nodup m :
  built m ->
  forall (p : nat) (children : list Z),
    Model.mu m !! p = Some children -> NoDup children.
Proof.
  induction 1 as [m0 m U E|m p jf j b nm id m' Hb IH Hp Hd E];
    intros k L Hk.
  - destruct (Init_unset m0 U) as (m1 & E1 & _ & _ & _ & Hmu & _).
    rewrite E in E1. injection E1 as <-. rewrite Hmu in Hk.
    destruct k as [|k]; [|discriminate]. injection Hk as <-. constructor.
  - destruct (built_invariants m Hb) as (C & _ & CM & _).
    destruct (decide (mJointType j = JointTypeUndefined)) as [Hu|Hj].
    { rewrite (AddBody_undefined_joint m p jf j b nm Hu) in E. discriminate. }
    destruct (AddBody_consistent m p jf j b nm C Hp Hd Hj)
      as (ch & m1 & Hch & E1 & _ & _ & _ & _ & Hmu & _).
    rewrite E in E1. injection E1 as -> <-.
    assert (Hlen : length (Model.lambda m) = Z.to_nat (Model.dof_count m + 1))
      by apply C.
    rewrite Hmu in Hk. apply lookup_app_Some in Hk as [Hk|[_ Hk]].
    + destruct (decide (k = Z.to_nat p)) as [-> | Hne].
      * rewrite list_lookup_insert_eq in Hk
          by (apply lookup_lt_Some in Hch; exact Hch).
        injection Hk as <-. apply NoDup_app.
        split; [exact (IH _ _ Hch)|]. split; [|apply NoDup_singleton].
        intros i Hin Hnew. apply list_elem_of_singleton in Hnew. subst i.
        apply (CM _ _ _ Hch) in Hin as [_ Hl].
        apply lookup_lt_Some in Hl. lia.
      * rewrite list_lookup_insert_ne in Hk by congruence.
        exact (IH _ _ Hk).
    + apply list_lookup_singleton_Some in Hk as [_ <-]. constructor.
Qed.

(** X18. In a built model every body but the root is listed once in [mu]:
    in the list of its parent, there once, and in no other list. *)
Theorem built_child_listed_once (m : Model.Model) (i : Z) :
  built m ->
  0 < i <= Model.dof_count m ->
  exists (p : nat) (children : list Z),
    Model.lambda m !! Z.to_nat i = Some (Z.of_nat p) /\
    Model.mu m !! p = Some children /\
    i ∈ children /\
    NoDup children /\
    (forall (p' : nat) (children' : list Z),
       Model.mu m !! p' = Some children' -> i ∈ children' -> p' = p).
Proof.
  intros Hb Hi.
  destruct (built_invariants m Hb) as (C & PP & CM & _).
  assert (Hlen : length (Model.lambda m) = Z.to_nat (Model.dof_count m + 1))
    by apply C.
  assert (Hlenmu : length (Model.mu m) = Z.to_nat (Model.dof_count m + 1))
    by apply C.
  destruct (lookup_lt_is_Some_2 (Model.lambda m) (Z.to_nat i)) as [q Hq];
    [lia|].
  destruct (PP (Z.to_nat i) q ltac:(lia) Hq) as [Hq0 Hq1].
  destruct (lookup_lt_is_Some_2 (Model.mu m) (Z.to_nat q)) as [ch Hch];
    [lia|].
  exists (Z.to_nat q), ch. rewrite Z2Nat.id by lia.
  split; [exact Hq|]. split; [exact Hch|]. split.
  { apply (CM _ _ i Hch). rewrite Z2Nat.id by lia. split; [lia|exact Hq]. }
  split; [exact (built_children_nodup m Hb _ _ Hch)|].
  intros p' ch' Hch' Hin. apply (CM _ _ i Hch') in Hin as [_ Hl].
  rewrite Hq in Hl. injection Hl as ->. lia.
Qed.

End ModelFacts.

(** ** The constraint set *)

Section ConstraintSetFacts.
Context {ext : Externals} {kernels : ConstraintSet.Kernels}.

(** Symbolic execution of a member function on a set given by its members. *)
Ltac run_cs :=
  cbv [register ConstraintSet.AddContactConstraint
       ConstraintSet.AddLoopConstraint ConstraintSet.AddCustomConstraint
       ConstraintSet.Bind ConstraintSet.SetActuationMap ConstraintSet.clear
       ConstraintSet.SetSolver ConstraintSet.Copy ConstraintSet.size
       ConstraintSet.push_back_n
       bind ret gets modify throw assert_ assign push_back negb
       ConstraintSet.set_linear_solver ConstraintSet.set_bound
       ConstraintSet.set_constraintType ConstraintSet.set_name
       ConstraintSet.set_mContactConstraintIndices
       ConstraintSet.set_mLoopConstraintIndices
       ConstraintSet.set_mCustomConstraintIndices
       ConstraintSet.set_mCustomConstraints ConstraintSet.set_body
       ConstraintSet.set_point ConstraintSet.set_normal
       ConstraintSet.set_body_p ConstraintSet.set_body_s
       ConstraintSet.set_X_p ConstraintSet.set_X_s
       ConstraintSet.set_constraintAxis ConstraintSet.set_baumgarteParameters
       ConstraintSet.set_err ConstraintSet.set_errd
       ConstraintSet.set_acceleration ConstraintSet.set_force
       ConstraintSet.set_impulse ConstraintSet.set_v_plus
       ConstraintSet.set_workspace ConstraintSet.linear_solver
       ConstraintSet.bound ConstraintSet.constraintType ConstraintSet.name
       ConstraintSet.mContactConstraintIndices
       ConstraintSet.mLoopConstraintIndices
       ConstraintSet.mCustomConstraintIndices
       ConstraintSet.mCustomConstraints ConstraintSet.body
       ConstraintSet.point ConstraintSet.normal ConstraintSet.body_p
       ConstraintSet.body_s ConstraintSet.X_p ConstraintSet.X_s
       ConstraintSet.constraintAxis ConstraintSet.baumgarteParameters
       ConstraintSet.err ConstraintSet.errd ConstraintSet.acceleration
       ConstraintSet.force ConstraintSet.impulse ConstraintSet.v_plus
       ConstraintSet.workspace].

Lemma register_effect objects r cs :
  ConstraintSet.bound cs = false ->
  match r with
  | Custom pointer _ _ _ _ _ _ _ => is_Some (objects pointer)
  | _ => True
  end ->
  exists cs',
    register objects r cs = Ok (u32 (ConstraintSet.size cs)) cs' /\
    appended (rows_of objects r) cs cs' /\
    indices_appended r (u32 (ConstraintSet.size cs)) cs cs'.
Proof.
  intros Hb Hobj.
  destruct cs as [solver bnd types names contacts loops customs pointers
                  bodies points normals bodies_p bodies_s Xps Xss axes coeffs
                  e ed acc frc imp vp w].
  cbn in Hb. subst bnd.
  destruct r as [body_id body_point world_normal cname nacc
                |idp ids Xp Xs axis en sp cname
                |ptr idp ids Xp Xs en sp cname].
  - eexists. split; [run_cs; reflexivity|].
    split; unfold appended, indices_appended; cbn; rewrite ?app_nil_r;
      repeat split; reflexivity.
  - eexists. split; [run_cs; reflexivity|].
    split; unfold appended, indices_appended; cbn; rewrite ?app_nil_r;
      repeat split; reflexivity.
  - destruct Hobj as [object Hobj].
    eexists. split.
    { unfold register, ConstraintSet.AddCustomConstraint. rewrite Hobj.
      run_cs. reflexivity. }
    split; unfold appended, indices_appended; cbn; rewrite ?Hobj, ?app_nil_r;
      rewrite ?map_replicate_const; repeat split; reflexivity.
Qed.

Lemma register_Ok objects r cs i cs' :
  register objects r cs = Ok i cs' ->
  ConstraintSet.bound cs = false /\
  match r with
  | Custom pointer _ _ _ _ _ _ _ => is_Some (objects pointer)
  | _ => True
  end.
Proof.
  intros E.
  destruct cs as [solver bnd types names contacts loops customs pointers
                  bodies points normals bodies_p bodies_s Xps Xss axes coeffs
                  e ed acc frc imp vp w].
  destruct bnd.
  { exfalso. destruct r; revert E; run_cs; discriminate. }
  split; [reflexivity|].
  destruct r as [| |ptr ? ? ? ? ? ? ?]; [exact I|exact I|].
  destruct (objects ptr) as [object|] eqn:Hobj; [eauto|].
  exfalso. revert E. unfold register, ConstraintSet.AddCustomConstraint.
  rewrite Hobj. run_cs. discriminate.
Qed.

Lemma holds_rows_appended rows new cs cs' :
  holds_rows rows cs -> appended new cs cs' -> holds_rows (rows ++ new) cs'.
Proof.
  unfold holds_rows, appended.
  intros (H1 & H2 & H3 & H4 & H5 & H6 & H7 & H8 & H9 & H10 & H11 & H12 & H13
          & H14 & H15 & H16 & H17)
         (_ & _ & _ & A1 & A2 & A3 & A4 & A5 & A6 & A7 & A8 & A9 & A10 & A11
          & A12 & A13 & A14 & A15 & A16 & A17).
  rewrite !map_app.
  rewrite A1, A2, A3, A4, A5, A6, A7, A8, A9, A10, A11, A12, A13, A14, A15,
    A16, A17.
  rewrite H1, H2, H3, H4, H5, H6, H7, H8, H9, H10, H11, H12, H13, H14, H15,
    H16, H17.
  repeat split; reflexivity.
Qed.

Lemma holds_rows_size rows cs :
  holds_rows rows cs -> ConstraintSet.size cs = Z.of_nat (length rows).
Proof.
  intros Hr. unfold ConstraintSet.size, VectorNd_size.
  destruct Hr as (_ & _ & _ & _ & _ & _ & _ & _ & _ & _ & _ & -> & _).
  rewrite length_map. reflexivity.
Qed.

Lemma holds_rows_new : holds_rows [] ConstraintSet.new.
Proof. unfold holds_rows. cbn. repeat split; reflexivity. Qed.

Lemma register_all_rows objects rs : forall rows cs idxs cs',
  holds_rows rows cs ->
  register_all objects rs cs = Ok idxs cs' ->
  holds_rows (rows ++ flat_map (rows_of objects) rs) cs' /\
  ConstraintSet.bound cs' = ConstraintSet.bound cs /\
  ConstraintSet.linear_solver cs' = ConstraintSet.linear_solver cs /\
  ConstraintSet.workspace cs' = ConstraintSet.workspace cs.
Proof.
  induction rs as [|r rs IH]; intros rows cs idxs cs' Hr E.
  - cbn in E. injection E as <- <-. cbn. rewrite app_nil_r. auto.
  - cbn [register_all] in E. unfold bind in E.
    destruct (register objects r cs) as [i cs1| | |] eqn:E1; try discriminate.
    destruct (register_Ok _ _ _ _ _ E1) as [Hb Hobj].
    destruct (register_effect objects r cs Hb Hobj) as (cs2 & E2 & Ha & _).
    rewrite E1 in E2. injection E2 as _ <-.
    destruct (register_all objects rs cs1) as [idxs1 cs3| | |] eqn:E3;
      try discriminate.
    cbn in E. injection E as <- <-.
    destruct (IH _ _ _ _ (holds_rows_appended _ _ _ _ Hr Ha) E3)
      as (Hr' & Hb' & Hs' & Hw').
    cbn [flat_map]. rewrite app_assoc. split; [exact Hr'|].
    destruct Ha as (As & Ab & Aw & _).
    rewrite Hb', Hs', Hw'. auto.
Qed.

Lemma Bind_effect model cs b cs' :
  ConstraintSet.Bind model cs = Ok b cs' ->
  (b = true ->
   ConstraintSet.bound cs = false /\ ConstraintSet.bound cs' = true /\
   cs' = ConstraintSet.set_bound true
           (ConstraintSet.set_workspace
              (ConstraintSet.allocated_workspace (Model.dof_count model)
                 (ConstraintSet.size cs) (ConstraintSet.workspace cs)) cs)) /\
  (b = false -> cs' = cs).
Proof.
  unfold ConstraintSet.Bind, bind, gets, ret, modify, assign.
  destruct (ConstraintSet.bound cs) eqn:Hb.
  { intros E. injection E as <- <-. split; [discriminate|reflexivity]. }
  destruct (ConstraintSet.body_ids_in_range model cs).
  - intros E. injection E as <- <-. split; [|discriminate].
    intros _. split; [reflexivity|]. split; reflexivity.
  - intros E. injection E as <- <-. split; [discriminate|reflexivity].
Qed.

Lemma holds_rows_Bind model rows cs cs' :
  holds_rows rows cs -> ConstraintSet.Bind model cs = Ok true cs' ->
  holds_rows rows cs'.
Proof.
  intros Hr E. destruct (Bind_effect _ _ _ _ E) as [Ht _].
  destruct (Ht eq_refl) as (_ & _ & ->). exact Hr.
Qed.

Lemma holds_rows_lookup rows cs (i : nat) row :
  holds_rows rows cs -> rows !! i = Some row ->
  ConstraintSet.constraintType cs !! i = Some (row_type row) /\
  ConstraintSet.name cs !! i = Some (row_name row) /\
  ConstraintSet.body cs !! i = Some (row_body row) /\
  ConstraintSet.point cs !! i = Some (row_point row) /\
  ConstraintSet.normal cs !! i = Some (row_normal row) /\
  ConstraintSet.body_p cs !! i = Some (row_body_p row) /\
  ConstraintSet.body_s cs !! i = Some (row_body_s row) /\
  ConstraintSet.X_p cs !! i = Some (row_X_p row) /\
  ConstraintSet.X_s cs !! i = Some (row_X_s row) /\
  ConstraintSet.constraintAxis cs !! i = Some (row_axis row) /\
  ConstraintSet.baumgarteParameters cs !! i = Some (row_baumgarte row) /\
  ConstraintSet.acceleration cs !! i = Some (row_acceleration row) /\
  ConstraintSet.err cs !! i = Some 0%float /\
  ConstraintSet.errd cs !! i = Some 0%float /\
  ConstraintSet.force cs !! i = Some 0%float /\
  ConstraintSet.impulse cs !! i = Some 0%float /\
  ConstraintSet.v_plus cs !! i = Some 0%float.
Proof.
  intros (H1 & H2 & H3 & H4 & H5 & H6 & H7 & H8 & H9 & H10 & H11 & H12 & H13
          & H14 & H15 & H16 & H17) Hi.
  rewrite H1, H2, H3, H4, H5, H6, H7, H8, H9, H10, H11, H12, H13, H14, H15,
    H16, H17.
  repeat split;
    first [ exact (lookup_map_Some _ _ _ _ Hi)
          | exact (lookup_map_Some (fun _ => 0%float) _ _ _ Hi) ].
Qed.

Lemma register_all_total objects rs : forall cs,
  ConstraintSet.bound cs = false ->
  Forall (registrable objects) rs ->
  exists idxs cs', register_all objects rs cs = Ok idxs cs'.
Proof.
  induction rs as [|r rs IH]; intros cs Hb Hall.
  - eexists _, _. reflexivity.
  - inversion Hall as [|? ? Hr Hrs]; subst.
    destruct (register_effect objects r cs Hb Hr) as (cs1 & E1 & Ha & _).
    destruct (IH cs1) as (idxs & cs2 & E2).
    { destruct Ha as (_ & -> & _). exact Hb. }
    { exact Hrs. }
    exists (u32 (ConstraintSet.size cs) :: idxs), cs2.
    cbn [register_all]. unfold bind. rewrite E1, E2. reflexivity.
Qed.

Lemma holds_rows_aligned rows cs : holds_rows rows cs -> aligned cs.
Proof.
  intros (H1 & H2 & H3 & H4 & H5 & H6 & H7 & H8 & H9 & H10 & H11 & H12 & H13
          & H14 & H15 & H16 & H17).
  unfold aligned.
  rewrite H1, H2, H3, H4, H5, H6, H7, H8, H9, H10, H11, H12, H13, H14, H15,
    H16, H17.
  rewrite !length_map. repeat split; reflexivity.
Qed.

(** C6. After any sequence of [AddContactConstraint], [AddLoopConstraint] and
    [AddCustomConstraint] calls on a new set (the custom constraint pointers
    pointing to objects) and a [Bind] that returns true, the vectors [err],
    [errd], [acceleration], [force], [impulse] and [v_plus] all have as many
    entries as rows were registered, [size ()], the size of [acceleration],
    is that number, and entry [i] of every per-row member belongs to the
    same registered row. *)
Theorem per_row_vectors_share_rows (objects : ConstraintSet.heap)
  (rs : list registration) :
  Forall (registrable objects) rs ->
  exists (idxs : list Z) (cs : ConstraintSet.ConstraintSet),
    register_all objects rs ConstraintSet.new = Ok idxs cs /\
    forall (model : Model.Model) (cs' : ConstraintSet.ConstraintSet),
      ConstraintSet.Bind model cs = Ok true cs' ->
      let rows := flat_map (rows_of objects) rs in
      let n := length rows in
      length (ConstraintSet.err cs') = n /\
      length (ConstraintSet.errd cs') = n /\
      length (ConstraintSet.acceleration cs') = n /\
      length (ConstraintSet.force cs') = n /\
      length (ConstraintSet.impulse cs') = n /\
      length (ConstraintSet.v_plus cs') = n /\
      ConstraintSet.size cs' = Z.of_nat n /\
      ConstraintSet.size cs' = VectorNd_size (ConstraintSet.acceleration cs') /\
      forall (i : nat) (row : Row),
        rows !! i = Some row ->
        ConstraintSet.constraintType cs' !! i = Some (row_type row) /\
        ConstraintSet.name cs' !! i = Some (row_name row) /\
        ConstraintSet.body cs' !! i = Some (row_body row) /\
        ConstraintSet.point cs' !! i = Some (row_point row) /\
        ConstraintSet.normal cs' !! i = Some (row_normal row) /\
        ConstraintSet.body_p cs' !! i = Some (row_body_p row) /\
        ConstraintSet.body_s cs' !! i = Some (row_body_s row) /\
        ConstraintSet.X_p cs' !! i = Some (row_X_p row) /\
        ConstraintSet.X_s cs' !! i = Some (row_X_s row) /\
        ConstraintSet.constraintAxis cs' !! i = Some (row_axis row) /\
        ConstraintSet.baumgarteParameters cs' !! i = Some (row_baumgarte row) /\
        ConstraintSet.acceleration cs' !! i = Some (row_acceleration row) /\
        ConstraintSet.err cs' !! i = Some 0%float /\
        ConstraintSet.errd cs' !! i = Some 0%float /\
        ConstraintSet.force cs' !! i = Some 0%float /\
        ConstraintSet.impulse cs' !! i = Some 0%float /\
        ConstraintSet.v_plus cs' !! i = Some 0%float.
Proof.
  intros Hall.
  destruct (register_all_total objects rs ConstraintSet.new eq_refl Hall)
    as (idxs & cs & E).
  exists idxs, cs. split; [exact E|].
  intros model cs' EB rows n.
  destruct (register_all_rows objects rs [] _ _ _ holds_rows_new E) as (Hr & _).
  cbn [app] in Hr. fold rows in Hr.
  pose proof (holds_rows_Bind model rows cs cs' Hr EB) as Hr'.
  pose proof (holds_rows_aligned rows cs' Hr') as Hal.
  pose proof (holds_rows_size rows cs' Hr') as Hsize.
  assert (Hacc : length (ConstraintSet.acceleration cs') = n).
  { unfold ConstraintSet.size, VectorNd_size in Hsize. subst n. lia. }
  unfold aligned in Hal. rewrite Hacc in Hal.
  destruct Hal as (_ & _ & _ & _ & _ & _ & _ & _ & _ & _ & _ & He & Hed & Hf
                   & Hi & Hv).
  split; [exact He|]. split; [exact Hed|]. split; [exact Hacc|].
  split; [exact Hf|]. split; [exact Hi|]. split; [exact Hv|].
  split; [exact Hsize|]. split; [reflexivity|].
  intros i row Hrow. exact (holds_rows_lookup rows cs' i row Hr' Hrow).
Qed.

(** C2. [Copy ()] returns a set whose [bound] flag is false, whatever the
    flag of the original, and whose every other member equals that of the
    original. *)
Theorem Copy_clears_bound_only (cs : ConstraintSet.ConstraintSet) :
  ConstraintSet.bound (ConstraintSet.Copy cs) = false /\
  ConstraintSet.linear_solver (ConstraintSet.Copy cs)
    = ConstraintSet.linear_solver cs /\
  ConstraintSet.constraintType (ConstraintSet.Copy cs)
    = ConstraintSet.constraintType cs /\
  ConstraintSet.name (ConstraintSet.Copy cs) = ConstraintSet.name cs /\
  ConstraintSet.mContactConstraintIndices (ConstraintSet.Copy cs)
    = ConstraintSet.mContactConstraintIndices cs /\
  ConstraintSet.mLoopConstraintIndices (ConstraintSet.Copy cs)
    = ConstraintSet.mLoopConstraintIndices cs /\
  ConstraintSet.mCustomConstraintIndices (ConstraintSet.Copy cs)
    = ConstraintSet.mCustomConstraintIndices cs /\
  ConstraintSet.mCustomConstraints (ConstraintSet.Copy cs)
    = ConstraintSet.mCustomConstraints cs /\
  ConstraintSet.body (ConstraintSet.Copy cs) = ConstraintSet.body cs /\
  ConstraintSet.point (ConstraintSet.Copy cs) = ConstraintSet.point cs /\
  ConstraintSet.normal (ConstraintSet.Copy cs) = ConstraintSet.normal cs /\
  ConstraintSet.body_p (ConstraintSet.Copy cs) = ConstraintSet.body_p cs /\
  ConstraintSet.body_s (ConstraintSet.Copy cs) = ConstraintSet.body_s cs /\
  ConstraintSet.X_p (ConstraintSet.Copy cs) = ConstraintSet.X_p cs /\
  ConstraintSet.X_s (ConstraintSet.Copy cs) = ConstraintSet.X_s cs /\
  ConstraintSet.constraintAxis (ConstraintSet.Copy cs)
    = ConstraintSet.constraintAxis cs /\
  ConstraintSet.baumgarteParameters (ConstraintSet.Copy cs)
    = ConstraintSet.baumgarteParameters cs /\
  ConstraintSet.err (ConstraintSet.Copy cs) = ConstraintSet.err cs /\
  ConstraintSet.errd (ConstraintSet.Copy cs) = ConstraintSet.errd cs /\
  ConstraintSet.acceleration (ConstraintSet.Copy cs)
    = ConstraintSet.acceleration cs /\
  ConstraintSet.force (ConstraintSet.Copy cs) = ConstraintSet.force cs /\
  ConstraintSet.impulse (ConstraintSet.Copy cs) = ConstraintSet.impulse cs /\
  ConstraintSet.v_plus (ConstraintSet.Copy cs) = ConstraintSet.v_plus cs /\
  ConstraintSet.workspace (ConstraintSet.Copy cs) = ConstraintSet.workspace cs.
Proof.
  unfold ConstraintSet.Copy. destruct cs. cbn. repeat split; reflexivity.
Qed.

(** C3. Called without stabilization arguments, [AddLoopConstraint] acts as
    with [enable_stabilization = false] and [stabilization_param = 0.1]: it
    returns the index of the row it adds, a loop row whose Baumgarte
    coefficients are zero; and whatever the arguments, the coefficients of the
    new row are nonzero only if the caller passed [enable_stabilization =
    true]. *)
Theorem AddLoopConstraint_default_arguments (cs : ConstraintSet.ConstraintSet)
  (id_predecessor id_successor : Z)
  (X_predecessor X_successor : SpatialTransform) (axis : SpatialVector)
  (constraint_name : option string) :
  aligned cs ->
  ConstraintSet.bound cs = false ->
  ConstraintSet.size cs <= UINT_MAX ->
  exists cs' : ConstraintSet.ConstraintSet,
    let row := Z.to_nat (ConstraintSet.size cs) in
    ConstraintSet.AddLoopConstraint id_predecessor id_successor X_predecessor
      X_successor axis None None constraint_name cs
      = Ok (ConstraintSet.size cs) cs' /\
    ConstraintSet.AddLoopConstraint id_predecessor id_successor X_predecessor
      X_successor axis (Some false) (Some 0.1%float) constraint_name cs
      = Ok (ConstraintSet.size cs) cs' /\
    ConstraintSet.size cs' = ConstraintSet.size cs + 1 /\
    ConstraintSet.constraintType cs' !! row
      = Some ConstraintSet.LoopConstraint /\
    ConstraintSet.body_p cs' !! row = Some id_predecessor /\
    ConstraintSet.body_s cs' !! row = Some id_successor /\
    ConstraintSet.X_p cs' !! row = Some X_predecessor /\
    ConstraintSet.X_s cs' !! row = Some X_successor /\
    ConstraintSet.constraintAxis cs' !! row = Some axis /\
    ConstraintSet.baumgarteParameters cs' !! row = Some (Vec2 0 0) /\
    forall (enable_stabilization : option bool)
           (stabilization_param : option float),
    exists cs'' : ConstraintSet.ConstraintSet,
      ConstraintSet.AddLoopConstraint id_predecessor id_successor
        X_predecessor X_successor axis enable_stabilization
        stabilization_param constraint_name cs
        = Ok (ConstraintSet.size cs) cs'' /\
      ConstraintSet.baumgarteParameters cs'' !! row
        = Some (ConstraintSet.baumgarte_coefficients
                  (default false enable_stabilization)
                  (default 0.1%float stabilization_param)) /\
      (ConstraintSet.baumgarteParameters cs'' !! row <> Some (Vec2 0 0) ->
       enable_stabilization = Some true).
Proof.
  intros Hal Hb Hsize.
  assert (Hnn : 0 <= ConstraintSet.size cs).
  { unfold ConstraintSet.size, VectorNd_size. lia. }
  assert (Hu : u32 (ConstraintSet.size cs) = ConstraintSet.size cs).
  { apply u32_small. unfold UINT_MAX in Hsize. lia. }
  assert (Hrow : Z.to_nat (ConstraintSet.size cs)
                 = length (ConstraintSet.acceleration cs)).
  { unfold ConstraintSet.size, VectorNd_size. lia. }
  unfold aligned in Hal.
  destruct Hal as (L1 & _ & _ & _ & _ & L6 & L7 & L8 & L9 & L10 & L11 & _).
  assert (Hgen : forall e T, exists cs'',
            ConstraintSet.AddLoopConstraint id_predecessor id_successor
              X_predecessor X_successor axis e T constraint_name cs
              = Ok (ConstraintSet.size cs) cs'' /\
            appended
              (rows_of (fun _ => None)
                 (Loop id_predecessor id_successor X_predecessor X_successor
                    axis e T constraint_name)) cs cs'').
  { intros e T.
    destruct (register_effect (fun _ => None)
                (Loop id_predecessor id_successor X_predecessor X_successor
                   axis e T constraint_name) cs Hb I) as (cs'' & E & Ha & _).
    rewrite Hu in E. exists cs''. split; [exact E|exact Ha]. }
  destruct (Hgen None None) as (cs' & E & Ha).
  exists cs'. cbv zeta. rewrite Hrow.
  destruct Ha as (_ & _ & _ & A1 & _ & _ & _ & _ & A6 & A7 & A8 & A9 & A10
                  & A11 & A12 & _).
  split; [exact E|]. split; [exact E|]. split.
  { unfold ConstraintSet.size, VectorNd_size. rewrite A12, length_app. cbn. lia. }
  split. { rewrite A1, lookup_app_r, L1, Nat.sub_diag by lia. reflexivity. }
  split. { rewrite A6, lookup_app_r, L6, Nat.sub_diag by lia. reflexivity. }
  split. { rewrite A7, lookup_app_r, L7, Nat.sub_diag by lia. reflexivity. }
  split. { rewrite A8, lookup_app_r, L8, Nat.sub_diag by lia. reflexivity. }
  split. { rewrite A9, lookup_app_r, L9, Nat.sub_diag by lia. reflexivity. }
  split. { rewrite A10, lookup_app_r, L10, Nat.sub_diag by lia. reflexivity. }
  split. { rewrite A11, lookup_app_r, L11, Nat.sub_diag by lia. reflexivity. }
  intros e T. destruct (Hgen e T) as (cs'' & E' & Ha').
  exists cs''. split; [exact E'|].
  destruct Ha' as (_ & _ & _ & _ & _ & _ & _ & _ & _ & _ & _ & _ & _ & B11 & _).
  assert (Hlook : ConstraintSet.baumgarteParameters cs''
                    !! length (ConstraintSet.acceleration cs)
                  = Some (ConstraintSet.baumgarte_coefficients
                            (default false e) (default 0.1%float T))).
  { rewrite B11, lookup_app_r, L11, Nat.sub_diag by lia. reflexivity. }
  split; [exact Hlook|].
  rewrite Hlook. intros Hne.
  destruct e as [[|]|]; [reflexivity|exfalso; apply Hne; reflexivity
                        |exfalso; apply Hne; reflexivity].
Qed.

Lemma perform_keeps_unbound objects c cs result cs' :
  ConstraintSet.bound cs = false ->
  perform objects c cs = Ok result cs' ->
  result <> Some true ->
  ConstraintSet.bound cs' = false.
Proof.
  intros Hb E Hres.
  destruct c as [r|model|model flags|solver| |]; cbn [perform] in E;
    unfold bind, ret in E.
  - destruct (register objects r cs) as [i cs1| | |] eqn:E1; try discriminate.
    injection E as <- <-.
    destruct (register_Ok _ _ _ _ _ E1) as [_ Hobj].
    destruct (register_effect objects r cs Hb Hobj) as (cs2 & E2 & Ha & _).
    rewrite E1 in E2. injection E2 as _ <-.
    destruct Ha as (_ & -> & _). exact Hb.
  - destruct (ConstraintSet.Bind model cs) as [b cs1| | |] eqn:E1;
      try discriminate.
    injection E as <- <-.
    destruct (Bind_effect _ _ _ _ E1) as [_ Hf].
    destruct b; [congruence|]. rewrite (Hf eq_refl). exact Hb.
  - revert E. destruct cs. run_cs. intros E. injection E as <- <-. exact Hb.
  - revert E. destruct cs. run_cs. intros E. injection E as <- <-. exact Hb.
  - revert E. destruct cs. run_cs. intros E. injection E as <- <-. exact Hb.
  - revert E. destruct cs. run_cs. intros E. injection E as <- <-. reflexivity.
Qed.

Lemma never_bound_unbound objects cs :
  never_bound objects cs -> ConstraintSet.bound cs = false.
Proof.
  induction 1 as [|cs c result cs' _ IH E Hres]; [reflexivity|].
  exact (perform_keeps_unbound objects c cs result cs' IH E Hres).
Qed.

Lemma length_transpose n G : length (ConstraintSet.transpose n G) = n.
Proof. unfold ConstraintSet.transpose. rewrite length_map, length_seq. reflexivity. Qed.

Lemma transpose_row_length n G (i : nat) t :
  ConstraintSet.transpose n G !! i = Some t -> length t = length G.
Proof.
  unfold ConstraintSet.transpose. intros Ht.
  change (map ?g ?l) with (g <$> l) in Ht.
  apply list_lookup_fmap_Some in Ht as (j & -> & _).
  apply length_map.
Qed.

Lemma SolveConstrainedSystemDirect_size (H G : MatrixNd) (c gamma : VectorNd)
  (solver : LinearSolver) :
  let n := length c in
  let m := length gamma in
  length H = n -> Forall (fun row => length row = n) H ->
  length G = m -> Forall (fun row => length row = n) G ->
  exists A b,
    ConstraintSet.SolveConstrainedSystemDirect H G c gamma solver
      = (A, b, ConstraintSet.SolveLinearSystem A b solver) /\
    length A = (n + m)%nat /\
    Forall (fun row => length row = (n + m)%nat) A /\
    length b = (n + m)%nat.
Proof.
  intros n m HH HHr HG HGr.
  eexists _, _. split; [reflexivity|].
  split; [|split].
  - rewrite length_app, length_zip_with, length_transpose, length_map. lia.
  - apply Forall_app. split.
    + apply Forall_lookup. intros i row Hrow.
      apply lookup_zip_with_Some in Hrow as (h & t & -> & Hh & Ht).
      rewrite length_app.
      rewrite (Forall_lookup_1 _ _ _ _ HHr Hh).
      rewrite (transpose_row_length _ _ _ _ Ht). lia.
    + apply Forall_forall. intros row Hin.
      apply list_elem_of_In, in_map_iff in Hin as (row0 & <- & Hin0).
      rewrite length_app, length_replicate.
      apply list_elem_of_In in Hin0.
      rewrite (proj1 (Forall_forall _ _) HGr row0 Hin0). reflexivity.
  - apply length_app.
Qed.

Lemma lookup_transpose n G (i : nat) :
  (i < n)%nat ->
  ConstraintSet.transpose n G !! i
    = Some (map (fun row => nth i row 0%float) G).
Proof.
  intros Hi. unfold ConstraintSet.transpose.
  apply (lookup_map_Some (fun j => map (fun row => nth j row 0%float) G)
           (seq 0 n) i i).
  apply (lookup_seq_lt 0 n i Hi).
Qed.

(** What [SolveConstrainedSystemDirect] assembles is [[H G^T; G 0]] and
    [[c; gamma]]. *)
Lemma SolveConstrainedSystemDirect_system (H G : MatrixNd) (c gamma : VectorNd)
  (solver : LinearSolver) :
  let n := length c in
  let m := length gamma in
  length H = n -> Forall (fun row => length row = n) H ->
  length G = m -> Forall (fun row => length row = n) G ->
  exists A,
    ConstraintSet.SolveConstrainedSystemDirect H G c gamma solver
      = (A, c ++ gamma, ConstraintSet.SolveLinearSystem A (c ++ gamma) solver) /\
    saddle_point_matrix n m H G A.
Proof.
  intros n m HH HHr HG HGr.
  destruct (SolveConstrainedSystemDirect_size H G c gamma solver HH HHr HG HGr)
    as (A0 & b0 & E0 & HlenA & HrowsA & _).
  unfold ConstraintSet.SolveConstrainedSystemDirect in *.
  fold n m in E0 |- *.
  set (A1 := zip_with app H (ConstraintSet.transpose n G)) in *.
  set (A2 := map (fun row => row ++ replicate m 0%float) G) in *.
  injection E0 as <- _ _.
  exists (A1 ++ A2). split; [reflexivity|].
  assert (HlenA1 : length A1 = n).
  { unfold A1. rewrite length_zip_with, length_transpose. lia. }
  assert (Htop : forall i h, (i < n)%nat -> H !! i = Some h ->
            (A1 ++ A2) !! i
            = Some (h ++ map (fun row => nth i row 0%float) G)).
  { intros i h Hi Hh. apply lookup_app_l_Some. unfold A1.
    apply lookup_zip_with_Some. eexists _, _.
    split; [reflexivity|]. split; [exact Hh|]. apply lookup_transpose, Hi. }
  assert (Hbottom : forall i g, G !! i = Some g ->
            (A1 ++ A2) !! (n + i)%nat = Some (g ++ replicate m 0%float)).
  { intros i g Hg. rewrite lookup_app_r by lia.
    replace (n + i - length A1)%nat with i by lia.
    unfold A2.
    exact (lookup_map_Some (fun row => row ++ replicate m 0%float) G i g Hg). }
  split; [exact HlenA|]. split; [exact HrowsA|].
  split; [|split; [|split]].
  - intros i j Hi Hj.
    destruct (lookup_lt_is_Some_2 H i) as [h Hh]; [lia|].
    unfold entry. rewrite (Htop i h Hi Hh), Hh.
    apply lookup_app_l. rewrite (Forall_lookup_1 _ _ _ _ HHr Hh). exact Hj.
  - intros i j Hi Hj.
    destruct (lookup_lt_is_Some_2 H i) as [h Hh]; [lia|].
    destruct (lookup_lt_is_Some_2 G j) as [g Hg]; [lia|].
    assert (Hlg : length g = n) by exact (Forall_lookup_1 _ _ _ _ HGr Hg).
    destruct (lookup_lt_is_Some_2 g i) as [x Hx]; [lia|].
    unfold entry. rewrite (Htop i h Hi Hh), Hg, Hx.
    rewrite lookup_app_r by (rewrite (Forall_lookup_1 _ _ _ _ HHr Hh); lia).
    rewrite (Forall_lookup_1 _ _ _ _ HHr Hh).
    replace (n + j - n)%nat with j by lia.
    rewrite (lookup_map_Some (fun row => nth i row 0%float) G j g Hg).
    rewrite (nth_lookup_Some g i 0%float x Hx). reflexivity.
  - intros i j Hi Hj.
    destruct (lookup_lt_is_Some_2 G i) as [g Hg]; [lia|].
    unfold entry. rewrite (Hbottom i g Hg), Hg.
    apply lookup_app_l. rewrite (Forall_lookup_1 _ _ _ _ HGr Hg). exact Hj.
  - intros i j Hi Hj.
    destruct (lookup_lt_is_Some_2 G i) as [g Hg]; [lia|].
    unfold entry. rewrite (Hbottom i g Hg).
    rewrite lookup_app_r by (rewrite (Forall_lookup_1 _ _ _ _ HGr Hg); lia).
    rewrite (Forall_lookup_1 _ _ _ _ HGr Hg).
    replace (n + j - n)%nat with j by lia.
    apply lookup_replicate_2, Hj.
Qed.

(** C7. A default-constructed set is not bound and selects the column-pivoted
    Householder QR solver.  [bound] stays false under every call of a member
    function unless the call is a [Bind] that returns true, and such a [Bind]
    sets it.  [SetSolver] selects another solver; the direct strategy
    assembles the full matrix [[H G^T; G 0]], with [n + m] rows and columns,
    and the right-hand side [[c; gamma]], and solves that system with the
    solver it is given; the driver calls it with [c = Tau - C] and the solver
    selected in the set. *)
Theorem new_set_is_unbound_with_QR_solver (objects : ConstraintSet.heap) :
  ConstraintSet.bound ConstraintSet.new = false /\
  ConstraintSet.linear_solver ConstraintSet.new
    = LinearSolverColPivHouseholderQR /\
  (forall cs, never_bound objects cs -> ConstraintSet.bound cs = false) /\
  (forall model cs cs',
     ConstraintSet.Bind model cs = Ok true cs' ->
     ConstraintSet.bound cs = false /\ ConstraintSet.bound cs' = true) /\
  (forall solver cs,
     exists cs',
       ConstraintSet.SetSolver solver cs = Ok tt cs' /\
       ConstraintSet.linear_solver cs' = solver /\
       ConstraintSet.bound cs' = ConstraintSet.bound cs) /\
  (forall (H G : MatrixNd) (c gamma : VectorNd) (solver : LinearSolver),
     length H = length c ->
     Forall (fun row => length row = length c) H ->
     length G = length gamma ->
     Forall (fun row => length row = length c) G ->
     exists A : MatrixNd,
       ConstraintSet.SolveConstrainedSystemDirect H G c gamma solver
         = (A, c ++ gamma,
            ConstraintSet.SolveLinearSystem A (c ++ gamma) solver) /\
       saddle_point_matrix (length c) (length gamma) H G A /\
       length (c ++ gamma) = (length c + length gamma)%nat) /\
  (forall model Q QDot Tau cs,
     let w := ConstraintSet.system_variables model Q QDot Tau cs in
     let c := zip_with PrimFloat.sub Tau (Workspace.C w) in
     let x :=
       (ConstraintSet.SolveConstrainedSystemDirect (Workspace.H w)
          (Workspace.G w) c (Workspace.gamma w)
          (ConstraintSet.linear_solver cs)).2 in
     exists cs',
       ConstraintSet.ForwardDynamicsConstraintsDirect model Q QDot Tau cs
         = Ok (take (length c) x) cs' /\
       ConstraintSet.force cs' = map PrimFloat.opp (drop (length c) x) /\
       ConstraintSet.linear_solver cs' = ConstraintSet.linear_solver cs /\
       ConstraintSet.bound cs' = ConstraintSet.bound cs).
Proof.
  split; [reflexivity|]. split; [reflexivity|].
  split; [exact (never_bound_unbound objects)|].
  split.
  { intros model cs cs' E. destruct (Bind_effect _ _ _ _ E) as [Ht _].
    destruct (Ht eq_refl) as (Hb & Hb' & _). split; assumption. }
  split.
  { intros solver cs. eexists. split; [reflexivity|].
    destruct cs. split; reflexivity. }
  split.
  { intros H G c gamma solver HH HHr HG HGr.
    destruct (SolveConstrainedSystemDirect_system H G c gamma solver
                HH HHr HG HGr) as (A & E & HA).
    exists A. split; [exact E|]. split; [exact HA|]. apply length_app. }
  intros model Q QDot Tau cs. destruct cs. cbv zeta.
  eexists. split.
  - unfold ConstraintSet.ForwardDynamicsConstraintsDirect.
    unfold bind, modify, gets, assign, ret. cbn. reflexivity.
  - cbn. repeat split; reflexivity.
Qed.

Lemma indexed_new objects : indexed objects ConstraintSet.new.
Proof.
  unfold indexed. cbn. split; [|split; [|split]].
  - intros i Hi. destruct i; discriminate.
  - intros c Hc. inversion Hc.
  - intros c Hc. inversion Hc.
  - constructor.
Qed.

Lemma register_indexed objects r rows cs i cs' :
  holds_rows rows cs ->
  indexed objects cs ->
  Z.of_nat (length rows) <= UINT_MAX ->
  register objects r cs = Ok i cs' ->
  indexed objects cs'.
Proof.
  intros Hr (I1 & I2 & I3 & I4) Hmax E.
  destruct (register_Ok _ _ _ _ _ E) as [Hb Hobj].
  destruct (register_effect objects r cs Hb Hobj) as (cs2 & E2 & Ha & Hi).
  rewrite E in E2. injection E2 as _ <-. clear E.
  pose proof (holds_rows_size rows cs Hr) as Hsize.
  assert (Htypes : length (ConstraintSet.constraintType cs) = length rows).
  { destruct Hr as (-> & _). apply length_map. }
  rewrite Hsize in Hi. rewrite u32_small in Hi by (unfold UINT_MAX in Hmax; lia).
  rewrite Htypes in I2, I3.
  destruct Ha as (_ & _ & _ & A1 & _).
  destruct Hi as (J1 & J2 & J3 & J4).
  unfold indexed. rewrite A1, J1, J2, J3, J4, length_app, Htypes.
  split; [|split; [|split]].
  - intros k Hk. apply elem_of_app.
    apply lookup_app_Some in Hk as [Hk|[Hge Hk]]; [left; apply I1, Hk|].
    right. rewrite Htypes in Hge, Hk.
    destruct r as [? ? ? ? ?|? ? ? ? ? ? ? ?|ptr ? ? ? ? ? ? ?]; cbn in Hk.
    + destruct (k - length rows)%nat as [|d] eqn:Ed; [|discriminate].
      apply list_elem_of_singleton. lia.
    + destruct (k - length rows)%nat as [|d]; discriminate.
    + destruct Hobj as [object Hobj]. rewrite Hobj in Hk.
      rewrite map_replicate_const in Hk.
      apply lookup_replicate in Hk as [Hk _]. discriminate.
  - intros c Hc. apply elem_of_app in Hc as [Hc|Hc].
    + specialize (I2 c Hc). lia.
    + destruct r; try (inversion Hc; fail).
      apply list_elem_of_singleton in Hc as ->. cbn. lia.
  - intros c Hc. apply elem_of_app in Hc as [Hc|Hc].
    + destruct (I3 c Hc) as [Hrange Hty]. split; [lia|].
      apply lookup_app_l_Some, Hty.
    + destruct r; try (inversion Hc; fail).
      apply list_elem_of_singleton in Hc as ->. cbn. split; [lia|].
      rewrite lookup_app_r by lia.
      rewrite Htypes, Nat2Z.id, Nat.sub_diag. reflexivity.
  - apply Forall2_app.
    + eapply Forall2_impl; [exact I4|].
      intros p s (object & Ho & Hrange). exists object. split; [exact Ho|].
      intros k Hk. apply lookup_app_l_Some, Hrange, Hk.
    + destruct r as [? ? ? ? ?|? ? ? ? ? ? ? ?|ptr ? ? ? ? ? ? ?];
        [constructor|constructor|].
      destruct Hobj as [object Hobj].
      constructor; [|constructor].
      exists object. split; [exact Hobj|].
      intros k Hk. rewrite lookup_app_r by lia. cbn. rewrite Hobj.
      rewrite map_replicate_const. apply lookup_replicate. split; [reflexivity|].
      lia.
Qed.

Lemma register_all_indexed objects rs : forall rows cs idxs cs',
  holds_rows rows cs ->
  indexed objects cs ->
  Z.of_nat (length (rows ++ flat_map (rows_of objects) rs)) <= UINT_MAX ->
  register_all objects rs cs = Ok idxs cs' ->
  indexed objects cs'.
Proof.
  induction rs as [|r rs IH]; intros rows cs idxs cs' Hr Hi Hmax E.
  - cbn in E. injection E as _ <-. exact Hi.
  - cbn [register_all] in E. unfold bind in E.
    destruct (register objects r cs) as [i cs1| | |] eqn:E1; try discriminate.
    destruct (register_all objects rs cs1) as [idxs1 cs3| | |] eqn:E3;
      try discriminate.
    cbn in E. injection E as _ <-.
    destruct (register_Ok _ _ _ _ _ E1) as [Hb Hobj].
    destruct (register_effect objects r cs Hb Hobj) as (cs2 & E2 & Ha & _).
    rewrite E1 in E2. injection E2 as _ <-.
    cbn [flat_map] in Hmax. rewrite app_assoc in Hmax.
    apply (IH (rows ++ rows_of objects r) cs1 idxs1 cs3).
    + exact (holds_rows_appended _ _ _ _ Hr Ha).
    + apply (register_indexed objects r rows cs i cs1 Hr Hi); [|exact E1].
      rewrite !length_app in Hmax. lia.
    + exact Hmax.
    + exact E3.
Qed.

Lemma indexed_Bind objects model cs cs' :
  indexed objects cs -> ConstraintSet.Bind model cs = Ok true cs' ->
  indexed objects cs'.
Proof.
  intros Hi E. destruct (Bind_effect _ _ _ _ E) as [Ht _].
  destruct (Ht eq_refl) as (_ & _ & ->). exact Hi.
Qed.

Lemma set_coeffs_spec value indices : forall e : VectorNd,
  (forall c, c ∈ indices -> 0 <= c < Z.of_nat (length e)) ->
  exists e' : VectorNd,
    ConstraintSet.set_coeffs indices value e = Ok tt e' /\
    length e' = length e /\
    forall i : nat,
      (Z.of_nat i ∈ indices -> e' !! i = Some (value (Z.of_nat i))) /\
      (Z.of_nat i ∉ indices -> e' !! i = e !! i).
Proof.
  induction indices as [|c rest IH]; intros e Hrange.
  - exists e. split; [reflexivity|]. split; [reflexivity|].
    intros i. split; [intros Hin; inversion Hin|reflexivity].
  - assert (Hc : 0 <= c < Z.of_nat (length e)).
    { apply Hrange, elem_of_cons. left. reflexivity. }
    destruct (IH (<[Z.to_nat c := value c]> e)) as (e' & E & Hlen & Hspec).
    { intros c' Hc'. rewrite length_insert. apply Hrange, elem_of_cons.
      right. exact Hc'. }
    exists e'. split.
    { cbn [ConstraintSet.set_coeffs]. unfold bind, ConstraintSet.set_coeff.
      unfold VectorNd_size. rewrite bool_decide_eq_true_2 by exact Hc. exact E. }
    rewrite length_insert in Hlen. split; [exact Hlen|].
    intros i. destruct (Hspec i) as [Hin Hout].
    destruct (decide (Z.of_nat i ∈ rest)) as [Hr|Hr].
    + split; [intros _; apply Hin, Hr|].
      intros Hn. exfalso. apply Hn, elem_of_cons. right. exact Hr.
    + split.
      * intros Hi. apply elem_of_cons in Hi as [Hi|Hi]; [|contradiction].
        rewrite (Hout Hr). subst c. rewrite Nat2Z.id.
        apply list_lookup_insert_eq. lia.
      * intros Hn. rewrite (Hout Hr).
        apply list_lookup_insert_ne. intros Heq. apply Hn.
        apply elem_of_cons. left. lia.
Qed.

Lemma custom_position_errors_total objects model Q cs :
  forall (pointers : list CustomConstraintPtr) (starts : list Z) (k : Z)
         (e : VectorNd),
  Forall2
    (fun pointer start =>
       exists object,
         objects pointer = Some object /\
         forall i : nat,
           start <= Z.of_nat i < start + ConstraintSet.mConstraintCount object ->
           ConstraintSet.constraintType cs !! i
             = Some ConstraintSet.ConstraintTypeCustom)
    pointers starts ->
  exists e' : VectorNd,
    ConstraintSet.custom_position_errors objects model Q cs k pointers starts e
      = Ok tt e'.
Proof.
  intros pointers starts k e HF. revert k e.
  induction HF as [|p s pointers starts (object & Ho & _) _ IH]; intros k e.
  - exists e. reflexivity.
  - cbn [ConstraintSet.custom_position_errors]. rewrite Ho.
    unfold bind, modify. apply IH.
Qed.



Lemma registered_bound_invariants objects rs model idxs cs cs' :
  register_all objects rs ConstraintSet.new = Ok idxs cs ->
  ConstraintSet.Bind model cs = Ok true cs' ->
  Z.of_nat (length (flat_map (rows_of objects) rs)) <= UINT_MAX ->
  holds_rows (flat_map (rows_of objects) rs) cs' /\ indexed objects cs'.
Proof.
  intros E EB Hmax.
  destruct (register_all_rows objects rs [] _ _ _ holds_rows_new E) as (Hr & _).
  cbn [app] in Hr. split.
  - exact (holds_rows_Bind model _ cs cs' Hr EB).
  - apply (indexed_Bind objects model cs cs'); [|exact EB].
    exact (register_all_indexed objects rs [] _ _ _ holds_rows_new
             (indexed_new objects) Hmax E).
Qed.


Lemma position_error_total objects model rows cs Q :
  holds_rows rows cs -> indexed objects cs ->
  exists e, ConstraintSet.position_error objects model cs Q = Ok tt e.
Proof.
  intros Hr (I1 & I2 & I3 & I4).
  set (e := VectorNd_Zero (ConstraintSet.size cs)).
  assert (Htypes : length (ConstraintSet.constraintType cs) = length rows).
  { destruct Hr as (-> & _). apply length_map. }
  assert (Hsize : VectorNd_size e = ConstraintSet.size cs).
  { unfold e, VectorNd_size. rewrite length_VectorNd_Zero.
    unfold ConstraintSet.size, VectorNd_size. lia. }
  assert (Hlen : length e = length rows).
  { rewrite (holds_rows_size rows cs Hr) in Hsize.
    unfold VectorNd_size in Hsize. lia. }
  rewrite Htypes in I2, I3.
  destruct (set_coeffs_spec (fun _ => 0%float)
              (ConstraintSet.mContactConstraintIndices cs) e)
    as (e1 & E1 & L1 & _).
  { intros c Hc. specialize (I2 c Hc). lia. }
  destruct (set_coeffs_spec (ConstraintSet.loop_position_error model Q cs)
              (ConstraintSet.mLoopConstraintIndices cs) e1)
    as (e2 & E2 & _).
  { intros c Hc. destruct (I3 c Hc) as [Hc' _]. lia. }
  destruct (custom_position_errors_total objects model Q cs
              (ConstraintSet.mCustomConstraints cs)
              (ConstraintSet.mCustomConstraintIndices cs) 0 e2 I4)
    as (e3 & E3).
  exists e3.
  unfold ConstraintSet.position_error,
    ConstraintSet.CalcConstraintsPositionError, bind, gets, assert_.
  fold e. rewrite bool_decide_eq_true_2 by exact Hsize.
  rewrite E1, E2. exact E3.
Qed.

Lemma CalcAssemblyQ_loop_spec objects model cs weights tolerance :
  (forall Q, exists e, ConstraintSet.position_error objects model cs Q = Ok tt e) ->
  forall (iterations : nat) (QInit : VectorNd),
  exists (success : bool) (k : nat),
    ConstraintSet.CalcAssemblyQ_loop objects model cs weights tolerance
      iterations QInit
      = Ok success (iterate objects model cs weights QInit k) /\
    (k <= iterations)%nat /\
    (forall j : nat, (j < k)%nat ->
       ~ converged objects model cs tolerance
           (iterate objects model cs weights QInit j)) /\
    (success = true ->
       converged objects model cs tolerance
         (iterate objects model cs weights QInit k)) /\
    (success = false ->
       k = iterations /\
       ~ converged objects model cs tolerance
           (iterate objects model cs weights QInit k)).
Proof.
  intros Htotal iterations.
  induction iterations as [|n IH]; intros QInit;
    cbn [ConstraintSet.CalcAssemblyQ_loop];
    destruct (Htotal QInit) as [e He]; rewrite He;
    assert (Herr : error_at objects model cs QInit = e)
      by (unfold error_at; rewrite He; reflexivity);
    destruct (ConstraintSet.VectorNd_norm e <? tolerance)%float eqn:Hconv.
  - exists true, 0%nat.
    change (iterate objects model cs weights QInit 0) with QInit.
    split; [reflexivity|]. split; [lia|].
    split; [intros j Hj; lia|]. split; [|discriminate].
    intros _. unfold converged. rewrite Herr. exact Hconv.
  - exists false, 0%nat.
    change (iterate objects model cs weights QInit 0) with QInit.
    split; [reflexivity|]. split; [lia|].
    split; [intros j Hj; lia|]. split; [discriminate|].
    intros _. split; [reflexivity|]. unfold converged. rewrite Herr, Hconv.
    discriminate.
  - exists true, 0%nat.
    change (iterate objects model cs weights QInit 0) with QInit.
    split; [reflexivity|]. split; [lia|].
    split; [intros j Hj; lia|]. split; [|discriminate].
    intros _. unfold converged. rewrite Herr. exact Hconv.
  - destruct (IH (ConstraintSet.assembly_step model cs weights e QInit))
      as (success & k & E & Hk & Hbefore & Htrue & Hfalse).
    assert (Hshift : forall j,
              iterate objects model cs weights
                (ConstraintSet.assembly_step model cs weights e QInit) j
              = iterate objects model cs weights QInit (S j)).
    { intros j. unfold iterate. rewrite Nat.iter_succ_r.
      replace (next_iterate objects model cs weights QInit)
        with (ConstraintSet.assembly_step model cs weights e QInit)
        by (unfold next_iterate; rewrite Herr; reflexivity).
      reflexivity. }
    exists success, (S k). rewrite <- Hshift.
    split; [exact E|]. split; [lia|]. split.
    { intros j Hj. destruct j as [|j].
      - change (iterate objects model cs weights QInit 0) with QInit.
        unfold converged. rewrite Herr, Hconv. discriminate.
      - rewrite <- Hshift. apply Hbefore. lia. }
    split; [exact Htrue|].
    intros Hs. destruct (Hfalse Hs) as [-> Hnot]. split; [reflexivity|exact Hnot].
Qed.

(** C5. On a registered and bound set, [CalcAssemblyQ] returns; its defaults
    are [tolerance = 1e-12] and [max_iter = 100]; it returns true exactly
    when the norm of the position error is below the tolerance at one of the
    iterates [0 .. max_iter], and the output [Q] is then the first such
    iterate; when it returns false, [Q] is iterate number [max_iter]. *)
Theorem CalcAssemblyQ_returns_true_iff_converged
  (objects : ConstraintSet.heap) (rs : list registration)
  (bound_to model : Model.Model) (idxs : list Z)
  (cs cs' : ConstraintSet.ConstraintSet) (QInit weights Q0 : VectorNd)
  (tolerance : option float) (max_iter : option Z) :
  register_all objects rs ConstraintSet.new = Ok idxs cs ->
  ConstraintSet.Bind bound_to cs = Ok true cs' ->
  Z.of_nat (length (flat_map (rows_of objects) rs)) <= UINT_MAX ->
  let tol := default 1e-12%float tolerance in
  let n := Z.to_nat (default 100 max_iter) in
  ConstraintSet.CalcAssemblyQ objects model QInit cs' weights None None Q0
    = ConstraintSet.CalcAssemblyQ objects model QInit cs' weights
        (Some 1e-12%float) (Some 100) Q0 /\
  exists (success : bool) (k : nat),
    ConstraintSet.CalcAssemblyQ objects model QInit cs' weights tolerance
      max_iter Q0
      = Ok success (iterate objects model cs' weights QInit k) /\
    (k <= n)%nat /\
    (success = true <->
     exists j : nat, (j <= n)%nat /\
       converged objects model cs' tol
         (iterate objects model cs' weights QInit j)) /\
    (success = true ->
     converged objects model cs' tol (iterate objects model cs' weights QInit k)
     /\ forall j : nat, (j < k)%nat ->
          ~ converged objects model cs' tol
              (iterate objects model cs' weights QInit j)) /\
    (success = false -> k = n).
Proof.
  intros E EB Hmax tol n. split; [reflexivity|].
  destruct (registered_bound_invariants objects rs bound_to idxs cs cs' E EB Hmax)
    as [Hr Hi].
  destruct (CalcAssemblyQ_loop_spec objects model cs' weights tol
              (fun Q => position_error_total objects model _ cs' Q Hr Hi)
              n QInit)
    as (success & k & Eloop & Hk & Hbefore & Htrue & Hfalse).
  exists success, k.
  split; [exact Eloop|]. split; [exact Hk|]. split; [|split].
  - split.
    + intros Hs. exists k. split; [exact Hk|exact (Htrue Hs)].
    + intros (j & Hj & Hconv). destruct success; [reflexivity|].
      destruct (Hfalse eq_refl) as [-> Hnot].
      destruct (decide (j = n)) as [-> | Hne]; [contradiction|].
      exfalso. apply (Hbefore j); [lia|exact Hconv].
  - intros Hs. split; [exact (Htrue Hs)|exact Hbefore].
  - intros Hs. exact (proj1 (Hfalse Hs)).
Qed.

(** X6. [SetSolver (solver)] stores [solver] in [linear_solver] and changes
    no other member. *)
Theorem SetSolver_changes_solver_only (solver : LinearSolver)
  (cs : ConstraintSet.ConstraintSet) :
  ConstraintSet.SetSolver solver cs
    = Ok tt (ConstraintSet.set_linear_solver solver cs) /\
  ConstraintSet.linear_solver (ConstraintSet.set_linear_solver solver cs)
    = solver /\
  ConstraintSet.Copy (ConstraintSet.set_linear_solver solver cs)
    = ConstraintSet.set_linear_solver solver (ConstraintSet.Copy cs) /\
  ConstraintSet.size (ConstraintSet.set_linear_solver solver cs)
    = ConstraintSet.size cs /\
  ConstraintSet.set_linear_solver (ConstraintSet.linear_solver cs)
    (ConstraintSet.set_linear_solver solver cs) = cs.
Proof.
  destruct cs. repeat split; reflexivity.
Qed.

End ConstraintSetFacts.

(** * The theorems at concrete inputs *)

#[local] Existing Instance Sample.externals.
#[local] Existing Instance Sample.kernels.

Lemma AddBody_adds_one_body_witness :
  exists m' : Model.Model,
    Model.AddBody 0 (Xtrans (Vec3 0 0 0))
      (Joint_ctor JointTypeRevolute (Vec3 0 0 1))
      (Body_ctor 1 (Vec3 0 0 0) (Vec3 1 1 1)) "b1"%string Sample.init_model
      = Ok 1 m' /\
    Model.dof_count m' = 1 /\
    Model.lambda m' = [0; 0] /\
    Model.mu m' = [[1]; []].
Proof.
  destruct (AddBody_adds_one_body Sample.init_model 0 (Xtrans (Vec3 0 0 0))
              (Joint_ctor JointTypeRevolute (Vec3 0 0 1))
              (Body_ctor 1 (Vec3 0 0 0) (Vec3 1 1 1)) "b1"%string)
    as (children & m' & Hch & E & Hdof & Hlam & _ & Hmu & _).
  - apply (built_Init Sample.empty_model); [|vm_compute; reflexivity].
    vm_compute. repeat split; reflexivity.
  - vm_compute. split; discriminate.
  - vm_compute. reflexivity.
  - vm_compute. discriminate.
  - exists m'. split; [exact E|]. split; [exact Hdof|]. split; [exact Hlam|].
    injection Hch as <-. exact Hmu.
Defined.

Lemma GetBodyId_first_match_witness :
  exists i : Z,
    Model.GetBodyId 2 "ROOT"%string Sample.init_model = Ok i Sample.init_model.
Proof.
  destruct (GetBodyId_first_match Sample.init_model "ROOT"%string 2)
    as (i & E & _).
  - vm_compute. discriminate.
  - vm_compute. lia.
  - exists i. exact E.
Defined.

Lemma SetFloatingBaseBody_six_joints_witness :
  exists m' : Model.Model,
    Model.SetFloatingBaseBody (Body_ctor 1 (Vec3 0 0 0) (Vec3 1 1 1))
      Sample.init_model = Ok 6 m' /\
    Model.dof_count m' = 6 /\
    Model.lambda m' = [0; 0; 1; 2; 3; 4; 5].
Proof.
  destruct (SetFloatingBaseBody_six_joints Sample.init_model
              (Body_ctor 1 (Vec3 0 0 0) (Vec3 1 1 1)))
    as (m' & E & Hdof & _ & _ & Hlam & _).
  - vm_compute. repeat split; first [reflexivity|discriminate].
  - vm_compute. reflexivity.
  - vm_compute. reflexivity.
  - exists m'. split; [exact E|]. split; [exact Hdof|exact Hlam].
Defined.

Lemma AddLoopConstraint_default_arguments_witness :
  exists cs' : ConstraintSet.ConstraintSet,
    ConstraintSet.AddLoopConstraint 0 0 SpatialTransform_default
      SpatialTransform_default (SVec 0 0 0 1 0 0) None None None
      ConstraintSet.new = Ok 0 cs' /\
    ConstraintSet.baumgarteParameters cs' !! 0%nat = Some (Vec2 0 0).
Proof.
  destruct (AddLoopConstraint_default_arguments
              ConstraintSet.new 0 0
              SpatialTransform_default SpatialTransform_default
              (SVec 0 0 0 1 0 0) None)
    as (cs' & E & _ & _ & _ & _ & _ & _ & _ & _ & Hco & _).
  - vm_compute. repeat split; reflexivity.
  - vm_compute. reflexivity.
  - vm_compute. discriminate.
  - exists cs'. split; [exact E|exact Hco].
Defined.

Lemma per_row_vectors_share_rows_witness :
  ConstraintSet.Bind Sample.init_model Sample.registered_set
    = Ok true Sample.bound_set /\
  ConstraintSet.size Sample.bound_set = 4 /\
  length (ConstraintSet.err Sample.bound_set) = 4%nat /\
  length (ConstraintSet.v_plus Sample.bound_set) = 4%nat /\
  ConstraintSet.constraintType Sample.bound_set !! 3%nat
    = Some ConstraintSet.ConstraintTypeCustom.
Proof.
  destruct (per_row_vectors_share_rows Sample.objects Sample.registrations)
    as (idxs & cs & E & Hrows).
  - repeat constructor. exists Sample.two_rows. reflexivity.
  - assert (Hcs : cs = Sample.registered_set).
    { assert (E' : register_all Sample.objects Sample.registrations
                     ConstraintSet.new = Ok [0; 1; 2] Sample.registered_set)
        by (vm_compute; reflexivity).
      rewrite E in E'. injection E' as _ Hcs. exact Hcs. }
    subst cs.
    assert (EB : ConstraintSet.Bind Sample.init_model Sample.registered_set
                 = Ok true Sample.bound_set) by (vm_compute; reflexivity).
    destruct (Hrows Sample.init_model Sample.bound_set EB)
      as (He & _ & _ & _ & _ & Hv & Hsize & _ & Hrow).
    split; [exact EB|]. split; [exact Hsize|]. split; [exact He|].
    split; [exact Hv|].
    destruct (Hrow 3%nat (mkRow ConstraintSet.ConstraintTypeCustom ""%string 0
                            (Vec3 0 0 0) (Vec3 0 0 0) 0 0
                            SpatialTransform_default SpatialTransform_default
                            (SVec 0 0 0 0 0 0) (Vec2 0 0) 0%float))
      as (Hty & _); [vm_compute; reflexivity|].
    exact Hty.
Defined.



(** An object that does not keep the contract: [Sample.two_rows] writes every
    row of [err], and what it wrote into the contact row stays there. *)
Lemma write_outside_own_rows_stays :
  ConstraintSet.CalcConstraintsPositionError Sample.objects Sample.init_model
    [1%float] Sample.bound_set [7; 7; 7; 7]%float
    = Ok tt [1; 1; 1; 1]%float.
Proof. vm_compute. reflexivity. Qed.

Lemma CalcAssemblyQ_returns_true_iff_converged_witness :
  exists (success : bool) (k : nat),
    ConstraintSet.CalcAssemblyQ Sample.objects Sample.init_model [1%float]
      Sample.bound_set [1%float] (Some 0.5%float) (Some 5) []
      = Ok success
          (iterate Sample.objects Sample.init_model Sample.bound_set
             [1%float] [1%float] k) /\
    (k <= 5)%nat.
Proof.
  destruct (CalcAssemblyQ_returns_true_iff_converged Sample.objects
              Sample.registrations Sample.init_model Sample.init_model
              [0; 1; 2] Sample.registered_set Sample.bound_set
              [1%float] [1%float] [] (Some 0.5%float) (Some 5))
    as (_ & success & k & E & Hk & _).
  - vm_compute. reflexivity.
  - vm_compute. reflexivity.
  - vm_compute. discriminate.
  - exists success, k. split; [exact E|exact Hk].
Defined.

Lemma Init_creates_root_witness :
  exists m : Model.Model,
    Model.Init Sample.empty_model = Ok tt m /\ Model.lambda m = [0].
Proof.
  destruct (Init_creates_root Sample.empty_model) as (m & E & _ & Hlam & _).
  - vm_compute. repeat split; reflexivity.
  - exists m. split; [exact E|exact Hlam].
Defined.

Lemma AddBody_rejects_undefined_joint_witness :
  Model.AddBody 0 SpatialTransform_default Joint_default Body_default
    "b"%string Sample.init_model = Abort.
Proof.
  apply AddBody_rejects_undefined_joint. vm_compute. reflexivity.
Defined.

Lemma AddBody_throws_beyond_new_index_witness :
  exists m' : Model.Model,
    Model.AddBody 2 SpatialTransform_default
      (Joint_ctor JointTypeRevolute (Vec3 0 0 1)) Body_default "b"%string
      Sample.init_model = Throw m' /\
    Model.lambda m' = [0; 2].
Proof.
  destruct (AddBody_throws_beyond_new_index Sample.init_model 2
              SpatialTransform_default
              (Joint_ctor JointTypeRevolute (Vec3 0 0 1)) Body_default
              "b"%string) as (m' & E & Hlam & _).
  - vm_compute. discriminate.
  - vm_compute. discriminate.
  - vm_compute. reflexivity.
  - exists m'. split; [exact E|exact Hlam].
Defined.

Lemma AddBody_accepts_own_index_witness :
  exists m' : Model.Model,
    Model.AddBody 1 SpatialTransform_default
      (Joint_ctor JointTypeRevolute (Vec3 0 0 1)) Body_default "b"%string
      Sample.init_model = Ok 1 m' /\
    Model.lambda m' = [0; 1].
Proof.
  destruct (AddBody_accepts_own_index Sample.init_model
              SpatialTransform_default
              (Joint_ctor JointTypeRevolute (Vec3 0 0 1)) Body_default
              "b"%string) as (m' & E & Hlam & _).
  - vm_compute. repeat split; first [reflexivity|discriminate].
  - vm_compute. reflexivity.
  - vm_compute. discriminate.
  - exists m'. split; [exact E|exact Hlam].
Defined.

Lemma SetFloatingBaseBody_experimental_witness :
  exists m' : Model.Model,
    Model.SetFloatingBaseBody Body_default
      (Model.set_experimental_floating_base true Sample.init_model) = Ok 0 m' /\
    Model.dof_count m' = 6 /\
    Model.lambda m' = [UINT_MAX].
Proof.
  destruct (SetFloatingBaseBody_experimental
              (Model.set_experimental_floating_base true Sample.init_model)
              Body_default) as (m' & E & Hdof & Hlam & _).
  - vm_compute. reflexivity.
  - vm_compute. discriminate.
  - vm_compute. discriminate.
  - vm_compute. discriminate.
  - vm_compute. discriminate.
  - exists m'. split; [exact E|]. split; [exact Hdof|exact Hlam].
Defined.

Lemma built_init_model : built Sample.init_model.
Proof.
  apply (built_Init Sample.empty_model); [|vm_compute; reflexivity].
  vm_compute. repeat split; reflexivity.
Defined.

Lemma built_one_body_model : built Sample.one_body_model.
Proof.
  apply (built_AddBody Sample.init_model 0 SpatialTransform_default
           (Joint_ctor JointTypeRevolute (Vec3 0 0 1))
           (Body_ctor 1 (Vec3 0 0 0) (Vec3 1 1 1)) "b1"%string 1).
  - exact built_init_model.
  - vm_compute. split; discriminate.
  - vm_compute. reflexivity.
  - vm_compute. reflexivity.
Defined.

Lemma AddBody_aborts_without_root_witness :
  Model.AddBody 0 SpatialTransform_default
    (Joint_ctor JointTypeRevolute (Vec3 0 0 1)) Body_default "b"%string
    Sample.empty_model = Abort.
Proof.
  apply AddBody_aborts_without_root. vm_compute. reflexivity.
Defined.

Lemma GetBodyId_ROOT_is_zero_witness :
  Model.GetBodyId 3 "ROOT" Sample.one_body_model = Ok 0 Sample.one_body_model.
Proof.
  apply GetBodyId_ROOT_is_zero.
  - exact built_one_body_model.
  - vm_compute. lia.
Defined.

Lemma GetBodyId_finds_added_body_witness :
  exists (id : Z) (m' : Model.Model),
    Model.AddBody 1 SpatialTransform_default
      (Joint_ctor JointTypePrismatic (Vec3 1 0 0)) Body_default "b2"%string
      Sample.one_body_model = Ok id m' /\
    Model.GetBodyId 4 "b2" m' = Ok id m'.
Proof.
  destruct (GetBodyId_finds_added_body Sample.one_body_model 1
              SpatialTransform_default
              (Joint_ctor JointTypePrismatic (Vec3 1 0 0)) Body_default
              "b2"%string 4) as (id & m' & E & Hget & _).
  - exact built_one_body_model.
  - vm_compute. split; discriminate.
  - vm_compute. reflexivity.
  - vm_compute. discriminate.
  - vm_compute. reflexivity.
  - change (Model.mBodyNames Sample.one_body_model)
      with ["ROOT"%string; "b1"%string].
    apply not_elem_of_cons. split; [discriminate|].
    apply not_elem_of_cons. split; [discriminate|].
    apply not_elem_of_nil.
  - vm_compute. lia.
  - exists id, m'. split; [exact E|exact Hget].
Defined.

Lemma AddBody_keeps_found_names_witness :
  exists (k : Z) (m' : Model.Model),
    Model.AddBody 0 SpatialTransform_default
      (Joint_ctor JointTypePrismatic (Vec3 1 0 0)) Body_default "b1"%string
      Sample.one_body_model = Ok k m' /\
    Model.GetBodyId 4 "b1" m' = Ok 1 m' /\
    1 < k.
Proof.
  apply (AddBody_keeps_found_names Sample.one_body_model 0
           SpatialTransform_default
           (Joint_ctor JointTypePrismatic (Vec3 1 0 0)) Body_default
           "b1"%string "b1"%string 4 1).
  - exact built_one_body_model.
  - vm_compute. split; discriminate.
  - vm_compute. reflexivity.
  - vm_compute. discriminate.
  - vm_compute. lia.
  - vm_compute. reflexivity.
  - vm_compute. discriminate.
Defined.

Lemma AddBody_stores_arguments_witness :
  exists (id : Z) (m' : Model.Model),
    Model.AddBody 1 SpatialTransform_default
      (Joint_ctor JointTypePrismatic (Vec3 1 0 0)) Body_default "b2"%string
      Sample.one_body_model = Ok id m' /\
    Model.lambda m' !! Z.to_nat id = Some 1 /\
    Model.mBodyNames m' !! Z.to_nat id = Some "b2"%string.
Proof.
  destruct (AddBody_stores_arguments Sample.one_body_model 1
              SpatialTransform_default
              (Joint_ctor JointTypePrismatic (Vec3 1 0 0)) Body_default
              "b2"%string)
    as (id & m' & E & Hlam & _ & _ & _ & _ & _ & _ & Hname).
  - vm_compute. repeat split; first [reflexivity|discriminate].
  - vm_compute. split; discriminate.
  - vm_compute. reflexivity.
  - vm_compute. discriminate.
  - exists id, m'. split; [exact E|]. split; [exact Hlam|exact Hname].
Defined.

Lemma built_bodies_descend_from_root_witness :
  ancestor (Model.lambda Sample.one_body_model) 1 1 = Some 0.
Proof.
  apply (built_bodies_descend_from_root Sample.one_body_model 1).
  - exact built_one_body_model.
  - vm_compute. split; discriminate.
Defined.

Lemma built_joints_defined_witness :
  exists joint : Joint,
    Model.mJoints Sample.one_body_model !! 1%nat = Some joint /\
    mJointType joint <> JointTypeUndefined.
Proof.
  apply (built_joints_defined Sample.one_body_model 1).
  - exact built_one_body_model.
  - vm_compute. split; [reflexivity|discriminate].
Defined.

Lemma SetFloatingBaseBody_without_root_witness :
  Model.SetFloatingBaseBody Body_default Sample.empty_model = Abort.
Proof.
  apply (SetFloatingBaseBody_without_root Sample.empty_model Body_default).
  - vm_compute. reflexivity.
  - vm_compute. reflexivity.
Defined.

Lemma AddBody_after_experimental_floating_base_witness :
  exists m1 m2 : Model.Model,
    Model.SetFloatingBaseBody Body_default
      (Model.set_experimental_floating_base true Sample.init_model)
      = Ok 0 m1 /\
    Model.AddBody 0 SpatialTransform_default
      (Joint_ctor JointTypeRevolute (Vec3 0 0 1)) Body_default "b"%string m1
      = Ok 7 m2 /\
    Model.mBodies m2 !! 1%nat = Some Body_default /\
    Model.mBodies m2 !! 7%nat = None.
Proof.
  destruct (AddBody_after_experimental_floating_base
              (Model.set_experimental_floating_base true Sample.init_model)
              Body_default 0 SpatialTransform_default
              (Joint_ctor JointTypeRevolute (Vec3 0 0 1)) Body_default
              "b"%string)
    as (m1 & m2 & E1 & E2 & Hat & Hnone & _).
  - vm_compute. repeat split; first [reflexivity|discriminate].
  - vm_compute. reflexivity.
  - vm_compute. reflexivity.
  - vm_compute. split; discriminate.
  - vm_compute. discriminate.
  - exists m1, m2. split; [exact E1|]. split; [exact E2|].
    split; [exact Hat|exact Hnone].
Defined.

Lemma SetFloatingBaseBody_body_not_found_by_name_witness :
  exists (m' : Model.Model) (i : Z),
    Model.SetFloatingBaseBody Body_default Sample.init_model = Ok 6 m' /\
    Model.GetBodyId 8 AddBody_default_body_name m' = Ok i m' /\
    i <= 1.
Proof.
  destruct (SetFloatingBaseBody_body_not_found_by_name Sample.init_model
              Body_default 8) as (m' & i & E & _ & Hget & Hi).
  - exact built_init_model.
  - vm_compute. reflexivity.
  - vm_compute. lia.
  - exists m', i. split; [exact E|]. split; [exact Hget|exact Hi].
Defined.

Lemma built_child_listed_once_witness :
  exists (p : nat) (children : list Z),
    Model.lambda Sample.one_body_model !! 1%nat = Some (Z.of_nat p) /\
    Model.mu Sample.one_body_model !! p = Some children /\
    1 ∈ children.
Proof.
  destruct (built_child_listed_once Sample.one_body_model 1)
    as (p & children & Hlam & Hmu & Hin & _).
  - exact built_one_body_model.
  - vm_compute. split; [reflexivity|discriminate].
  - exists p, children. split; [exact Hlam|]. split; [exact Hmu|exact Hin].
Defined.
